(** * TRUTH X front end: a shallow embedding of the analysis dashboard,
      the analyze page, the API client and the authentication context.

    Sources embedded here:
    - [src/components/ResultsDashboard.tsx]  (mock table, result merge,
      fingerprint / status / anomaly / insight builders, colouring)
    - [src/app/analyze/page.tsx]             (analyzeFile, startRealAnalysis)
    - [src/services/api.ts]                  (checkBackendHealth, analyzeContent)
    - [src/context/AuthContext.tsx], [src/app/login/page.tsx],
      [src/app/signup/page.tsx]              (login / signup / logout)
    - the history page                       (getScoreColor, mockHistory)

    Conventions.  A value read out of the API response is dynamically typed
    in the source ([apiResult : any]); leaves of the response are modelled by
    [JsVal] (undefined, null, booleans, numbers, strings) and the objects the
    dashboard reads by records whose fields may be missing; a response in
    which such an object is replaced by a value of another type is outside
    the model.  Numbers are rationals: the order comparisons of the source
    are all against integer constants, so rounding a JSON literal to a double
    does not change their outcome (a literal that underflows to zero apart);
    two numbers are equal when their values are.  What a number looks like
    once printed is left to the host ([Builtins]).  A string is held as the
    bytes of its UTF-8 encoding, as the literals of this file are. *)

From Stdlib Require Import ZArith QArith Ascii Lia Sorted.
From stdpp Require Import base strings list gmap pretty.

Open Scope string_scope.
Open Scope list_scope.
Open Scope Z_scope.

(** ** JavaScript values *)

Inductive JsVal : Type :=
  | Undefined
  | Null
  | JBool (b : bool)
  | Num (q : Q)
  | Str (s : string).

(** An object-valued field of the response: absent, [null], or an object. *)
Inductive Maybe (A : Type) : Type :=
  | Missing
  | IsNull
  | Obj (a : A).
Arguments Missing {A}.
Arguments IsNull {A}.
Arguments Obj {A} a.

(** [!!v] *)
Definition truthy (v : JsVal) : bool :=
  match v with
  | Undefined | Null => false
  | JBool b => b
  | Num q => negb (Qeq_bool q 0)
  | Str s => negb (String.eqb s "")
  end.

(** [!!o] for an object-valued field: objects and arrays are always truthy. *)
Definition present {A} (o : Maybe A) : bool :=
  match o with Obj _ => true | _ => false end.

(** [a || b] *)
Definition js_or (a b : JsVal) : JsVal := if truthy a then a else b.

(** [a ?? b] *)
Definition nullish (a b : JsVal) : JsVal :=
  match a with Undefined | Null => b | _ => a end.

(** [o || dflt] for an object-valued field. *)
Definition or_empty {A} (o : Maybe A) (dflt : A) : A :=
  match o with Obj a => a | _ => dflt end.

(** [a === b] on primitive values. *)
Definition strict_eq (a b : JsVal) : bool :=
  match a, b with
  | Undefined, Undefined => true
  | Null, Null => true
  | JBool x, JBool y => Bool.eqb x y
  | Num x, Num y => Qeq_bool x y
  | Str x, Str y => String.eqb x y
  | _, _ => false
  end.

Definition strict_ne (a b : JsVal) : bool := negb (strict_eq a b).

(** What the host provides: parsing a string as a number ([None] is NaN),
    printing a number, [Number.prototype.toLocaleString] and
    [Number.prototype.toFixed]. *)
Record Builtins : Type := {
  strToNum : string -> option Q;
  numToStr : Q -> string;
  numToLocale : Q -> string;
  numToFixed : nat -> Q -> string
}.

(** [s.includes(needle)] *)
Fixpoint includes (needle s : string) : bool :=
  String.prefix needle s ||
  match s with
  | EmptyString => false
  | String _ rest => includes needle rest
  end.

Section Values.
Variable B : Builtins.

(** ToNumber; [None] stands for NaN. *)
Definition toNumber (v : JsVal) : option Q :=
  match v with
  | Undefined => None
  | Null => Some 0%Q
  | JBool b => Some (if b then 1%Q else 0%Q)
  | Num q => Some q
  | Str s => strToNum B s
  end.

(** The relational operators after ToNumber on both sides; a comparison
    with NaN is false. *)
Definition js_rel (r : Q -> Q -> bool) (a b : JsVal) : bool :=
  match toNumber a, toNumber b with
  | Some x, Some y => r x y
  | _, _ => false
  end.

Definition Qlt_bool (x y : Q) : bool := negb (Qle_bool y x).

Definition js_gt (a b : JsVal) : bool := js_rel (fun x y => Qlt_bool y x) a b.
Definition js_lt (a b : JsVal) : bool := js_rel Qlt_bool a b.
Definition js_ge (a b : JsVal) : bool := js_rel (fun x y => Qle_bool y x) a b.

(** ToString, as a template literal applies it. *)
Definition toStr (v : JsVal) : string :=
  match v with
  | Undefined => "undefined"
  | Null => "null"
  | JBool true => "true"
  | JBool false => "false"
  | Num q => numToStr B q
  | Str s => s
  end.

(** [v.toLocaleString()]; the source calls it on truthy values only (on
    undefined or null it would throw). *)
Definition toLocaleString (v : JsVal) : string :=
  match v with
  | Num q => numToLocale B q
  | _ => toStr v
  end.

(** [(v * 100).toFixed(d)] *)
Definition pctFixed (d : nat) (v : JsVal) : string :=
  match toNumber v with
  | Some q => numToFixed B d (q * 100)%Q
  | None => "NaN"
  end.
End Values.

(** ** The dashboard's data ([ResultsDashboard.tsx]) *)

Inductive Tab : Type := video | audio | text | image.

Module Timeline.
Record item : Type := {
  label : string;
  tag : string;
  color : string;
  suspicious : bool
}.
End Timeline.

Module Drift.
(** [{ t, v }]: an offset label and the authenticity value there. *)
Record point : Type := { t : JsVal; v : JsVal }.
End Drift.

Module Fingerprint.
Record item : Type := {
  label : string;
  value : JsVal;
  suspicious : bool;
  section : option string
}.
End Fingerprint.

(** One row of [mockResults]. *)
Module Mock.
Record row : Type := {
  score : Q;
  status : string;
  risk : string;
  confidence : Q;
  anomalies : list string;
  insights : list string;
  timeline : list Timeline.item;
  driftData : list Drift.point;
  fingerprint : list Fingerprint.item
}.
End Mock.

Definition ev (l g c : string) (s : bool) : Timeline.item :=
  {| Timeline.label := l; Timeline.tag := g; Timeline.color := c;
     Timeline.suspicious := s |}.

Definition dp (t : string) (v : Q) : Drift.point :=
  {| Drift.t := Str t; Drift.v := Num v |}.

(** A mock fingerprint entry: no [section] key. *)
Definition fp (l v : string) (s : bool) : Fingerprint.item :=
  {| Fingerprint.label := l; Fingerprint.value := Str v;
     Fingerprint.suspicious := s; Fingerprint.section := None |}.

(** [mockResults].  The table is a module-level constant, so the
    [new Date().toLocaleString(...)] of the image row is evaluated once, when
    the module is loaded; [loadTime] is the string it produced. *)
Definition mockResults (loadTime : string) (tab : Tab) : Mock.row :=
  match tab with
  | video =>
    {| Mock.score := 18;
       Mock.status := "AI-Generated";
       Mock.risk := "high";
       Mock.confidence := 94;
       Mock.anomalies := [
         "Facial blending artifacts detected at frames 142–189";
         "Eye blink pattern inconsistent with natural behavior";
         "Lighting discontinuity around jaw and hairline";
         "GAN fingerprint signature detected in pixel distribution";
         "Audio-visual sync drift +230ms at 0:14" ];
       Mock.insights := [
         "This video shows strong indicators of a face-swap deepfake. The facial region has been digitally replaced using a generative AI model.";
         "Natural eye blinking occurs 15–20 times per minute. This video shows irregular blinking that does not match normal human patterns.";
         "The audio does not perfectly match the lip movements — a common sign of synthetic media." ];
       Mock.timeline := [
         ev "Original upload" "Source detected" "#00ff9d" false;
         ev "Frame manipulation" "Edited" "#ffd700" true;
         ev "Audio replacement" "Synthetic voice" "#ff6b35" true;
         ev "Re-encoded" "Reused Media" "#ffd700" true;
         ev "Social post" "Reposted 142x" "#a855f7" false;
         ev "Flagged by TRUTH X" "Possible Manipulation" "#ff4444" true ];
       Mock.driftData := [
         dp "0s" 82; dp "5s" 78; dp "10s" 71; dp "15s" 34;
         dp "20s" 22; dp "25s" 19; dp "30s" 16; dp "35s" 18 ];
       Mock.fingerprint := [
         fp "File Hash (SHA-256)" "a1f4...d892" false;
         fp "Creation Date" "2026-01-12 03:42 UTC" true;
         fp "GPS Metadata" "Stripped — suspicious" true;
         fp "Software Tag" "FaceSwap v2.3.1" true;
         fp "Resolution" "1920×1080 (upscaled)" true;
         fp "Codec" "H.264 — re-encoded" false ] |}
  | audio =>
    {| Mock.score := 31;
       Mock.status := "Synthetic Voice";
       Mock.risk := "high";
       Mock.confidence := 91;
       Mock.anomalies := [
         "Voice frequency spectrum shows TTS neural pattern";
         "Prosody pattern matches ElevenLabs voice model";
         "No natural breathing pauses detected between sentences";
         "Formant transitions too smooth — unnatural";
         "Background noise artificially added post-synthesis" ];
       Mock.insights := [
         "This audio clip appears to be generated using a neural text-to-speech (TTS) system, commonly used in AI voice scam calls.";
         "Natural human speech contains micro-pauses, breath sounds, and slight frequency variations. This audio is unusually clean — a sign of synthesis.";
         "The voice model matches a known commercial voice cloning platform with 91% confidence." ];
       Mock.timeline := [
         ev "Voice sample source" "Public recording" "#00ff9d" false;
         ev "Voice cloned" "Synthetic Voice" "#ff4444" true;
         ev "Script generated" "AI Text" "#ffd700" true;
         ev "Call initiated" "Scam attempt" "#ff4444" true;
         ev "Flagged by TRUTH X" "Possible Manipulation" "#ff4444" true ];
       Mock.driftData := [
         dp "0s" 70; dp "3s" 65; dp "6s" 50; dp "9s" 35;
         dp "12s" 28; dp "15s" 32; dp "18s" 29; dp "21s" 31 ];
       Mock.fingerprint := [
         fp "Audio Hash" "c8b2...f441" false;
         fp "Sample Rate" "22050 Hz (TTS default)" true;
         fp "Bit Depth" "16-bit PCM" false;
         fp "Voice Model Match" "ElevenLabs — 91% match" true;
         fp "Duration" "42.3 seconds" false;
         fp "Background Noise" "Artificially added" true ] |}
  | text =>
    {| Mock.score := 72;
       Mock.status := "Partially AI-Generated";
       Mock.risk := "medium";
       Mock.confidence := 83;
       Mock.anomalies := [
         "Burstiness score 0.12 — below human threshold (0.4+)";
         "Perplexity anomalies in paragraphs 2, 4, and 6";
         "Repetitive sentence structure typical of LLM output";
         "4 factual claims could not be verified against known sources";
         "Publication date inconsistency detected" ];
       Mock.insights := [
         "This article shows mixed signals — some sections appear human-written, others show strong AI generation patterns.";
         "AI-generated text tends to have a more uniform 'burstiness' — meaning sentences are similarly structured. Human writing is more varied.";
         "While the article is not entirely fabricated, key statistics cited in paragraphs 2 and 4 could not be verified and may be hallucinated by an AI model." ];
       Mock.timeline := [
         ev "Article published" "Original post" "#00ff9d" false;
         ev "Partially rewritten" "AI-assisted edit" "#ffd700" true;
         ev "Stats altered" "Context Changed" "#ff6b35" true;
         ev "Reshared as news" "Reused Media" "#ffd700" true;
         ev "Flagged by TRUTH X" "Possible Manipulation" "#ff4444" true ];
       Mock.driftData := [
         dp "P1" 85; dp "P2" 72; dp "P3" 80;
         dp "P4" 55; dp "P5" 75; dp "P6" 60; dp "P7" 70 ];
       Mock.fingerprint := [
         fp "Word Count" "1,240 words" false;
         fp "Burstiness Score" "0.12 (below 0.4 threshold)" true;
         fp "Author" "Unknown / No byline" true;
         fp "Publication Date" "3 days in future" true;
         fp "Domain Age" "Created 4 weeks ago" true;
         fp "Citations" "2/6 verifiable" true ] |}
  | image =>
    {| Mock.score := 91;
       Mock.status := "Authentic";
       Mock.risk := "low";
       Mock.confidence := 97;
       Mock.anomalies := [
         "No GAN fingerprint detected";
         "EXIF metadata consistent with claimed device";
         "Noise distribution matches natural camera sensor" ];
       Mock.insights := [
         "This image shows no signs of digital manipulation or AI generation. The pixel distribution, noise pattern, and metadata are all consistent with a genuine photograph.";
         "The EXIF data matches an authentic Canon EOS R5 camera with standard settings.";
         "No signs of copy-paste manipulation, cloning, or AI upscaling were found." ];
       Mock.timeline := [
         ev "Photo taken" "Original capture" "#00ff9d" false;
         ev "Minor color correction" "Minor edit" "#00d4ff" false;
         ev "Published online" "Social share" "#a855f7" false;
         ev "Verified by TRUTH X" "Authentic" "#00ff9d" false ];
       Mock.driftData := [
         dp "R1" 92; dp "R2" 90; dp "R3" 93;
         dp "R4" 91; dp "R5" 94; dp "R6" 89 ];
       Mock.fingerprint := [
         fp "File Hash (SHA-256)" "9e7c...a201" false;
         fp "Device" "Canon EOS R5" false;
         fp "GPS Location" "Present & consistent" false;
         fp "Software" "Adobe Lightroom (minor edit)" false;
         fp "Timestamp" loadTime false;
         fp "Resolution" "8192×5464 (original)" false ] |}
  end.

(** ** The API response, as far as the dashboard reads it *)

Module FileInfo.
Record t : Type := {
  file_name : JsVal;
  container_format : JsVal;
  file_size_mb : JsVal;
  duration_human : JsVal;
  duration_seconds : JsVal;
  total_bitrate_kbps : JsVal;
  nb_streams : JsVal
}.
(** [{}] *)
Definition empty : t :=
  Build_t Undefined Undefined Undefined Undefined Undefined Undefined Undefined.
End FileInfo.

Module VideoMeta.
Record t : Type := {
  codec : JsVal;
  profile : JsVal;
  width : JsVal;
  resolution : JsVal;
  display_aspect_ratio : JsVal;
  fps : JsVal;
  avg_fps : JsVal;
  bitrate_kbps : JsVal;
  pixel_format : JsVal;
  bit_depth : JsVal;
  color_space : JsVal;
  total_frames : JsVal;
  rotation : JsVal
}.
Definition empty : t :=
  Build_t Undefined Undefined Undefined Undefined Undefined Undefined
          Undefined Undefined Undefined Undefined Undefined Undefined
          Undefined.
End VideoMeta.

Module AudioMeta.
Record t : Type := {
  codec : JsVal;
  profile : JsVal;
  sample_rate_hz : JsVal;
  channels : JsVal;
  channel_layout : JsVal;
  bitrate_kbps : JsVal;
  language : JsVal
}.
Definition empty : t :=
  Build_t Undefined Undefined Undefined Undefined Undefined Undefined Undefined.
End AudioMeta.

Module Tags.
Record t : Type := {
  camera_device : JsVal;
  manufacturer : JsVal;
  software_version : JsVal;
  gps_location : JsVal;
  creation_time : JsVal;
  encoder : JsVal;
  major_brand : JsVal;
  title : JsVal;
  comment : JsVal
}.
Definition empty : t :=
  Build_t Undefined Undefined Undefined Undefined Undefined Undefined
          Undefined Undefined Undefined.
End Tags.

Module Metadata.
(** [other_keys]: the names of any further keys of the object; the
    dashboard never reads them, but [Object.keys] counts them. *)
Record t : Type := {
  original_filename : JsVal;
  file_info : Maybe FileInfo.t;
  video : Maybe VideoMeta.t;
  audio : Maybe AudioMeta.t;
  tags : Maybe Tags.t;
  other_keys : list string
}.
Definition empty : t :=
  Build_t Undefined Missing Missing Missing Missing [].

Definition has_key (v : JsVal) : nat :=
  match v with Undefined => 0%nat | _ => 1%nat end.
Definition has_obj {A} (o : Maybe A) : nat :=
  match o with Missing => 0%nat | _ => 1%nat end.

(** [Object.keys(m).length] *)
Definition key_count (m : t) : nat :=
  (has_key (original_filename m) + has_obj (file_info m) + has_obj (video m)
   + has_obj (audio m) + has_obj (tags m) + length (other_keys m))%nat.
End Metadata.

Module Flag.
Record t : Type := { label : JsVal; detail : JsVal }.
End Flag.

Module RiskAssessment.
Record t : Type := {
  flags : Maybe (list Flag.t);
  authenticity_score : JsVal
}.
Definition empty : t := Build_t Missing Undefined.
End RiskAssessment.

Module VideoML.
Record t : Type := {
  label : JsVal;
  confidence : JsVal;
  per_frame : Maybe (list JsVal)
}.
End VideoML.

Module TextML.
Record t : Type := {
  label : JsVal;
  ai_probability : JsVal;
  human_probability : JsVal
}.
End TextML.

Module Article.
Record t : Type := { title : JsVal; similarity_score : JsVal }.
End Article.

Module Api.
Record t : Type := {
  score : JsVal;
  risk_level : JsVal;
  metadata : Maybe Metadata.t;
  risk_assessment : Maybe RiskAssessment.t;
  video_analysis : Maybe VideoML.t;
  text_analysis : Maybe TextML.t;
  related_articles : Maybe (list Article.t);
  drift_data : Maybe (list Drift.point);
  models_used : JsVal
}.
Definition empty : t :=
  Build_t Undefined Undefined Missing Missing Missing Missing Missing
          Missing Undefined.
End Api.

(** [apiResult?.f] for a leaf and for an object-valued field. *)
Definition opt_leaf (api : Maybe Api.t) (f : Api.t -> JsVal) : JsVal :=
  match api with Obj a => f a | _ => Undefined end.

Definition opt_obj {A} (api : Maybe Api.t) (f : Api.t -> Maybe A) : Maybe A :=
  match api with Obj a => f a | _ => Missing end.

(** The object the component assembles in [result]. *)
Module Result.
Record t : Type := {
  score : JsVal;
  status : string;
  risk : JsVal;
  confidence : JsVal;
  anomalies : list string;
  insights : list string;
  timeline : list Timeline.item;
  driftData : list Drift.point;
  fingerprint : list Fingerprint.item
}.
End Result.

(** The double-quote character, for the one template that prints it. *)
Definition dq : string := String (Ascii.ascii_of_nat 34) EmptyString.

(** [`${n}`] for an array length. *)
Definition lenStr (B : Builtins) {A} (l : list A) : string :=
  numToStr B (inject_Z (Z.of_nat (length l))).

(** ** [ResultsDashboard]: everything computed before rendering *)

Section ResultsDashboard.
Variable B : Builtins.
Variable loadTime : string.
Variable tab : Tab.
Variable apiResult : Maybe Api.t.

Definition videoML : Maybe VideoML.t := opt_obj apiResult Api.video_analysis.
Definition textML : Maybe TextML.t := opt_obj apiResult Api.text_analysis.
Definition relatedArticles : list Article.t :=
  or_empty (opt_obj apiResult Api.related_articles) [].

Definition hasMetadata : bool :=
  match opt_obj apiResult Api.metadata with
  | Obj m => (0 <? Metadata.key_count m)%nat
  | _ => false
  end.
Definition hasML : bool := present videoML || present textML.
Definition hasRealData : bool :=
  hasMetadata || hasML || strict_ne (opt_leaf apiResult Api.score) Undefined.
Definition realMeta : Metadata.t :=
  or_empty (opt_obj apiResult Api.metadata) Metadata.empty.
Definition realRisk : RiskAssessment.t :=
  or_empty (opt_obj apiResult Api.risk_assessment) RiskAssessment.empty.
Definition realScore : JsVal := nullish (opt_leaf apiResult Api.score) Null.
Definition realRiskLevel : JsVal :=
  nullish (opt_leaf apiResult Api.risk_level) Null.
Definition mock : Mock.row := mockResults loadTime tab.

Definition item (l : string) (v : JsVal) (s : bool) (sec : string)
  : Fingerprint.item :=
  {| Fingerprint.label := l; Fingerprint.value := v;
     Fingerprint.suspicious := s; Fingerprint.section := Some sec |}.

(** [if (c) items.push(...)] *)
Definition when {A} (c : bool) (l : list A) : list A := if c then l else [].

Definition fileItems (fi : FileInfo.t) (vid : VideoMeta.t)
  : list Fingerprint.item :=
  [ item "File Name"
      (js_or (js_or (Metadata.original_filename realMeta)
                    (FileInfo.file_name fi)) (Str "Unknown"))
      false "File";
    item "Container Format"
      (js_or (FileInfo.container_format fi) (Str "Unknown")) false "File";
    item "File Size"
      (if truthy (FileInfo.file_size_mb fi)
       then Str (toStr B (FileInfo.file_size_mb fi) +:+ " MB")
       else Str "N/A")
      false "File";
    item "Duration"
      (js_or (FileInfo.duration_human fi)
         (Str (toStr B (js_or (FileInfo.duration_seconds fi) (Num 0)) +:+ "s")))
      false "File";
    item "Total Bitrate"
      (if truthy (FileInfo.total_bitrate_kbps fi)
       then Str (toStr B (FileInfo.total_bitrate_kbps fi) +:+ " kbps")
       else Str "N/A")
      (js_gt B (FileInfo.total_bitrate_kbps fi) (Num 0)
       && js_lt B (FileInfo.total_bitrate_kbps fi) (Num 2000)
       && js_ge B (js_or (VideoMeta.width vid) (Num 0)) (Num 1920))
      "File";
    item "Streams"
      (Str (toStr B (js_or (FileInfo.nb_streams fi) (Num 0)))) false "File" ].

Definition videoItems (vid : VideoMeta.t) : list Fingerprint.item :=
  when (truthy (VideoMeta.codec vid))
    ([ item "Video Codec"
         (Str (toStr B (VideoMeta.codec vid) +:+
               (if truthy (VideoMeta.profile vid)
                   && strict_ne (VideoMeta.profile vid) (Str "unknown")
                then " (" +:+ toStr B (VideoMeta.profile vid) +:+ ")"
                else "")))
         false "Video";
       item "Resolution" (js_or (VideoMeta.resolution vid) (Str "N/A"))
         false "Video";
       item "Aspect Ratio"
         (js_or (VideoMeta.display_aspect_ratio vid) (Str "N/A"))
         false "Video";
       item "Frame Rate"
         (Str (toStr B (js_or (VideoMeta.fps vid) (Str "N/A")) +:+ " fps" +:+
               (if truthy (VideoMeta.avg_fps vid)
                   && strict_ne (VideoMeta.avg_fps vid) (VideoMeta.fps vid)
                then " (avg: " +:+ toStr B (VideoMeta.avg_fps vid) +:+ ")"
                else "")))
         false "Video";
       item "Video Bitrate"
         (if strict_ne (VideoMeta.bitrate_kbps vid) (Str "N/A")
          then Str (toStr B (VideoMeta.bitrate_kbps vid) +:+ " kbps")
          else Str "N/A")
         false "Video";
       item "Pixel Format"
         (js_or (VideoMeta.pixel_format vid) (Str "unknown")) false "Video";
       item "Bit Depth"
         (Str (toStr B (js_or (VideoMeta.bit_depth vid) (Num 8)) +:+ "-bit"))
         false "Video";
       item "Color Space"
         (if strict_ne (VideoMeta.color_space vid) (Str "unknown")
          then VideoMeta.color_space vid else Str "N/A")
         false "Video" ]
     ++ when (truthy (VideoMeta.total_frames vid))
          [ item "Total Frames"
              (Str (toLocaleString B (VideoMeta.total_frames vid)))
              false "Video" ]
     ++ when (truthy (VideoMeta.rotation vid)
              && strict_ne (VideoMeta.rotation vid) (Str "0"))
          [ item "Rotation"
              (Str (toStr B (VideoMeta.rotation vid) +:+ "°"))
              false "Video" ]).

Definition audioItems (aud : AudioMeta.t) : list Fingerprint.item :=
  when (truthy (AudioMeta.codec aud))
    ([ item "Audio Codec"
         (Str (toStr B (AudioMeta.codec aud) +:+
               (if truthy (AudioMeta.profile aud)
                then " (" +:+ toStr B (AudioMeta.profile aud) +:+ ")"
                else "")))
         false "Audio";
       item "Sample Rate"
         (if truthy (AudioMeta.sample_rate_hz aud)
          then Str (toLocaleString B (AudioMeta.sample_rate_hz aud) +:+ " Hz")
          else Str "N/A")
         false "Audio";
       item "Channels"
         (Str (toStr B (js_or (AudioMeta.channels aud) (Str "?")) +:+ " (" +:+
               toStr B (js_or (AudioMeta.channel_layout aud) (Str "unknown"))
               +:+ ")"))
         false "Audio";
       item "Audio Bitrate"
         (if strict_ne (AudioMeta.bitrate_kbps aud) (Str "N/A")
          then Str (toStr B (AudioMeta.bitrate_kbps aud) +:+ " kbps")
          else Str "N/A")
         false "Audio" ]
     ++ when (truthy (AudioMeta.language aud)
              && strict_ne (AudioMeta.language aud) (Str "unknown"))
          [ item "Language" (AudioMeta.language aud) false "Audio" ]).

Definition deviceItems (tags : Tags.t) : list Fingerprint.item :=
  when (truthy (Tags.camera_device tags))
    [ item "Camera / Device" (Tags.camera_device tags) false "Device" ]
  ++ when (truthy (Tags.manufacturer tags))
    [ item "Manufacturer" (Tags.manufacturer tags) false "Device" ]
  ++ when (truthy (Tags.software_version tags))
    [ item "Software" (Tags.software_version tags) false "Device" ].

Definition gpsItems (tags : Tags.t) : list Fingerprint.item :=
  if truthy (Tags.gps_location tags)
  then [ item "GPS Location" (Tags.gps_location tags) false "Location" ]
  else [ item "GPS Location" (Str "Not available") true "Location" ].

Definition tagItems (tags : Tags.t) : list Fingerprint.item :=
  when (truthy (Tags.creation_time tags))
    [ item "Creation Time" (Tags.creation_time tags) false "Tags" ]
  ++ when (truthy (Tags.encoder tags))
    [ item "Encoder" (Tags.encoder tags) true "Tags" ]
  ++ when (truthy (Tags.major_brand tags))
    [ item "Major Brand" (Tags.major_brand tags) false "Tags" ]
  ++ when (truthy (Tags.title tags))
    [ item "Title" (Tags.title tags) false "Tags" ]
  ++ when (truthy (Tags.comment tags))
    [ item "Comment" (Tags.comment tags) false "Tags" ].

(** The four locals of [buildFingerprint]: [realMeta.file_info || {}] and
    its like. *)
Definition fi : FileInfo.t :=
  or_empty (Metadata.file_info realMeta) FileInfo.empty.
Definition vid : VideoMeta.t :=
  or_empty (Metadata.video realMeta) VideoMeta.empty.
Definition aud : AudioMeta.t :=
  or_empty (Metadata.audio realMeta) AudioMeta.empty.
Definition tags : Tags.t :=
  or_empty (Metadata.tags realMeta) Tags.empty.

(** The items pushed once [hasRealData] holds, in push order. *)
Definition realFingerprint : list Fingerprint.item :=
  fileItems fi vid ++ videoItems vid ++ audioItems aud
  ++ deviceItems tags ++ gpsItems tags ++ tagItems tags.

Definition buildFingerprint : list Fingerprint.item :=
  if negb hasRealData then Mock.fingerprint mock else realFingerprint.

(** First branch of [buildStatus]: the video model's label. *)
Definition videoStatus : option string :=
  match videoML with
  | Obj m =>
    if truthy (VideoML.label m) && strict_ne (VideoML.label m) (Str "unknown")
    then if strict_eq (VideoML.label m) (Str "fake")
         then Some "Deepfake Detected"
         else if strict_eq (VideoML.label m) (Str "real")
              then Some "Likely Authentic" else None
    else None
  | _ => None
  end.

(** Second branch: the text model's label. *)
Definition textStatus : option string :=
  match textML with
  | Obj m =>
    if truthy (TextML.label m) && strict_ne (TextML.label m) (Str "unknown")
    then if strict_eq (TextML.label m) (Str "ai-generated")
         then Some "AI-Generated Text"
         else if strict_eq (TextML.label m) (Str "human-written")
              then Some "Human-Written" else None
    else None
  | _ => None
  end.

Definition buildStatus : string :=
  match videoStatus with
  | Some s => s
  | None =>
    match textStatus with
    | Some s => s
    | None =>
      if hasRealData && strict_ne realScore Null
      then if js_ge B realScore (Num 70) then "Likely Authentic"
           else if js_ge B realScore (Num 40) then "Suspicious"
           else "AI-Generated / Manipulated"
      else Mock.status mock
    end
  end.

(** [realRisk.flags.map(f => `${f.label}: ${f.detail}`)], pushed when the
    array is non-empty. *)
Definition flagItems : list string :=
  match RiskAssessment.flags realRisk with
  | Obj fs =>
    when (0 <? length fs)%nat
      (map (fun f => toStr B (Flag.label f) +:+ ": " +:+ toStr B (Flag.detail f))
           fs)
  | _ => []
  end.

Definition deepfakeItem : list string :=
  match videoML with
  | Obj m =>
    when (strict_eq (VideoML.label m) (Str "fake")
          && negb (existsb (includes "Deepfake") flagItems))
      [ "Deepfake Detected: ML model confidence " +:+
        pctFixed B 1 (VideoML.confidence m) +:+ "%" ]
  | _ => []
  end.

Definition aiTextItem : list string :=
  match textML with
  | Obj m =>
    when (strict_eq (TextML.label m) (Str "ai-generated"))
      [ "AI-Generated Text: " +:+ pctFixed B 1 (TextML.ai_probability m)
        +:+ "% probability" ]
  | _ => []
  end.

(** The local [items] of [buildAnomalies] after its three pushes. *)
Definition anomalyItems : list string :=
  flagItems ++ deepfakeItem ++ aiTextItem.

Definition buildAnomalies : list string :=
  if hasRealData then anomalyItems
  else if (0 <? length anomalyItems)%nat then anomalyItems
       else Mock.anomalies mock.

Definition videoInsight : list string :=
  match videoML with
  | Obj m =>
    when (truthy (VideoML.label m)
          && strict_ne (VideoML.label m) (Str "unknown"))
      [ if strict_eq (VideoML.label m) (Str "fake")
        then "The deepfake detection model classified this video as FAKE with "
             +:+ pctFixed B 1 (VideoML.confidence m) +:+ "% confidence. " +:+
             match VideoML.per_frame m with
             | Obj fr => lenStr B fr +:+ " frames were analyzed."
             | _ => ""
             end
        else "The deepfake detection model classified this video as REAL with "
             +:+ pctFixed B 1 (VideoML.confidence m) +:+
             "% confidence. No manipulation artifacts were detected in the analyzed frames." ]
  | _ => []
  end.

Definition textInsight : list string :=
  match textML with
  | Obj m =>
    when (truthy (TextML.label m)
          && strict_ne (TextML.label m) (Str "unknown"))
      [ if strict_eq (TextML.label m) (Str "ai-generated")
        then "The AI text detector identified this content as AI-generated with "
             +:+ pctFixed B 1 (TextML.ai_probability m) +:+
             "% probability. The text shows patterns consistent with large language model output."
        else "The AI text detector identified this content as human-written with "
             +:+ pctFixed B 1 (TextML.human_probability m) +:+ "% probability." ]
  | _ => []
  end.

Definition articleInsight : list string :=
  match relatedArticles with
  | top :: _ =>
    [ "Found " +:+ lenStr B relatedArticles +:+
      " related fact-check article(s). Top match: " +:+ dq +:+
      toStr B (js_or (Article.title top) (Str "Untitled")) +:+ dq +:+
      " (similarity: " +:+
      pctFixed B 0 (js_or (Article.similarity_score top) (Num 0)) +:+ "%)." ]
  | [] => []
  end.

Definition insightItems : list string :=
  videoInsight ++ textInsight ++ articleInsight.

Definition buildInsights : list string :=
  if (0 <? length insightItems)%nat then insightItems else Mock.insights mock.

(** [drift_data && drift_data.length > 0 ? drift_data : mock.driftData] *)
Definition mergedDrift : list Drift.point :=
  match opt_obj apiResult Api.drift_data with
  | Obj d => if (0 <? length d)%nat then d else Mock.driftData mock
  | _ => Mock.driftData mock
  end.

(** [const result = { ...mock, score: ..., risk: ..., ... }] *)
Definition result : Result.t :=
  {| Result.score := nullish realScore (Num (Mock.score mock));
     Result.status := buildStatus;
     Result.risk := nullish realRiskLevel (Str (Mock.risk mock));
     Result.confidence :=
       nullish (RiskAssessment.authenticity_score realRisk)
               (Num (Mock.confidence mock));
     Result.anomalies := buildAnomalies;
     Result.insights := buildInsights;
     Result.timeline := Mock.timeline mock;
     Result.driftData := mergedDrift;
     Result.fingerprint := buildFingerprint |}.
End ResultsDashboard.

(** ** Colouring *)

Module RiskCfg.
Record t : Type := { color : string; bg : string; border : string; label : string }.
End RiskCfg.

(** The table indexed by [result.risk]; [None] when the key is not one of
    the three. *)
Definition riskConfig (risk : JsVal) : option RiskCfg.t :=
  match risk with
  | Str "low" =>
    Some (RiskCfg.Build_t "#00ff9d" "rgba(0, 255, 157, 0.1)"
            "rgba(0, 255, 157, 0.2)" "LOW RISK")
  | Str "medium" =>
    Some (RiskCfg.Build_t "#ffd700" "rgba(255, 215, 0, 0.1)"
            "rgba(255, 215, 0, 0.2)" "MEDIUM RISK")
  | Str "high" =>
    Some (RiskCfg.Build_t "#ff4444" "rgba(255, 68, 68, 0.1)"
            "rgba(255, 68, 68, 0.2)" "HIGH RISK")
  | _ => None
  end.

Inductive Icon : Type := CheckCircle | AlertTriangle | XCircle.

Definition statusIcon (B : Builtins) (score : JsVal) : Icon * string :=
  if js_ge B score (Num 75) then (CheckCircle, "#00ff9d")
  else if js_ge B score (Num 45) then (AlertTriangle, "#ffd700")
  else (XCircle, "#ff4444").

Definition scoreColor (B : Builtins) (score : JsVal) : string :=
  if js_ge B score (Num 75) then "#00ff9d"
  else if js_ge B score (Num 45) then "#ffd700"
  else "#ff4444".

(** [getScoreColor] of the history page; its argument is typed [number]. *)
Definition getScoreColor (score : Q) : string :=
  if Qle_bool 75 score then "#00ff9d"
  else if Qle_bool 45 score then "#ffd700"
  else "#ff4444".

(** ** The network and a small monad for the effectful code

    The asynchronous code of [api.ts] and of the analyze page is sequential
    ([await] after [await]); it is modelled in a monad that threads the
    component state [S], appends to a log of observable events, and may
    throw.  The timers of the page only pace the animation and are modelled
    by their loops; the progress bar that runs beside the scan steps is
    presentation only and is left out. *)

Module File.
(** A browser [File]: its name and its size in bytes. *)
Record t : Type := { name : string; size : Z }.
End File.

Inductive FormValue : Type :=
  | FileField (f : File.t)
  | TextField (s : string).

(** [FormData]: [append] keeps order and duplicates. *)
Definition FormData : Type := list (string * FormValue).

Module Response.
(** [bodyJson] is what [response.json()] resolves to, [None] when the body
    is not JSON (the call then rejects). *)
Record t : Type := {
  status : Z;
  statusText : string;
  bodyText : string;
  bodyJson : option (Maybe Api.t)
}.
(** [response.ok] *)
Definition ok (r : t) : bool :=
  ((200 <=? status r) && (status r <=? 299))%Z.
End Response.

(** How a [fetch] settles: it rejects (no connection) or resolves with a
    response.  The source sets no timeout on its requests; a request that
    never settles is not an outcome of this type, and what is proved of a
    click is proved of a click whose requests settle. *)
Inductive FetchResult : Type :=
  | Rejected (reason : string)
  | Resolved (r : Response.t).

(** The back end as the front end sees it. *)
Record World : Type := {
  health : FetchResult;
  analyze : FormData -> FetchResult
}.

Inductive Request : Type :=
  | Get (url : string)
  | Post (url : string) (body : FormData).

Inductive Event : Type :=
  | Fetch (req : Request)
  | Alert (msg : string).

(** What can be thrown: a rejected [fetch], the [Error] that
    [analyzeContent] builds from a response that is not ok, or the failure of
    [response.json()]. *)
Inductive Exn : Type :=
  | NetworkError (reason : string)
  | ApiError (status : Z) (statusText errorText : string)
  | JsonError.

Section Monad.
Context {S : Type}.

Definition M (A : Type) : Type :=
  World -> S -> list Event -> S * list Event * (Exn + A).

Definition ret {A} (a : A) : M A := fun _ s l => (s, l, inr a).

Definition bind {A C} (m : M A) (k : A -> M C) : M C :=
  fun w s l =>
    match m w s l with
    | (s', l', inr a) => k a w s' l'
    | (s', l', inl e) => (s', l', inl e)
    end.

Definition throw {A} (e : Exn) : M A := fun _ s l => (s, l, inl e).

(** [try { m } catch (e) { h e }] *)
Definition try_catch {A} (m : M A) (h : Exn -> M A) : M A :=
  fun w s l =>
    match m w s l with
    | (s', l', inl e) => h e w s' l'
    | r => r
    end.

Definition emit (e : Event) : M unit := fun _ s l => (s, l ++ [e], inr tt).
Definition modify (f : S -> S) : M unit := fun _ s l => (f s, l, inr tt).
Definition ask : M World := fun w s l => (s, l, inr w).
End Monad.

#[global] Instance M_ret {S} : MRet (@M S) := @ret S.
#[global] Instance M_bind {S} : MBind (@M S) := fun A C k m => bind m k.

(** ** [api.ts] *)

Definition API_URL : string := "http://localhost:8000".

Section Api.
Context {S : Type}.

(** [await fetch(...)]: the request is observed, then the promise settles. *)
Definition fetch (req : Request) (answer : World -> FetchResult)
  : M (S := S) Response.t :=
  emit (Fetch req) ;;
  w ← ask ;
  match answer w with
  | Rejected e => throw (NetworkError e)
  | Resolved r => ret r
  end.

Definition checkBackendHealth : M (S := S) bool :=
  try_catch
    (res ← fetch (Get (API_URL +:+ "/health")) health ;
     ret (Response.ok res))
    (fun _ => ret false).

(** The two [formData.append] calls. *)
Definition buildFormData (file : option File.t) (text : option string)
  : FormData :=
  (match file with Some f => [("video", FileField f)] | None => [] end)
  ++
  (match text with
   | Some t => if negb (String.eqb t "") then [("query", TextField t)] else []
   | None => []
   end).

Definition analyzeContent (file : option File.t) (text : option string)
  : M (S := S) (Maybe Api.t) :=
  let formData := buildFormData file text in
  try_catch
    (response ← fetch (Post (API_URL +:+ "/analyze") formData)
                      (fun w => analyze w formData) ;
     if negb (Response.ok response)
     then throw (ApiError (Response.status response)
                          (Response.statusText response)
                          (Response.bodyText response))
     else match Response.bodyJson response with
          | Some j => ret j
          | None => throw JsonError
          end)
    (fun error => throw error).
End Api.

(** ** The analyze page ([app/analyze/page.tsx]) *)

Inductive Stage : Type := idle | uploading | scanning | results.

Module Page.
(** The component's state; [apiResult] starts as [null]. *)
Record t : Type := {
  activeTab : Tab;
  stage : Stage;
  uploadedFile : option File.t;
  textInput : string;
  urlInput : string;
  scanStep : Z;
  scanProgress : Z;
  uploadProgress : Z;
  apiResult : Maybe Api.t
}.

Definition setStage (x : Stage) (p : t) : t :=
  Build_t (activeTab p) x (uploadedFile p) (textInput p) (urlInput p)
          (scanStep p) (scanProgress p) (uploadProgress p) (apiResult p).
Definition setScanStep (x : Z) (p : t) : t :=
  Build_t (activeTab p) (stage p) (uploadedFile p) (textInput p) (urlInput p)
          x (scanProgress p) (uploadProgress p) (apiResult p).
Definition setScanProgress (x : Z) (p : t) : t :=
  Build_t (activeTab p) (stage p) (uploadedFile p) (textInput p) (urlInput p)
          (scanStep p) x (uploadProgress p) (apiResult p).
Definition setUploadProgress (x : Z) (p : t) : t :=
  Build_t (activeTab p) (stage p) (uploadedFile p) (textInput p) (urlInput p)
          (scanStep p) (scanProgress p) x (apiResult p).
Definition setApiResult (x : Maybe Api.t) (p : t) : t :=
  Build_t (activeTab p) (stage p) (uploadedFile p) (textInput p) (urlInput p)
          (scanStep p) (scanProgress p) (uploadProgress p) x.
End Page.

(** White space as [String.prototype.trim] sees it: the code points of
    WhiteSpace and LineTerminator, which are U+0009 to U+000D, U+0020,
    U+00A0, U+1680, U+2000 to U+200A, U+2028, U+2029, U+202F, U+205F, U+3000
    and U+FEFF.  A string is held as the bytes of its UTF-8 encoding, as the
    literals of this file are, so a white-space character is one byte, two
    bytes ([ws2]) or three ([ws3]). *)
Definition ws1 (a : nat) : bool := ((9 <=? a) && (a <=? 13) || (a =? 32))%nat.

Definition ws2 (a b : nat) : bool := ((a =? 194) && (b =? 160))%nat.

Definition ws3 (a b c : nat) : bool :=
  ((a =? 225) && (b =? 154) && (c =? 128)
   || (a =? 226) && (b =? 128)
      && ((128 <=? c) && (c <=? 138) || (c =? 168) || (c =? 169) || (c =? 175))
   || (a =? 226) && (b =? 129) && (c =? 159)
   || (a =? 227) && (b =? 128) && (c =? 128)
   || (a =? 239) && (b =? 187) && (c =? 191))%nat.

(** The string without the white space it starts with; [fromEnd] says that
    the bytes come in reverse order. *)
Fixpoint dropWhite (fromEnd : bool) (s : string) : string :=
  match s with
  | String a r1 =>
    if ws1 (Ascii.nat_of_ascii a) then dropWhite fromEnd r1
    else
      match r1 with
      | String b r2 =>
        if (if fromEnd
            then ws2 (Ascii.nat_of_ascii b) (Ascii.nat_of_ascii a)
            else ws2 (Ascii.nat_of_ascii a) (Ascii.nat_of_ascii b))
        then dropWhite fromEnd r2
        else
          match r2 with
          | String c r3 =>
            if (if fromEnd
                then ws3 (Ascii.nat_of_ascii c) (Ascii.nat_of_ascii b)
                         (Ascii.nat_of_ascii a)
                else ws3 (Ascii.nat_of_ascii a) (Ascii.nat_of_ascii b)
                         (Ascii.nat_of_ascii c))
            then dropWhite fromEnd r3
            else s
          | EmptyString => s
          end
      | EmptyString => s
      end
  | EmptyString => EmptyString
  end.

Definition trimStart (s : string) : string := dropWhite false s.

Definition trimEnd (s : string) : string :=
  String.rev (dropWhite true (String.rev s)).

(** [s.trim()] *)
Definition trim (s : string) : string := trimEnd (trimStart s).

(** [!s] for a string. *)
Definition blank (s : string) : bool := String.eqb s "".

Definition scanMessages : list string := [
  "Initializing neural analysis engine...";
  "Extracting metadata fingerprints...";
  "Running deepfake detection model...";
  "Analyzing frequency anomalies...";
  "Cross-referencing content database...";
  "Generating authenticity score...";
  "Compiling forensic report..." ].

(** A [setInterval] whose callback counts up by [inc], publishes the counter
    and clears itself once the counter reaches [limit], then runs [done].
    [fuel] bounds the number of firings. *)
Fixpoint interval (fuel : nat) (inc limit counter : Z)
    (publish : Z -> Page.t -> Page.t) (done : M (S := Page.t) unit)
    : M (S := Page.t) unit :=
  match fuel with
  | O => ret tt
  | Datatypes.S n =>
    let counter := counter + inc in
    modify (publish counter) ;;
    if counter >=? limit then done
    else interval n inc limit counter publish done
  end.

Section AnalyzePage.
(** The closures below read the state of the render in which the button
    was clicked. *)
Variable uploadedFile : option File.t.
Variable textInput urlInput : string.

(** The callback of the final [setTimeout]. *)
Definition runAnalysis : M (S := Page.t) unit :=
  try_catch
    (let query := if blank textInput then urlInput else textInput in
     result ← analyzeContent uploadedFile (Some query) ;
     modify (Page.setApiResult result) ;;
     modify (Page.setStage results))
    (fun _ =>
       emit (Alert "Analysis failed. See console for details.") ;;
       modify (Page.setStage idle)).

Definition startRealAnalysis : M (S := Page.t) unit :=
  modify (Page.setScanProgress 0) ;;
  modify (Page.setScanStep 0) ;;
  interval 7 1 (Z.of_nat (length scanMessages)) 0 Page.setScanStep runAnalysis.

Definition analyzeFile : M (S := Page.t) unit :=
  if negb (bool_decide (is_Some uploadedFile))
     && blank (trim textInput) && blank (trim urlInput)
  then ret tt
  else
    modify (Page.setStage uploading) ;;
    modify (Page.setUploadProgress 0) ;;
    isBackendUp ← checkBackendHealth ;
    if negb isBackendUp
    then
      emit (Alert "Backend API is not running at http://localhost:8000. Please start the server.") ;;
      modify (Page.setStage idle)
    else
      interval 20 5 100 0 Page.setUploadProgress
        (modify (Page.setStage scanning) ;; startRealAnalysis).
End AnalyzePage.

(** Clicking "Analyze Content" on a page in state [p]. *)
Definition clickAnalyze (w : World) (p : Page.t) : Page.t * list Event :=
  fst (analyzeFile (Page.uploadedFile p) (Page.textInput p) (Page.urlInput p)
         w p []).

(** ** Authentication ([context/AuthContext.tsx], login and signup pages) *)

Definition hexDigit (n : nat) : Ascii.ascii :=
  Ascii.ascii_of_nat (if (n <? 10)%nat then 48 + n else 87 + n).

(** One character inside a JSON string, as [JSON.stringify] quotes it. *)
Definition jsonEscape (c : Ascii.ascii) : string :=
  let n := Ascii.nat_of_ascii c in
  let bs := String (Ascii.ascii_of_nat 92) EmptyString in
  if (n =? 34)%nat then bs +:+ dq
  else if (n =? 92)%nat then bs +:+ bs
  else if (n =? 8)%nat then bs +:+ "b"
  else if (n =? 9)%nat then bs +:+ "t"
  else if (n =? 10)%nat then bs +:+ "n"
  else if (n =? 12)%nat then bs +:+ "f"
  else if (n =? 13)%nat then bs +:+ "r"
  else if (n <? 32)%nat
       then bs +:+ "u00" +:+
            String (hexDigit (n / 16)) (String (hexDigit (n mod 16)) EmptyString)
       else String c EmptyString.

Fixpoint jsonChars (s : string) : string :=
  match s with
  | EmptyString => EmptyString
  | String c rest => jsonEscape c +:+ jsonChars rest
  end.

Definition jsonString (s : string) : string := dq +:+ jsonChars s +:+ dq.

Module User.
Record t : Type := { email : string }.
(** [JSON.stringify(user)] *)
Definition stringify (u : t) : string :=
  "{" +:+ jsonString "email" +:+ ":" +:+ jsonString (email u) +:+ "}".
End User.

Module Auth.
(** The provider's state, the browser's [localStorage] and the route the
    router was last pushed to. *)
Record t : Type := {
  user : option User.t;
  localStorage : gmap string string;
  route : string
}.

Definition isAuthenticated (a : t) : bool := bool_decide (is_Some (user a)).

Definition login (email : string) (a : t) : t :=
  let newUser := {| User.email := email |} in
  {| user := Some newUser;
     localStorage := <["truth_x_user" := User.stringify newUser]> (localStorage a);
     route := "/" |}.

Definition signup (email : string) (a : t) : t :=
  let newUser := {| User.email := email |} in
  {| user := Some newUser;
     localStorage := <["truth_x_user" := User.stringify newUser]> (localStorage a);
     route := "/" |}.

Definition logout (a : t) : t :=
  {| user := None;
     localStorage := delete "truth_x_user" (localStorage a);
     route := "/login" |}.
End Auth.

Module LoginPage.
Record form : Type := { email : string; password : string; isLoading : bool }.

(** [handleSubmit]: after the simulated delay, [login(email)]. *)
Definition handleSubmit (f : form) (a : Auth.t) : form * Auth.t :=
  ({| email := email f; password := password f; isLoading := true |},
   Auth.login (email f) a).
End LoginPage.

Module SignupPage.
Record form : Type := {
  name : string; email : string; password : string; isLoading : bool
}.

Definition handleSubmit (f : form) (a : Auth.t) : form * Auth.t :=
  ({| name := name f; email := email f; password := password f;
      isLoading := true |},
   Auth.signup (email f) a).
End SignupPage.

(** ** The history page's table, as far as score and risk go *)

Module History.
Record item : Type := {
  id : string; name : string; score : Q; status : string; risk : string
}.
End History.

Definition mockHistory : list History.item := [
  History.Build_item "1" "viral_video_leak.mp4" 18 "AI-Generated" "high";
  History.Build_item "2" "bank_call_recording.mp3" 31 "Synthetic Voice" "high";
  History.Build_item "3" "health_news_article.txt" 72 "Partially AI-Generated" "medium";
  History.Build_item "4" "protest_photo.jpg" 91 "Authentic" "low";
  History.Build_item "5" "politician_speech.mp4" 44 "Tampered" "medium";
  History.Build_item "6" "vaccine_misinformation.txt" 12 "AI-Generated" "high";
  History.Build_item "7" "celebrity_voice_note.mp3" 27 "Synthetic Voice" "high";
  History.Build_item "8" "product_photo.png" 88 "Authentic" "low";
  History.Build_item "9" "breaking_news_clip.mp4" 79 "Mostly Authentic" "low";
  History.Build_item "10" "suspicious_whatsapp.txt" 38 "Suspicious" "medium" ].

(** ** A host to run the model on examples

    The theorems below hold for every [Builtins].  This one serves the
    worked examples: it prints a number that has a short decimal expansion
    the way a browser set to en-US does, rounds the exact rational where
    JavaScript rounds the double, and reads plain decimal literals only. *)

Module ExampleHost.
Fixpoint fracDigits (fuel : nat) (r den : Z) : string :=
  match fuel with
  | O => ""
  | Datatypes.S n =>
    if r =? 0 then ""
    else pretty (r * 10 / den) +:+ fracDigits n (r * 10 mod den) den
  end.

Definition signOf (q : Q) : string := if Qnum q <? 0 then "-" else "".

Definition numToStr (q : Q) : string :=
  let a := Z.abs (Qnum q) in
  let d := Z.pos (Qden q) in
  signOf q +:+ pretty (a / d) +:+
  (if a mod d =? 0 then "" else "." +:+ fracDigits 20 (a mod d) d).

(** [|q| * 10^d], rounded to the nearest integer, halves up. *)
Definition scaled (d : nat) (q : Q) : Z :=
  let a := Z.abs (Qnum q) in
  let den := Z.pos (Qden q) in
  (2 * a * 10 ^ Z.of_nat d + den) / (2 * den).

Definition padLeft (width : nat) (s : string) : string :=
  String.concat "" (replicate (width - String.length s) "0") +:+ s.

Definition numToFixed (d : nat) (q : Q) : string :=
  let n := scaled d q in
  let unit := 10 ^ Z.of_nat d in
  signOf q +:+ pretty (n / unit) +:+
  (if (d =? 0)%nat then "" else "." +:+ padLeft d (pretty (n mod unit))).

Fixpoint grouped (fuel : nat) (a : Z) : string :=
  match fuel with
  | O => pretty a
  | Datatypes.S n =>
    if a <? 1000 then pretty a
    else grouped n (a / 1000) +:+ "," +:+ padLeft 3 (pretty (a mod 1000))
  end.

Definition numToLocale (q : Q) : string :=
  let n := scaled 3 q in
  signOf q +:+ grouped 8 (n / 1000) +:+
  (if n mod 1000 =? 0 then ""
   else "." +:+ fracDigits 3 (n mod 1000) 1000).

Definition isDigit (c : Ascii.ascii) : bool :=
  let n := Ascii.nat_of_ascii c in ((48 <=? n) && (n <=? 57))%nat.

Fixpoint digitsVal (acc : Z) (s : string) : option Z :=
  match s with
  | EmptyString => Some acc
  | String c rest =>
    if isDigit c
    then digitsVal (acc * 10 + Z.of_nat (Ascii.nat_of_ascii c - 48)) rest
    else None
  end.

Fixpoint splitDot (s : string) : string * option string :=
  match s with
  | EmptyString => (EmptyString, None)
  | String c rest =>
    if Ascii.eqb c "."%char then (EmptyString, Some rest)
    else let '(a, b) := splitDot rest in (String c a, b)
  end.

Definition unsignedNum (s : string) : option Q :=
  let '(ip, fr) := splitDot s in
  let fr := default EmptyString fr in
  if blank ip && blank fr then None
  else
    i ← digitsVal 0 ip ;
    f ← digitsVal 0 fr ;
    let unit := 10 ^ Z.of_nat (String.length fr) in
    Some (Qred (Qmake (i * unit + f) (Z.to_pos unit))).

Definition strToNum (s : string) : option Q :=
  match trim s with
  | EmptyString => Some 0%Q
  | String "-" rest => Qopp <$> unsignedNum rest
  | String "+" rest => unsignedNum rest
  | t => unsignedNum t
  end.

Definition host : Builtins :=
  Build_Builtins strToNum numToStr numToLocale numToFixed.
End ExampleHost.

(** * Vocabulary of the statements and inputs for the examples *)

(** The tiering of the specification, in its words: a score of at least 75
    goes with risk "low", a score from 45 up to 75 with "medium", a score
    below 45 with "high". *)
Definition spec_tiers (q : Q) (risk : JsVal) : Prop :=
  ((75 <= q)%Q -> risk = Str "low") /\
  ((45 <= q)%Q /\ (q < 75)%Q -> risk = Str "medium") /\
  ((q < 45)%Q -> risk = Str "high").

(** A displayed pair is consistent when its score is a number and its risk
    is the one the tiering requires for that number. *)
Definition consistent (B : Builtins) (score risk : JsVal) : Prop :=
  exists q, toNumber B score = Some q /\ spec_tiers q risk.

(** The same tiering as a function of the score. *)
Definition tierOf (q : Q) : string :=
  if Qle_bool 75 q then "low"
  else if Qle_bool 45 q then "medium"
  else "high".

(** The colour of the risk badge for a risk level. *)
Definition riskColor (risk : string) : option string :=
  RiskCfg.color <$> riskConfig (Str risk).

(** A colour [c] shown for score [q] is on tier when it is the badge colour
    of the risk the tiering requires. *)
Definition colour_on_tier (q : Q) (c : string) : Prop :=
  ((75 <= q)%Q -> riskColor "low" = Some c) /\
  ((45 <= q)%Q /\ (q < 75)%Q -> riskColor "medium" = Some c) /\
  ((q < 45)%Q -> riskColor "high" = Some c).

(** [v] is neither undefined nor null. *)
Definition supplied (v : JsVal) : Prop := v <> Undefined /\ v <> Null.

(** A response that carries a score and nothing else, and one that carries
    a score together with a risk level. *)
Definition apiScore (q : Q) : Api.t :=
  {| Api.score := Num q; Api.risk_level := Undefined; Api.metadata := Missing;
     Api.risk_assessment := Missing; Api.video_analysis := Missing;
     Api.text_analysis := Missing; Api.related_articles := Missing;
     Api.drift_data := Missing; Api.models_used := Undefined |}.

Definition apiScoreRisk (q : Q) (risk : string) : Api.t :=
  {| Api.score := Num q; Api.risk_level := Str risk; Api.metadata := Missing;
     Api.risk_assessment := Missing; Api.video_analysis := Missing;
     Api.text_analysis := Missing; Api.related_articles := Missing;
     Api.drift_data := Missing; Api.models_used := Undefined |}.

(** The sentinel the specification asks of the back end when no detector
    succeeded: a null score and the risk level "unknown". *)
Definition apiUnknown : Api.t :=
  {| Api.score := Null; Api.risk_level := Str "unknown"; Api.metadata := Missing;
     Api.risk_assessment := Missing; Api.video_analysis := Missing;
     Api.text_analysis := Missing; Api.related_articles := Missing;
     Api.drift_data := Missing; Api.models_used := Undefined |}.

(** The response's drift data as the merge reads it: the array when there
    is one and it is not empty. *)
Definition realDrift (api : Maybe Api.t) : option (list Drift.point) :=
  match opt_obj api Api.drift_data with
  | Obj (p :: d) => Some (p :: d)
  | _ => None
  end.

(** The entries of a fingerprint that carry a given label. *)
Definition byLabel (l : string) (fpr : list Fingerprint.item)
  : list Fingerprint.item :=
  List.filter (fun it => String.eqb (Fingerprint.label it) l) fpr.

(** The three labels whose entry a static rule may flag. *)
Definition ruleLabels : list string :=
  [ "Total Bitrate"; "GPS Location"; "Encoder" ].

(** What every entry of a section satisfies: it carries the section's name,
    and if it is flagged its label is one of the three. *)
Definition inSection (sec : string) (it : Fingerprint.item) : Prop :=
  Fingerprint.section it = Some sec /\
  (Fingerprint.suspicious it = true -> Fingerprint.label it ∈ ruleLabels).

(** ** The response read field by field

    The statements speak of the response as it came, not of the locals the
    component derives from it. *)

Definition metadataOf (api : Maybe Api.t) : option Metadata.t :=
  match api with
  | Obj a => match Api.metadata a with Obj m => Some m | _ => None end
  | _ => None
  end.

(** [api.metadata.tags.f], [api.metadata.file_info.f] and
    [api.metadata.video.f]: undefined when an object on the path is missing
    or null. *)
Definition tagOf (f : Tags.t -> JsVal) (api : Maybe Api.t) : JsVal :=
  match metadataOf api with
  | Some m => match Metadata.tags m with Obj t => f t | _ => Undefined end
  | None => Undefined
  end.

Definition fileInfoOf (f : FileInfo.t -> JsVal) (api : Maybe Api.t) : JsVal :=
  match metadataOf api with
  | Some m => match Metadata.file_info m with Obj i => f i | _ => Undefined end
  | None => Undefined
  end.

Definition videoOf (f : VideoMeta.t -> JsVal) (api : Maybe Api.t) : JsVal :=
  match metadataOf api with
  | Some m => match Metadata.video m with Obj v => f v | _ => Undefined end
  | None => Undefined
  end.

(** The response's video analysis, text analysis and related articles. *)
Definition videoAnalysisOf (api : Maybe Api.t) : option VideoML.t :=
  match api with
  | Obj a => match Api.video_analysis a with Obj m => Some m | _ => None end
  | _ => None
  end.

Definition textAnalysisOf (api : Maybe Api.t) : option TextML.t :=
  match api with
  | Obj a => match Api.text_analysis a with Obj m => Some m | _ => None end
  | _ => None
  end.


(** The rule of the Total Bitrate entry: the bitrate is a number above 0
    and below 2000, and the width, read as 0 when it is not truthy, is a
    number of at least 1920. *)
Definition bitrateRule (B : Builtins) (api : Maybe Api.t) : Prop :=
  exists b w,
    toNumber B (fileInfoOf FileInfo.total_bitrate_kbps api) = Some b /\
    (0 < b)%Q /\ (b < 2000)%Q /\
    toNumber B (js_or (videoOf VideoMeta.width api) (Num 0)) = Some w /\
    (1920 <= w)%Q.

(** A response with a stripped GPS tag, an encoder tag and a 1500 kbps
    stream that claims a width of 1920. *)
Definition apiLowBitrate : Api.t :=
  {| Api.score := Num 40; Api.risk_level := Str "high";
     Api.metadata := Obj
       {| Metadata.original_filename := Str "clip.mp4";
          Metadata.file_info := Obj
            {| FileInfo.file_name := Str "clip.mp4";
               FileInfo.container_format := Str "mov,mp4";
               FileInfo.file_size_mb := Num 12.5;
               FileInfo.duration_human := Str "0:42";
               FileInfo.duration_seconds := Num 42;
               FileInfo.total_bitrate_kbps := Num 1500;
               FileInfo.nb_streams := Num 2 |};
          Metadata.video := Obj
            {| VideoMeta.codec := Str "h264"; VideoMeta.profile := Str "High";
               VideoMeta.width := Num 1920;
               VideoMeta.resolution := Str "1920x1080";
               VideoMeta.display_aspect_ratio := Str "16:9";
               VideoMeta.fps := Num 30; VideoMeta.avg_fps := Num 30;
               VideoMeta.bitrate_kbps := Num 1400;
               VideoMeta.pixel_format := Str "yuv420p";
               VideoMeta.bit_depth := Num 8;
               VideoMeta.color_space := Str "bt709";
               VideoMeta.total_frames := Num 1260;
               VideoMeta.rotation := Str "0" |};
          Metadata.audio := Missing;
          Metadata.tags := Obj
            {| Tags.camera_device := Undefined; Tags.manufacturer := Undefined;
               Tags.software_version := Undefined;
               Tags.gps_location := Undefined;
               Tags.creation_time := Str "2026-02-19T14:32:00Z";
               Tags.encoder := Str "Lavf58.76.100";
               Tags.major_brand := Str "isom"; Tags.title := Undefined;
               Tags.comment := Undefined |};
          Metadata.other_keys := [] |};
     Api.risk_assessment := Missing; Api.video_analysis := Missing;
     Api.text_analysis := Missing; Api.related_articles := Missing;
     Api.drift_data := Missing; Api.models_used := Str "real" |}.

(** The risk flags of the response, none when [risk_assessment] or its
    [flags] is missing or null. *)
Definition riskFlags (api : Maybe Api.t) : list Flag.t :=
  match api with
  | Obj a =>
    match Api.risk_assessment a with
    | Obj r => match RiskAssessment.flags r with Obj fs => fs | _ => [] end
    | _ => []
    end
  | _ => []
  end.

Definition flagText (B : Builtins) (f : Flag.t) : string :=
  toStr B (Flag.label f) +:+ ": " +:+ toStr B (Flag.detail f).

(** The two synthesized entries: the deepfake entry when the video model
    says "fake" and no flag's text mentions "Deepfake", and the AI-text
    entry when the text model says "ai-generated". *)
Definition deepfakeText (B : Builtins) (m : VideoML.t) : string :=
  "Deepfake Detected: ML model confidence " +:+
  pctFixed B 1 (VideoML.confidence m) +:+ "%".

Definition aiTextText (B : Builtins) (m : TextML.t) : string :=
  "AI-Generated Text: " +:+ pctFixed B 1 (TextML.ai_probability m) +:+
  "% probability".

Definition deepfakeEntry (B : Builtins) (api : Maybe Api.t) : list string :=
  match videoAnalysisOf api with
  | Some m =>
    if strict_eq (VideoML.label m) (Str "fake")
       && negb (existsb (fun f => includes "Deepfake" (flagText B f))
                        (riskFlags api))
    then [ deepfakeText B m ] else []
  | None => []
  end.

Definition aiTextEntry (B : Builtins) (api : Maybe Api.t) : list string :=
  match textAnalysisOf api with
  | Some m =>
    if strict_eq (TextML.label m) (Str "ai-generated")
    then [ aiTextText B m ] else []
  | None => []
  end.




(** [l.length > 0] *)
Definition nonempty {A : Type} (l : list A) : bool :=
  match l with [] => false | _ :: _ => true end.


(** A response whose GPS and encoder tags are there but empty. *)
Definition apiEmptyTags : Api.t :=
  {| Api.score := Num 80; Api.risk_level := Str "low";
     Api.metadata := Obj
       {| Metadata.original_filename := Str "clip.mp4";
          Metadata.file_info := Missing; Metadata.video := Missing;
          Metadata.audio := Missing;
          Metadata.tags := Obj
            {| Tags.camera_device := Undefined; Tags.manufacturer := Undefined;
               Tags.software_version := Undefined;
               Tags.gps_location := Str "";
               Tags.creation_time := Undefined;
               Tags.encoder := Str "";
               Tags.major_brand := Undefined; Tags.title := Undefined;
               Tags.comment := Undefined |};
          Metadata.other_keys := [] |};
     Api.risk_assessment := Missing; Api.video_analysis := Missing;
     Api.text_analysis := Missing; Api.related_articles := Missing;
     Api.drift_data := Missing; Api.models_used := Undefined |}.

(** A response that carries two risk flags and nothing else, and one whose
    video analysis has the label "unknown". *)
Definition apiFlagsOnly : Api.t :=
  {| Api.score := Undefined; Api.risk_level := Undefined;
     Api.metadata := Missing;
     Api.risk_assessment := Obj
       {| RiskAssessment.flags := Obj
            [ {| Flag.label := Str "GPS Missing";
                 Flag.detail := Str "No location data in container" |};
              {| Flag.label := Str "Re-encoded";
                 Flag.detail := Str "Encoder tag Lavf58.76.100" |} ];
          RiskAssessment.authenticity_score := Undefined |};
     Api.video_analysis := Missing; Api.text_analysis := Missing;
     Api.related_articles := Missing; Api.drift_data := Missing;
     Api.models_used := Undefined |}.


(** A response with a text verdict and one related article. *)
Definition apiTextAndArticle : Api.t :=
  {| Api.score := Num 30; Api.risk_level := Str "high"; Api.metadata := Missing;
     Api.risk_assessment := Missing; Api.video_analysis := Missing;
     Api.text_analysis := Obj
       {| TextML.label := Str "ai-generated"; TextML.ai_probability := Num 0.875;
          TextML.human_probability := Num 0.125 |};
     Api.related_articles := Obj
       [ {| Article.title := Str "Viral claim debunked";
            Article.similarity_score := Num 0.82 |} ];
     Api.drift_data := Missing; Api.models_used := Str "real" |}.

(** A response carrying a risk flag and a video model verdict. *)
Definition apiDeepfake : Api.t :=
  {| Api.score := Num 12; Api.risk_level := Str "high"; Api.metadata := Missing;
     Api.risk_assessment := Obj
       {| RiskAssessment.flags := Obj
            [ {| Flag.label := Str "GPS Missing";
                 Flag.detail := Str "No location data in container" |} ];
          RiskAssessment.authenticity_score := Num 12 |};
     Api.video_analysis := Obj
       {| VideoML.label := Str "fake"; VideoML.confidence := Num 0.94;
          VideoML.per_frame := Missing |};
     Api.text_analysis := Missing; Api.related_articles := Missing;
     Api.drift_data := Missing; Api.models_used := Str "real" |}.

Definition healthUrl : string := API_URL +:+ "/health".
Definition analyzeUrl : string := API_URL +:+ "/analyze".

(** The probe's answer for a given back end. *)
Definition healthOk (w : World) : bool :=
  match health w with
  | Resolved r => Response.ok r
  | Rejected _ => false
  end.

Section Click.
Variable w : World.
Variable p : Page.t.

(** The first line of [analyzeFile]: nothing to analyze. *)
Definition nothingToAnalyze : bool :=
  negb (bool_decide (is_Some (Page.uploadedFile p)))
  && blank (trim (Page.textInput p)) && blank (trim (Page.urlInput p)).

(** [textInput || urlInput] *)
Definition query : string :=
  if blank (Page.textInput p) then Page.urlInput p else Page.textInput p.

Definition formOf : FormData :=
  buildFormData (Page.uploadedFile p) (Some query).

(** The state once both animations have run. *)
Definition scanned : Page.t :=
  Page.Build_t (Page.activeTab p) scanning (Page.uploadedFile p)
    (Page.textInput p) (Page.urlInput p) 7 0 100 (Page.apiResult p).

Definition backendDown : Page.t :=
  Page.Build_t (Page.activeTab p) idle (Page.uploadedFile p)
    (Page.textInput p) (Page.urlInput p) (Page.scanStep p)
    (Page.scanProgress p) 0 (Page.apiResult p).

Definition downAlert : Event :=
  Alert "Backend API is not running at http://localhost:8000. Please start the server.".
Definition failedAlert : Event :=
  Alert "Analysis failed. See console for details.".

(** What the POST leads to. *)
Definition afterPost : Page.t * list Event :=
  let sent := [Fetch (Get healthUrl); Fetch (Post analyzeUrl formOf)] in
  match analyze w formOf with
  | Resolved r =>
    if Response.ok r
    then match Response.bodyJson r with
         | Some j => (Page.setStage results (Page.setApiResult j scanned), sent)
         | None => (Page.setStage idle scanned, sent ++ [failedAlert])
         end
    else (Page.setStage idle scanned, sent ++ [failedAlert])
  | Rejected _ => (Page.setStage idle scanned, sent ++ [failedAlert])
  end.
End Click.

Definition hasField (k : string) (fd : FormData) : bool :=
  existsb (fun kv => String.eqb (fst kv) k) fd.

(** A back end that is up and answers every analysis with a score of 50. *)
Definition okResponse (j : Maybe Api.t) : Response.t :=
  {| Response.status := 200; Response.statusText := "OK";
     Response.bodyText := ""; Response.bodyJson := Some j |}.

Definition worldUp : World :=
  {| health := Resolved (okResponse (Obj Api.empty));
     analyze := fun _ => Resolved (okResponse (Obj (apiScore 50))) |}.

(** A back end that cannot be reached. *)
Definition worldDown : World :=
  {| health := Rejected "Failed to fetch";
     analyze := fun _ => Rejected "Failed to fetch" |}.

Definition clip : File.t := {| File.name := "clip.mp4"; File.size := 4194304 |}.

(** 600 MB, above the 500 MB the drop zone announces. *)
Definition oversized : File.t :=
  {| File.name := "lecture.mp4"; File.size := 600 * 1024 * 1024 |}.

Definition userKey : string := "truth_x_user".

(** ** The back end's size limit

    The analysis itself is done by the back end, whose code is not under
    [src/]; the front end is its caller. *)

Module Backend.
(** Modelled from the spec: the typed errors of the endpoint, which is not
    under [src/]: "reject with InvalidRequest if both or neither are
    present", "returns a typed error (BackendUnavailable, ContentTooLarge,
    UnsupportedFormat, InternalError) on failure". *)
Inductive Error : Type :=
  | InvalidRequest
  | BackendUnavailable
  | ContentTooLarge
  | UnsupportedFormat
  | InternalError.

(** Modelled from the spec: the limit of the Ephemeral Store, which is not
    under [src/]: "reject >500MB equivalent", in bytes. *)
Definition maxUpload : Z := 500 * 1024 * 1024.

(** Modelled from the spec: what the scenarios of the back end, which is not
    under [src/], count: the contents persisted in the store and the
    detector invocations so far. *)
Record State : Type := { persisted : nat; invocations : nat }.

(** Modelled from the spec: [put] of the Ephemeral Store, which is not under
    [src/]: "Size limit enforced at put (reject >500MB equivalent with a
    ContentTooLarge error)". *)
Definition put (f : File.t) (st : State) : Error + State :=
  if maxUpload <? File.size f then inl ContentTooLarge
  else inr {| persisted := Datatypes.S (persisted st);
              invocations := invocations st |}.

(** Modelled from the spec: the endpoint, which is not under [src/], on an
    upload: "Endpoint -> Ephemeral Store (persist bytes) -> Orchestrator
    (fan-out to Detector Adapters ...) -> ... -> Endpoint (response)";
    client input errors, such as an oversized upload, are "reported
    immediately, no detector invocation, no content persisted".
    [detectors] is the number of detectors that apply and [report] the
    report their results are built into. *)
Definition upload (detectors : nat) (report : File.t -> Maybe Api.t)
    (f : File.t) (st : State) : (Error + Maybe Api.t) * State :=
  match put f st with
  | inl e => (inl e, st)
  | inr st' =>
    (inr (report f),
     {| persisted := persisted st';
        invocations := (invocations st' + detectors)%nat |})
  end.
End Backend.

(** A back end that is up and refuses every analysis with a status that is
    not ok, for the examples. *)
Definition worldRefusing : World :=
  {| health := Resolved (okResponse (Obj Api.empty));
     analyze := fun _ =>
       Resolved {| Response.status := 413;
                   Response.statusText := "Payload Too Large";
                   Response.bodyText := "ContentTooLarge";
                   Response.bodyJson := None |} |}.

(** The no-break space, U+00A0, in UTF-8. *)
Definition nbsp : string :=
  String (Ascii.ascii_of_nat 194) (String (Ascii.ascii_of_nat 160) EmptyString).

(** * More of the code: rendering, page handlers, session *)

(** ** [ResultsDashboard.tsx]: what is computed while rendering *)

(** The fingerprint card threads [lastSection] through its [map]: an entry
    shows a section heading when it has a section that differs from the last
    one seen.  [headingsFrom last items] lists the headings shown, in
    order. *)
Fixpoint headingsFrom (lastSection : string) (items : list Fingerprint.item)
  : list string :=
  match items with
  | [] => []
  | it :: rest =>
    match Fingerprint.section it with
    | Some s =>
      if String.eqb s "" then headingsFrom lastSection rest
      else (if String.eqb s lastSection then [] else [s]) ++ headingsFrom s rest
    | None => headingsFrom lastSection rest
    end
  end.

(** [let lastSection = ""] *)
Definition headings (items : list Fingerprint.item) : list string :=
  headingsFrom "" items.

(** [result.timeline.slice(0, 4)] *)
Definition shownTimeline (r : Result.t) : list Timeline.item :=
  take 4 (Result.timeline r).

(** The section names in the order [buildFingerprint] pushes them, and every
    label it can push, in push order. *)
Definition sectionOrder : list string :=
  [ "File"; "Video"; "Audio"; "Device"; "Location"; "Tags" ].

Definition allLabels : list string :=
  [ "File Name"; "Container Format"; "File Size"; "Duration"; "Total Bitrate";
    "Streams";
    "Video Codec"; "Resolution"; "Aspect Ratio"; "Frame Rate"; "Video Bitrate";
    "Pixel Format"; "Bit Depth"; "Color Space"; "Total Frames"; "Rotation";
    "Audio Codec"; "Sample Rate"; "Channels"; "Audio Bitrate"; "Language";
    "Camera / Device"; "Manufacturer"; "Software";
    "GPS Location";
    "Creation Time"; "Encoder"; "Major Brand"; "Title"; "Comment" ].

(** The six groups of [buildFingerprint], each with the section name its
    entries carry. *)
Definition fingerprintGroups (B : Builtins) (api : Maybe Api.t)
  : list (string * list Fingerprint.item) :=
  [ ("File", fileItems B api (fi api) (vid api));
    ("Video", videoItems B (vid api));
    ("Audio", audioItems B (aud api));
    ("Device", deviceItems (tags api));
    ("Location", gpsItems (tags api));
    ("Tags", tagItems (tags api)) ].

(** Every entry of [l] carries the section name [s]. *)
Definition sectioned (s : string) (l : list Fingerprint.item) : Prop :=
  Forall (fun it => Fingerprint.section it = Some s) l.

(** ** [app/analyze/page.tsx]: the other handlers *)

Module PageOps.
(** [setUploadedFile], [setTextInput], [setUrlInput], [setActiveTab] *)
Definition setUploadedFile (x : option File.t) (p : Page.t) : Page.t :=
  Page.Build_t (Page.activeTab p) (Page.stage p) x (Page.textInput p)
    (Page.urlInput p) (Page.scanStep p) (Page.scanProgress p)
    (Page.uploadProgress p) (Page.apiResult p).
Definition setTextInput (x : string) (p : Page.t) : Page.t :=
  Page.Build_t (Page.activeTab p) (Page.stage p) (Page.uploadedFile p) x
    (Page.urlInput p) (Page.scanStep p) (Page.scanProgress p)
    (Page.uploadProgress p) (Page.apiResult p).
Definition setUrlInput (x : string) (p : Page.t) : Page.t :=
  Page.Build_t (Page.activeTab p) (Page.stage p) (Page.uploadedFile p)
    (Page.textInput p) x (Page.scanStep p) (Page.scanProgress p)
    (Page.uploadProgress p) (Page.apiResult p).
Definition setActiveTab (x : Tab) (p : Page.t) : Page.t :=
  Page.Build_t x (Page.stage p) (Page.uploadedFile p) (Page.textInput p)
    (Page.urlInput p) (Page.scanStep p) (Page.scanProgress p)
    (Page.uploadProgress p) (Page.apiResult p).

(** [handleDrop] and [handleFileChange]: the first file of the list, if
    there is one ([setDragOver] is presentation only). *)
Definition handleDrop (files : list File.t) (p : Page.t) : Page.t :=
  match files with
  | file :: _ => setUploadedFile (Some file) p
  | [] => p
  end.

Definition handleFileChange (files : list File.t) (p : Page.t) : Page.t :=
  match files with
  | file :: _ => setUploadedFile (Some file) p
  | [] => p
  end.

(** The tab buttons: [setActiveTab(tab.id); setUploadedFile(null)]. *)
Definition switchTab (tab : Tab) (p : Page.t) : Page.t :=
  setUploadedFile None (setActiveTab tab p).

(** [reset] *)
Definition reset (p : Page.t) : Page.t :=
  Page.setScanStep 0
    (Page.setScanProgress 0
       (setUrlInput ""
          (setTextInput ""
             (setUploadedFile None
                (Page.setApiResult IsNull (Page.setStage idle p)))))).

(** [scanMessages[Math.min(scanStep, scanMessages.length - 1)]]; a negative
    index reads [undefined]. *)
Definition currentMessage (scanStep : Z) : option string :=
  let i := Z.min scanStep (Z.of_nat (length scanMessages) - 1) in
  if i <? 0 then None else scanMessages !! Z.to_nat i.

(** [scanMessages.slice(0, Math.min(scanStep + 1, scanMessages.length))] for
    a step that is not negative. *)
Definition listedSteps (scanStep : Z) : list string :=
  take (Z.to_nat (Z.min (scanStep + 1) (Z.of_nat (length scanMessages))))
       scanMessages.
End PageOps.

(** ** [AuthContext.tsx] on mount, and the navbar that reads the context *)

Module Session.
(** What [JSON.parse] makes of a stored text: it throws a [SyntaxError], or
    it returns [null], an object whose [email] is a string (its other
    members are never read), or some other value. *)
Inductive parsed : Type :=
  | Throws
  | ParsedNull
  | ParsedUser (u : User.t)
  | ParsedOther.

(** How the effect run on mount ends.  Nothing in the effect catches what
    [JSON.parse] throws, so a [SyntaxError] leaves it as an uncaught error of
    the provider ([Uncaught]); [Foreign] is a run that handed [setUser] a
    value that is no user object, which [Auth.t] cannot hold. *)
Inductive mounted : Type :=
  | Ready (a : Auth.t)
  | Uncaught
  | Foreign.

(** The effect run when the provider mounts:
    [const storedUser = localStorage.getItem("truth_x_user");
     if (storedUser) setUser(JSON.parse(storedUser))]. *)
Definition mount (JSON_parse : string -> parsed) (a : Auth.t) : mounted :=
  match Auth.localStorage a !! "truth_x_user" with
  | Some storedUser =>
    if negb (String.eqb storedUser "")
    then match JSON_parse storedUser with
         | Throws => Uncaught
         | ParsedNull =>
           Ready {| Auth.user := None; Auth.localStorage := Auth.localStorage a;
                    Auth.route := Auth.route a |}
         | ParsedUser u =>
           Ready {| Auth.user := Some u; Auth.localStorage := Auth.localStorage a;
                    Auth.route := Auth.route a |}
         | ParsedOther => Foreign
         end
    else Ready a
  | None => Ready a
  end.

(** A page load: the provider starts with no user; the storage and the
    address stay. *)
Definition reload (a : Auth.t) : Auth.t :=
  {| Auth.user := None; Auth.localStorage := Auth.localStorage a;
     Auth.route := Auth.route a |}.
End Session.

Module Navbar.


End Navbar.

(** ** The history page: search, filter and sort *)

Module HistoryPage.
(** A row of the table: the columns of [History.item] and the ones the
    search and the sort by date read. *)
Record row : Type := {
  item : History.item;
  date : string;
  summary : string
}.

Inductive FilterStatus : Type :=
  | all | authentic | ai_generated | tampered | suspicious.

Inductive SortBy : Type := by_date | by_score | by_risk.

(** [{ high: 0, medium: 1, low: 2 }[risk]] *)
Definition riskOrder (risk : string) : option Q :=
  if String.eqb risk "high" then Some 0%Q
  else if String.eqb risk "medium" then Some 1%Q
  else if String.eqb risk "low" then Some 2%Q
  else None.

(** [Array.prototype.sort] with a comparator: the sort is stable, an element
    is moved behind another only when the comparator is positive.  For a
    comparator that is a consistent ordering this is the array the
    specification of the language asks for. *)
Fixpoint insert_sorted {A : Type} (cmp : A -> A -> Q) (x : A) (l : list A)
  : list A :=
  match l with
  | [] => [x]
  | y :: rest =>
    if Qle_bool (cmp x y) 0 then x :: y :: rest
    else y :: insert_sorted cmp x rest
  end.

Fixpoint sort {A : Type} (cmp : A -> A -> Q) (l : list A) : list A :=
  match l with
  | [] => []
  | x :: rest => insert_sorted cmp x (sort cmp rest)
  end.
End HistoryPage.

Section HistoryFilter.
(** [String.prototype.toLowerCase] and [String.prototype.localeCompare], as
    the host provides them. *)
Variable toLowerCase : string -> string.
Variable localeCompare : string -> string -> Q.
Variable search : string.
Variable filterStatus : HistoryPage.FilterStatus.
Variable sortBy : HistoryPage.SortBy.

Definition matchSearch (r : HistoryPage.row) : bool :=
  includes (toLowerCase search)
    (toLowerCase (History.name (HistoryPage.item r)))
  || includes (toLowerCase search)
       (toLowerCase (History.status (HistoryPage.item r)))
  || includes (toLowerCase search) (toLowerCase (HistoryPage.summary r)).

Definition matchFilter (r : HistoryPage.row) : bool :=
  let status := toLowerCase (History.status (HistoryPage.item r)) in
  match filterStatus with
  | HistoryPage.all => true
  | HistoryPage.authentic => Qle_bool 75 (History.score (HistoryPage.item r))
  | HistoryPage.ai_generated => includes "ai" status
  | HistoryPage.tampered => includes "tamper" status
  | HistoryPage.suspicious => includes "suspicious" status
  end.

(** The comparator handed to [sort]; a difference that is not a number
    counts as zero. *)
Definition compareRows (a b : HistoryPage.row) : Q :=
  match sortBy with
  | HistoryPage.by_score =>
    (History.score (HistoryPage.item b) - History.score (HistoryPage.item a))%Q
  | HistoryPage.by_risk =>
    match HistoryPage.riskOrder (History.risk (HistoryPage.item a)),
          HistoryPage.riskOrder (History.risk (HistoryPage.item b)) with
    | Some x, Some y => (x - y)%Q
    | _, _ => 0%Q
    end
  | HistoryPage.by_date => localeCompare (HistoryPage.date b) (HistoryPage.date a)
  end.

(** [filtered], for any table. *)
Definition filtered (rows : list HistoryPage.row) : list HistoryPage.row :=
  HistoryPage.sort compareRows
    (List.filter (fun r => matchSearch r && matchFilter r) rows).
End HistoryFilter.

(** ASCII letters to lower case, for the examples. *)
Definition asciiLower (s : string) : string :=
  String.string_of_list_ascii
    (map (fun c =>
            let n := Ascii.nat_of_ascii c in
            if ((65 <=? n) && (n <=? 90))%nat then Ascii.ascii_of_nat (n + 32)
            else c)
         (String.list_ascii_of_string s)).

(** Three rows of the page's table, for the examples. *)
Definition historySample : list HistoryPage.row :=
  [ {| HistoryPage.item :=
         History.Build_item "3" "health_news_article.txt" 72
           "Partially AI-Generated" "medium";
       HistoryPage.date := "2026-02-18";
       HistoryPage.summary :=
         "Mixed human/AI authorship. 4 unverifiable factual claims." |};
    {| HistoryPage.item :=
         History.Build_item "4" "protest_photo.jpg" 91 "Authentic" "low";
       HistoryPage.date := "2026-02-18";
       HistoryPage.summary :=
         "No manipulation detected. EXIF metadata consistent." |};
    {| HistoryPage.item :=
         History.Build_item "9" "breaking_news_clip.mp4" 79 "Mostly Authentic"
           "low";
       HistoryPage.date := "2026-02-14";
       HistoryPage.summary :=
         "No deepfake detected. Slight context reframing suspected." |} ].

(** ** Reading back what [JSON.stringify] wrote *)

Module Unquote.
Definition hexVal (c : Ascii.ascii) : option nat :=
  let n := Ascii.nat_of_ascii c in
  if ((48 <=? n) && (n <=? 57))%nat then Some (n - 48)%nat
  else if ((97 <=? n) && (n <=? 102))%nat then Some (n - 87)%nat
  else if ((65 <=? n) && (n <=? 70))%nat then Some (n - 55)%nat
  else None.

(** The characters of a JSON string literal after its opening quote, up to
    the closing quote; the rest of the text is returned with them.  Of the
    [\u] escapes only those below 128 are read (the others need more than one
    byte in this representation of strings); a raw control character is an
    error, as in [JSON.parse]. *)
Fixpoint chars (fuel : nat) (s : string) : option (string * string) :=
  match fuel with
  | O => None
  | Datatypes.S n =>
    match s with
    | EmptyString => None
    | String c rest =>
      let code := Ascii.nat_of_ascii c in
      if (code =? 34)%nat then Some (EmptyString, rest)
      else if (code =? 92)%nat then
        match rest with
        | String e rest' =>
          let simple (x : nat) :=
            '(t, k) ← chars n rest' ; Some (String (Ascii.ascii_of_nat x) t, k) in
          let ec := Ascii.nat_of_ascii e in
          if (ec =? 34)%nat then simple 34%nat
          else if (ec =? 92)%nat then simple 92%nat
          else if (ec =? 47)%nat then simple 47%nat
          else if (ec =? 98)%nat then simple 8%nat
          else if (ec =? 102)%nat then simple 12%nat
          else if (ec =? 110)%nat then simple 10%nat
          else if (ec =? 114)%nat then simple 13%nat
          else if (ec =? 116)%nat then simple 9%nat
          else if (ec =? 117)%nat then
            match rest' with
            | String h1 (String h2 (String h3 (String h4 rest''))) =>
              a ← hexVal h1 ; b ← hexVal h2 ; c' ← hexVal h3 ; d ← hexVal h4 ;
              let v := (((a * 16 + b) * 16 + c') * 16 + d)%nat in
              if (v <? 128)%nat
              then '(t, k) ← chars n rest'' ;
                   Some (String (Ascii.ascii_of_nat v) t, k)
              else None
            | _ => None
            end
          else None
        | EmptyString => None
        end
      else if (code <? 32)%nat then None
      else '(t, k) ← chars n rest ; Some (String c t, k)
    end
  end.

(** A whole string literal and nothing after it. *)
Definition literal (s : string) : option string :=
  match s with
  | String q rest =>
    if (Ascii.nat_of_ascii q =? 34)%nat
    then match chars (Datatypes.S (String.length rest)) rest with
         | Some (t, EmptyString) => Some t
         | _ => None
         end
    else None
  | EmptyString => None
  end.

(** [s] without the prefix [pre], when it starts with it. *)
Fixpoint stripPrefix (pre s : string) : option string :=
  match pre with
  | EmptyString => Some s
  | String a pre' =>
    match s with
    | String b s' => if Ascii.eqb a b then stripPrefix pre' s' else None
    | EmptyString => None
    end
  end.

(** [JSON.parse] on the texts [login] writes: an object whose one member is
    ["email"], written without white space.  Any other text is [None]. *)
Definition user (s : string) : option User.t :=
  match stripPrefix ("{" +:+ jsonString "email" +:+ ":") s with
  | Some (String q rest) =>
    if (Ascii.nat_of_ascii q =? 34)%nat
    then match chars (Datatypes.S (String.length rest)) rest with
         | Some (t, "}") => Some {| User.email := t |}
         | _ => None
         end
    else None
  | _ => None
  end.
End Unquote.

(** A character that is not a control character. *)
Definition printable (c : Ascii.ascii) : Prop :=
  (32 <= Ascii.nat_of_ascii c)%nat.

(** * Properties *)

(** ** Comparisons *)

Lemma Qlt_bool_iff (x y : Q) : Qlt_bool x y = true <-> (x < y)%Q.
Proof.
  unfold Qlt_bool. rewrite negb_true_iff. split.
  - intros H. apply Qnot_le_lt. intros Hle.
    apply Qle_bool_iff in Hle. congruence.
  - intros H. destruct (Qle_bool y x) eqn:E; [|reflexivity].
    apply Qle_bool_iff in E. exfalso. exact (Qlt_not_le _ _ H E).
Qed.

Lemma Qle_bool_false (x y : Q) : Qle_bool x y = false <-> (y < x)%Q.
Proof.
  rewrite <- Qlt_bool_iff. unfold Qlt_bool. now rewrite negb_true_iff.
Qed.

Lemma js_ge_num (B : Builtins) (v : JsVal) (q c : Q) :
  toNumber B v = Some q -> js_ge B v (Num c) = Qle_bool c q.
Proof. intros H. unfold js_ge, js_rel. now rewrite H. Qed.

Lemma nullish_nullish (a d : JsVal) : nullish (nullish a Null) d = nullish a d.
Proof. now destruct a. Qed.

(** ** Score and risk (C1) *)

Lemma tierOf_cases (q : Q) :
  ((75 <= q)%Q /\ tierOf q = "low") \/
  ((45 <= q)%Q /\ (q < 75)%Q /\ tierOf q = "medium") \/
  ((q < 45)%Q /\ tierOf q = "high").
Proof.
  unfold tierOf. destruct (Qle_bool 75 q) eqn:E75.
  - left. split; [now apply Qle_bool_iff | reflexivity].
  - apply Qle_bool_false in E75. destruct (Qle_bool 45 q) eqn:E45.
    + right; left. repeat split; [now apply Qle_bool_iff | assumption].
    + right; right. split; [now apply Qle_bool_false | reflexivity].
Qed.

Lemma tiers_exclusive (q : Q) :
  ((75 <= q)%Q -> ~ (q < 75)%Q) /\ ((45 <= q)%Q -> ~ (q < 45)%Q) /\
  ((75 <= q)%Q -> (45 <= q)%Q).
Proof.
  repeat split.
  - intros H H'. exact (Qlt_not_le _ _ H' H).
  - intros H H'. exact (Qlt_not_le _ _ H' H).
  - intros H. eapply Qle_trans; [|exact H]. discriminate.
Qed.

Lemma spec_tiers_tierOf (q : Q) (risk : JsVal) :
  spec_tiers q risk <-> risk = Str (tierOf q).
Proof.
  destruct (tiers_exclusive q) as (X1 & X2 & X3). unfold spec_tiers.
  destruct (tierOf_cases q) as [[H ->]|[(H1 & H2 & ->)|[H ->]]]; split.
  - intros (Hl & _ & _). auto.
  - intros ->. repeat split; [intros [_ H']|intros H']; exfalso.
    + exact (X1 H H').
    + exact (X2 (X3 H) H').
  - intros (_ & Hm & _). auto.
  - intros ->. repeat split; [intros H'|intros H']; exfalso.
    + exact (X1 H' H2).
    + exact (X2 H1 H').
  - intros (_ & _ & Hh). auto.
  - intros ->. repeat split; [intros H'|intros [H' _]]; exfalso.
    + exact (X2 (X3 H') H).
    + exact (X2 H' H).
Qed.

Lemma colour_on_tier_tierOf (q : Q) (c : string) :
  riskColor (tierOf q) = Some c -> colour_on_tier q c.
Proof.
  destruct (tiers_exclusive q) as (X1 & X2 & X3). unfold colour_on_tier.
  destruct (tierOf_cases q) as [[H ->]|[(H1 & H2 & ->)|[H ->]]]; intros Hc;
    repeat split; try (intros _; exact Hc); intros H'; exfalso.
  - destruct H' as [_ H']. exact (X1 H H').
  - exact (X2 (X3 H) H').
  - exact (X1 H' H2).
  - exact (X2 H1 H').
  - exact (X2 (X3 H') H).
  - destruct H' as [H' _]. exact (X2 H' H).
Qed.

Lemma scoreColor_tier (B : Builtins) (v : JsVal) (q : Q) :
  toNumber B v = Some q ->
  riskColor (tierOf q) = Some (scoreColor B v) /\
  snd (statusIcon B v) = scoreColor B v.
Proof.
  intros H. unfold scoreColor, statusIcon, tierOf.
  rewrite !(js_ge_num B v q) by exact H.
  destruct (Qle_bool 75 q); [now split|].
  destruct (Qle_bool 45 q); now split.
Qed.

Lemma getScoreColor_tier (q : Q) :
  riskColor (tierOf q) = Some (getScoreColor q).
Proof.
  unfold getScoreColor, tierOf.
  destruct (Qle_bool 75 q); [reflexivity|].
  destruct (Qle_bool 45 q); reflexivity.
Qed.

Lemma mock_rows_consistent (loadTime : string) (tab : Tab) :
  Mock.risk (mockResults loadTime tab)
  = tierOf (Mock.score (mockResults loadTime tab)).
Proof. destruct tab; reflexivity. Qed.

Lemma result_score (B : Builtins) (loadTime : string) (tab : Tab)
    (api : Maybe Api.t) :
  Result.score (result B loadTime tab api)
  = nullish (opt_leaf api Api.score) (Num (Mock.score (mockResults loadTime tab))).
Proof. apply nullish_nullish. Qed.

Lemma result_risk (B : Builtins) (loadTime : string) (tab : Tab)
    (api : Maybe Api.t) :
  Result.risk (result B loadTime tab api)
  = nullish (opt_leaf api Api.risk_level)
            (Str (Mock.risk (mockResults loadTime tab))).
Proof. apply nullish_nullish. Qed.

Lemma nullish_supplied (v d : JsVal) : supplied v -> nullish v d = v.
Proof. intros [H1 H2]. now destruct v. Qed.

Lemma nullish_not_supplied (v d : JsVal) : ~ supplied v -> nullish v d = d.
Proof.
  unfold supplied. intros H. destruct v; try reflexivity; exfalso; apply H;
    split; discriminate.
Qed.

(** C1, as stated, fails: on the video tab a response [{ score: 90 }] is
    shown with score 90 and the mock row's risk "high", and a response
    [{ score: 10, risk_level: "low" }] is shown as it came. *)
Lemma C1_merged_result_inconsistent :
  let r := result ExampleHost.host "" video (Obj (apiScore 90)) in
  let r' := result ExampleHost.host "" video (Obj (apiScoreRisk 10 "low")) in
  Result.score r = Num 90 /\ Result.risk r = Str "high" /\
  ~ consistent ExampleHost.host (Result.score r) (Result.risk r) /\
  Result.score r' = Num 10 /\ Result.risk r' = Str "low" /\
  ~ consistent ExampleHost.host (Result.score r') (Result.risk r').
Proof.
  cbv zeta. repeat split.
  - intros (q & Hq & Hr). cbn in Hq. injection Hq as <-.
    apply spec_tiers_tierOf in Hr. discriminate Hr.
  - intros (q & Hq & Hr). cbn in Hq. injection Hq as <-.
    apply spec_tiers_tierOf in Hr. discriminate Hr.
Qed.

(** The history table has the same defect in two rows: scores 44 and 38 are
    listed with risk "medium". *)
Lemma mockHistory_rows_off_tier :
  filter (fun i => History.risk i <> tierOf (History.score i)) mockHistory
  = [ History.Build_item "5" "politician_speech.mp4" 44 "Tampered" "medium";
      History.Build_item "10" "suspicious_whatsapp.txt" 38 "Suspicious" "medium" ].
Proof. reflexivity. Qed.

(** C1 (amended).  The colouring follows the fixed thresholds: the score
    colour of the dashboard, which is also the colour of its status icon,
    and [getScoreColor] of the history page are the badge colour of "low"
    for a score of at least 75, of "medium" from 45 up to 75 and of "high"
    below 45.  The merged result takes score and risk field by field: each
    is the response's value when that is neither undefined nor null and the
    mock row's otherwise, whatever the other field is; every mock row is on
    tier, so the pair is consistent when the response supplies neither
    field, and when it supplies both the pair is shown as it came. *)
Theorem C1_colouring_on_tier_merge_fieldwise
    (B : Builtins) (loadTime : string) (tab : Tab) (api : Maybe Api.t) :
  let r := result B loadTime tab api in
  let m := mockResults loadTime tab in
  let s := opt_leaf api Api.score in
  let k := opt_leaf api Api.risk_level in
  (forall q, toNumber B (Result.score r) = Some q ->
     colour_on_tier q (scoreColor B (Result.score r)) /\
     snd (statusIcon B (Result.score r)) = scoreColor B (Result.score r)) /\
  (forall q, colour_on_tier q (getScoreColor q)) /\
  (supplied s -> Result.score r = s) /\
  (~ supplied s -> Result.score r = Num (Mock.score m)) /\
  (supplied k -> Result.risk r = k) /\
  (~ supplied k -> Result.risk r = Str (Mock.risk m)) /\
  consistent B (Num (Mock.score m)) (Str (Mock.risk m)) /\
  (~ supplied s -> ~ supplied k ->
     Result.score r = Num (Mock.score m) /\ Result.risk r = Str (Mock.risk m) /\
     consistent B (Result.score r) (Result.risk r)) /\
  (supplied s -> supplied k ->
     Result.score r = s /\ Result.risk r = k /\
     (consistent B (Result.score r) (Result.risk r) <-> consistent B s k)).
Proof.
  cbv zeta. rewrite result_score, result_risk.
  assert (Hmock : consistent B (Num (Mock.score (mockResults loadTime tab)))
                    (Str (Mock.risk (mockResults loadTime tab)))).
  { eexists. split; [reflexivity|].
    apply spec_tiers_tierOf. now rewrite mock_rows_consistent. }
  repeat apply conj.
  - intros q Hq. destruct (scoreColor_tier B _ q Hq) as [Hc Hi].
    split; [now apply colour_on_tier_tierOf | exact Hi].
  - intros q. apply colour_on_tier_tierOf, getScoreColor_tier.
  - apply nullish_supplied.
  - apply nullish_not_supplied.
  - apply nullish_supplied.
  - apply nullish_not_supplied.
  - exact Hmock.
  - intros Hs Hk. rewrite !nullish_not_supplied by assumption.
    repeat split. exact Hmock.
  - intros Hs Hk. rewrite !nullish_supplied by assumption. tauto.
Qed.

Lemma C1_witness :
  consistent ExampleHost.host (Num 91) (Str "low") /\
  riskColor "low" = Some (getScoreColor 80) /\
  Result.score (result ExampleHost.host "" video (Obj (apiScore 90))) = Num 90 /\
  Result.risk (result ExampleHost.host "" video (Obj (apiScore 90))) = Str "high".
Proof.
  destruct (C1_colouring_on_tier_merge_fieldwise ExampleHost.host "" image Missing)
    as (_ & Hc & _ & _ & _ & _ & _ & Hm & _).
  destruct (C1_colouring_on_tier_merge_fieldwise ExampleHost.host "" video
              (Obj (apiScore 90)))
    as (_ & _ & Hs & _ & _ & Hk & _).
  split; [|split; [|split]].
  - apply Hm; intros [H _]; apply H; reflexivity.
  - apply (Hc 80%Q). discriminate.
  - apply Hs. split; discriminate.
  - apply Hk. intros [H _]. apply H. reflexivity.
Defined.

(** ** No real data: the mock row is shown (C2) *)

Lemma strict_ne_undefined (v : JsVal) :
  strict_ne v Undefined = false <-> v = Undefined.
Proof. destruct v; cbn; split; congruence. Qed.

Lemma hasRealData_false (api : Maybe Api.t) :
  hasRealData api = false <->
  hasMetadata api = false /\ present (videoML api) = false /\
  present (textML api) = false /\ opt_leaf api Api.score = Undefined.
Proof.
  unfold hasRealData, hasML.
  rewrite !orb_false_iff, strict_ne_undefined. tauto.
Qed.

(** C2, as stated, fails: a response [{}] (no score, no metadata, no ML
    analysis) is shown on the video tab with score 18, status "AI-Generated"
    and risk "high", and on the image tab with score 91, status "Authentic"
    and risk "low". *)
Lemma C2_empty_response_shows_mock_verdict :
  let rv := result ExampleHost.host "" video (Obj Api.empty) in
  let ri := result ExampleHost.host "" image (Obj Api.empty) in
  hasRealData (Obj Api.empty) = false /\
  Result.score rv = Num 18 /\ Result.status rv = "AI-Generated" /\
  Result.risk rv = Str "high" /\
  Result.score ri = Num 91 /\ Result.status ri = "Authentic" /\
  Result.risk ri = Str "low".
Proof. cbv zeta. repeat split. Qed.

(** C2 (amended).  When the response carries no score, no metadata and no
    ML analysis, the dashboard shows the mock row of the active tab: its
    numeric score, its status and its fingerprint, and its risk unless the
    response supplies a risk level. *)
Theorem C2_no_real_data_shows_mock_row
    (B : Builtins) (loadTime : string) (tab : Tab) (api : Maybe Api.t) :
  hasRealData api = false ->
  let r := result B loadTime tab api in
  let m := mockResults loadTime tab in
  Result.score r = Num (Mock.score m) /\
  Result.status r = Mock.status m /\
  Result.fingerprint r = Mock.fingerprint m /\
  Result.risk r = nullish (opt_leaf api Api.risk_level) (Str (Mock.risk m)).
Proof.
  intros H. pose proof H as (_ & Hv & Ht & Hs)%hasRealData_false.
  cbv zeta. rewrite result_score, result_risk, Hs. repeat split.
  - cbn. unfold buildStatus, videoStatus, textStatus. rewrite H.
    destruct (videoML api); try discriminate.
    all: destruct (textML api); try discriminate; reflexivity.
  - cbn. unfold buildFingerprint. now rewrite H.
Qed.

Lemma C2_witness :
  hasRealData (Obj Api.empty) = false /\
  Result.score (result ExampleHost.host "" audio (Obj Api.empty)) = Num 31 /\
  Result.status (result ExampleHost.host "" audio (Obj Api.empty))
  = "Synthetic Voice".
Proof.
  split; [reflexivity|].
  destruct (C2_no_real_data_shows_mock_row ExampleHost.host "" audio
              (Obj Api.empty) eq_refl) as (Hs & Ht & _).
  split; [exact Hs | exact Ht].
Defined.

(** Even the sentinel is shown with the mock row's score: a null score
    counts as real data, the score falls back to the mock row, and the risk
    "unknown" has no badge configuration. *)
Example sentinel_shown_with_mock_score :
  let r := result ExampleHost.host "" video (Obj apiUnknown) in
  hasRealData (Obj apiUnknown) = true /\
  Result.score r = Num 18 /\ Result.status r = "AI-Generated" /\
  Result.risk r = Str "unknown" /\ riskConfig (Result.risk r) = None.
Proof. cbv zeta. repeat split. Qed.

(** ** The drift timeline (C4) *)

Lemma mock_drift_nonempty (loadTime : string) (tab : Tab) :
  Mock.driftData (mockResults loadTime tab) <> [].
Proof. destruct tab; discriminate. Qed.

(** C4, as stated, fails: a response [{ score: 50 }] has no drift data, and
    on the video tab the timeline shown is the eight points of the mock
    row. *)
Lemma C4_missing_drift_filled_from_mock :
  let r := result ExampleHost.host "" video (Obj (apiScore 50)) in
  Api.drift_data (apiScore 50) = Missing /\
  hasRealData (Obj (apiScore 50)) = true /\
  Result.driftData r
  = [ dp "0s" 82; dp "5s" 78; dp "10s" 71; dp "15s" 34;
      dp "20s" 22; dp "25s" 19; dp "30s" 16; dp "35s" 18 ].
Proof. cbv zeta. repeat split. Qed.

(** C4 (amended).  The drift timeline shown is the response's drift data
    when the response has a non-empty array of them; otherwise it is the
    mock row's drift data for the active tab, which is never empty. *)
Theorem C4_drift_from_response_or_mock
    (B : Builtins) (loadTime : string) (tab : Tab) (api : Maybe Api.t) :
  let r := result B loadTime tab api in
  (forall d, realDrift api = Some d -> Result.driftData r = d) /\
  (realDrift api = None ->
     Result.driftData r = Mock.driftData (mockResults loadTime tab) /\
     Result.driftData r <> []).
Proof.
  cbv zeta. cbn [Result.driftData result]. unfold mergedDrift, realDrift, mock.
  destruct (opt_obj api Api.drift_data) as [| |[|p d]]; cbn; split;
    try discriminate; try (intros; split; [reflexivity|apply mock_drift_nonempty]).
  intros d' [= <-]. reflexivity.
Qed.

Lemma C4_witness :
  realDrift (Obj (apiScore 50)) = None /\
  Result.driftData (result ExampleHost.host "" text (Obj (apiScore 50)))
  = Mock.driftData (mockResults "" text).
Proof.
  split; [reflexivity|].
  exact (proj1 (proj2 (C4_drift_from_response_or_mock ExampleHost.host "" text
                         (Obj (apiScore 50))) eq_refl)).
Defined.

(** ** Dependence on the clock (C5) *)

(** C5, as stated, fails: with no real data the image tab shows the mock
    fingerprint, whose Timestamp entry is the clock reading taken when the
    module was loaded; two loads at different times give different output
    for the same tab and the same response. *)
Lemma C5_image_mock_depends_on_clock :
  result ExampleHost.host "19/2/2026, 2:32:05 pm" image (Obj Api.empty)
  <> result ExampleHost.host "19/2/2026, 2:32:06 pm" image (Obj Api.empty).
Proof. intros H. discriminate H. Qed.

Lemma mock_clock_free (t1 t2 : string) (tab : Tab) :
  tab <> image -> mockResults t1 tab = mockResults t2 tab.
Proof. destruct tab; intros H; try reflexivity. now contradict H. Qed.

Lemma mock_clock_only_fingerprint (t1 t2 : string) (tab : Tab) :
  let m1 := mockResults t1 tab in
  let m2 := mockResults t2 tab in
  Mock.score m1 = Mock.score m2 /\ Mock.status m1 = Mock.status m2 /\
  Mock.risk m1 = Mock.risk m2 /\ Mock.confidence m1 = Mock.confidence m2 /\
  Mock.anomalies m1 = Mock.anomalies m2 /\ Mock.insights m1 = Mock.insights m2 /\
  Mock.timeline m1 = Mock.timeline m2 /\ Mock.driftData m1 = Mock.driftData m2.
Proof. destruct tab; cbn; repeat split. Qed.

(** Every field of the result but the fingerprint is the same whatever the
    clock said. *)
Lemma result_clock_only_fingerprint
    (B : Builtins) (t1 t2 : string) (tab : Tab) (api : Maybe Api.t) :
  let r1 := result B t1 tab api in
  let r2 := result B t2 tab api in
  Result.score r1 = Result.score r2 /\ Result.status r1 = Result.status r2 /\
  Result.risk r1 = Result.risk r2 /\
  Result.confidence r1 = Result.confidence r2 /\
  Result.anomalies r1 = Result.anomalies r2 /\
  Result.insights r1 = Result.insights r2 /\
  Result.timeline r1 = Result.timeline r2 /\
  Result.driftData r1 = Result.driftData r2.
Proof.
  destruct (mock_clock_only_fingerprint t1 t2 tab)
    as (Hs & Ht & Hr & Hc & Ha & Hi & Hl & Hd).
  cbv zeta. cbn [Result.score Result.status Result.risk Result.confidence
    Result.anomalies Result.insights Result.timeline Result.driftData result].
  unfold buildStatus, buildAnomalies, buildInsights, mergedDrift, mock.
  rewrite Hs, Ht, Hr, Hc, Ha, Hi, Hl, Hd. repeat split.
Qed.

Lemma fingerprint_clock_only_timestamp
    (B : Builtins) (t1 t2 : string) (tab : Tab) (api : Maybe Api.t) :
  let apart l :=
    List.filter (fun it => negb (String.eqb (Fingerprint.label it) "Timestamp")) l in
  apart (buildFingerprint B t1 tab api) = apart (buildFingerprint B t2 tab api) /\
  map Fingerprint.label (buildFingerprint B t1 tab api)
  = map Fingerprint.label (buildFingerprint B t2 tab api).
Proof.
  cbv zeta. unfold buildFingerprint, mock.
  destruct (hasRealData api); cbn [negb]; [now split|].
  destruct tab; split; reflexivity.
Qed.

(** C5 (amended).  The result is a function of the builtins, the tab, the
    response and the clock reading taken when the module was loaded.  That
    reading reaches the output only through the Timestamp entry of the image
    row's mock fingerprint: on any other tab, or whenever the response
    carries real data, the result is the same for every reading; on every
    tab and for every response all fields other than the fingerprint are the
    same for every reading, and so are the fingerprint's labels and all its
    entries other than the one labelled Timestamp, whose value on the image
    tab without real data is the reading itself. *)
Theorem C5_clock_reaches_only_image_mock
    (B : Builtins) (t1 t2 : string) (tab : Tab) (api : Maybe Api.t) :
  let r1 := result B t1 tab api in
  let r2 := result B t2 tab api in
  let apart l :=
    List.filter (fun it => negb (String.eqb (Fingerprint.label it) "Timestamp")) l in
  (tab <> image \/ hasRealData api = true -> r1 = r2) /\
  (Result.score r1 = Result.score r2 /\ Result.status r1 = Result.status r2 /\
   Result.risk r1 = Result.risk r2 /\
   Result.confidence r1 = Result.confidence r2 /\
   Result.anomalies r1 = Result.anomalies r2 /\
   Result.insights r1 = Result.insights r2 /\
   Result.timeline r1 = Result.timeline r2 /\
   Result.driftData r1 = Result.driftData r2) /\
  apart (Result.fingerprint r1) = apart (Result.fingerprint r2) /\
  map Fingerprint.label (Result.fingerprint r1)
  = map Fingerprint.label (Result.fingerprint r2) /\
  (tab = image -> hasRealData api = false ->
   byLabel "Timestamp" (Result.fingerprint r1) = [ fp "Timestamp" t1 false ]).
Proof.
  cbv zeta.
  pose proof (result_clock_only_fingerprint B t1 t2 tab api) as Hfields.
  pose proof (fingerprint_clock_only_timestamp B t1 t2 tab api) as [Hapart Hlab].
  cbv zeta in Hfields, Hapart.
  split; [|split; [exact Hfields|split; [exact Hapart|split; [exact Hlab|]]]].
  - intros H. destruct Hfields as (Hs & Ht & Hr & Hc & Ha & Hi & Hl & Hd).
    assert (Hf : buildFingerprint B t1 tab api = buildFingerprint B t2 tab api).
    { unfold buildFingerprint, mock. destruct H as [H|H].
      - now rewrite (mock_clock_free t1 t2 tab H).
      - now rewrite H. }
    cbn [Result.score Result.status Result.risk Result.confidence
      Result.anomalies Result.insights Result.timeline Result.driftData result]
      in *.
    unfold result. now rewrite Hs, Ht, Hr, Hc, Ha, Hi, Hl, Hd, Hf.
  - intros -> H. cbn [Result.fingerprint result]. unfold buildFingerprint.
    rewrite H. reflexivity.
Qed.

Lemma C5_witness :
  hasRealData (Obj (apiScore 50)) = true /\
  result ExampleHost.host "19/2/2026, 2:32:05 pm" image (Obj (apiScore 50))
  = result ExampleHost.host "19/2/2026, 2:32:06 pm" image (Obj (apiScore 50)) /\
  byLabel "Timestamp"
    (Result.fingerprint
       (result ExampleHost.host "19/2/2026, 2:32:05 pm" image (Obj Api.empty)))
  = [ fp "Timestamp" "19/2/2026, 2:32:05 pm" false ].
Proof.
  split; [reflexivity|]. split.
  - apply (C5_clock_reaches_only_image_mock ExampleHost.host
             "19/2/2026, 2:32:05 pm" "19/2/2026, 2:32:06 pm" image
             (Obj (apiScore 50))).
    right. reflexivity.
  - apply (C5_clock_reaches_only_image_mock ExampleHost.host
             "19/2/2026, 2:32:05 pm" "19/2/2026, 2:32:06 pm" image
             (Obj Api.empty)); reflexivity.
Defined.

(** ** The fingerprint built from real metadata (C7) *)

Lemma js_gt_iff (B : Builtins) (a : JsVal) (c : Q) :
  js_gt B a (Num c) = true <-> exists q, toNumber B a = Some q /\ (c < q)%Q.
Proof.
  unfold js_gt, js_rel. cbn [toNumber]. destruct (toNumber B a) as [q|].
  - rewrite Qlt_bool_iff. split; [eauto|]. now intros (? & [= <-] & ?).
  - split; [discriminate|]. now intros (? & ? & _).
Qed.

Lemma js_lt_iff (B : Builtins) (a : JsVal) (c : Q) :
  js_lt B a (Num c) = true <-> exists q, toNumber B a = Some q /\ (q < c)%Q.
Proof.
  unfold js_lt, js_rel. cbn [toNumber]. destruct (toNumber B a) as [q|].
  - rewrite Qlt_bool_iff. split; [eauto|]. now intros (? & [= <-] & ?).
  - split; [discriminate|]. now intros (? & ? & _).
Qed.

Lemma js_ge_iff (B : Builtins) (a : JsVal) (c : Q) :
  js_ge B a (Num c) = true <-> exists q, toNumber B a = Some q /\ (c <= q)%Q.
Proof.
  unfold js_ge, js_rel. cbn [toNumber]. destruct (toNumber B a) as [q|].
  - rewrite Qle_bool_iff. split; [eauto|]. now intros (? & [= <-] & ?).
  - split; [discriminate|]. now intros (? & ? & _).
Qed.

Lemma byLabel_app (l : string) (xs ys : list Fingerprint.item) :
  byLabel l (xs ++ ys) = byLabel l xs ++ byLabel l ys.
Proof. apply List.filter_app. Qed.

Ltac split_whens :=
  repeat match goal with
         | |- context [when ?c _] => destruct c; cbn [when]
         end.

Ltac in_section :=
  repeat constructor; cbn; try discriminate; intros _; unfold ruleLabels;
  repeat first [ apply list_elem_of_here | apply list_elem_of_further ].

Section FingerprintRules.
Variable B : Builtins.
Variable api : Maybe Api.t.

Lemma fileItems_section :
  Forall (inSection "File") (fileItems B api (fi api) (vid api)).
Proof. unfold fileItems. in_section. Qed.

Lemma videoItems_section : Forall (inSection "Video") (videoItems B (vid api)).
Proof. unfold videoItems. split_whens; in_section. Qed.

Lemma audioItems_section : Forall (inSection "Audio") (audioItems B (aud api)).
Proof. unfold audioItems. split_whens; in_section. Qed.

Lemma deviceItems_section : Forall (inSection "Device") (deviceItems (tags api)).
Proof. unfold deviceItems. split_whens; in_section. Qed.

Lemma gpsItems_section : Forall (inSection "Location") (gpsItems (tags api)).
Proof. unfold gpsItems. destruct (truthy _); in_section. Qed.

Lemma tagItems_section : Forall (inSection "Tags") (tagItems (tags api)).
Proof. unfold tagItems. split_whens; in_section. Qed.

(** The locals of [buildFingerprint] read the response. *)
Lemma tags_raw (f : Tags.t -> JsVal) :
  f Tags.empty = Undefined -> f (tags api) = tagOf f api.
Proof.
  intros H. unfold tags, realMeta, tagOf, metadataOf.
  destruct api as [| |a]; cbn; try exact H.
  destruct (Api.metadata a) as [| |m]; cbn; try exact H.
  destruct (Metadata.tags m); cbn; auto.
Qed.

Lemma fi_raw (f : FileInfo.t -> JsVal) :
  f FileInfo.empty = Undefined -> f (fi api) = fileInfoOf f api.
Proof.
  intros H. unfold fi, realMeta, fileInfoOf, metadataOf.
  destruct api as [| |a]; cbn; try exact H.
  destruct (Api.metadata a) as [| |m]; cbn; try exact H.
  destruct (Metadata.file_info m); cbn; auto.
Qed.

Lemma vid_raw (f : VideoMeta.t -> JsVal) :
  f VideoMeta.empty = Undefined -> f (vid api) = videoOf f api.
Proof.
  intros H. unfold vid, realMeta, videoOf, metadataOf.
  destruct api as [| |a]; cbn; try exact H.
  destruct (Api.metadata a) as [| |m]; cbn; try exact H.
  destruct (Metadata.video m); cbn; auto.
Qed.

(** Where the three labels occur in the items pushed. *)
Lemma byLabel_gps :
  byLabel "GPS Location" (realFingerprint B api) = gpsItems (tags api).
Proof.
  unfold realFingerprint. rewrite !byLabel_app.
  replace (byLabel "GPS Location" (fileItems B api (fi api) (vid api)))
    with (@nil Fingerprint.item)
    by reflexivity.
  replace (byLabel "GPS Location" (videoItems B (vid api)))
    with (@nil Fingerprint.item)
    by (unfold videoItems; split_whens; reflexivity).
  replace (byLabel "GPS Location" (audioItems B (aud api)))
    with (@nil Fingerprint.item)
    by (unfold audioItems; split_whens; reflexivity).
  replace (byLabel "GPS Location" (deviceItems (tags api)))
    with (@nil Fingerprint.item)
    by (unfold deviceItems; split_whens; reflexivity).
  replace (byLabel "GPS Location" (tagItems (tags api)))
    with (@nil Fingerprint.item)
    by (unfold tagItems; split_whens; reflexivity).
  cbn [app]. rewrite app_nil_r.
  unfold gpsItems. now destruct (truthy _).
Qed.

Lemma byLabel_encoder :
  byLabel "Encoder" (realFingerprint B api)
  = when (truthy (Tags.encoder (tags api)))
      [ item "Encoder" (Tags.encoder (tags api)) true "Tags" ].
Proof.
  unfold realFingerprint. rewrite !byLabel_app.
  replace (byLabel "Encoder" (fileItems B api (fi api) (vid api)))
    with (@nil Fingerprint.item)
    by reflexivity.
  replace (byLabel "Encoder" (videoItems B (vid api)))
    with (@nil Fingerprint.item)
    by (unfold videoItems; split_whens; reflexivity).
  replace (byLabel "Encoder" (audioItems B (aud api)))
    with (@nil Fingerprint.item)
    by (unfold audioItems; split_whens; reflexivity).
  replace (byLabel "Encoder" (deviceItems (tags api)))
    with (@nil Fingerprint.item)
    by (unfold deviceItems; split_whens; reflexivity).
  replace (byLabel "Encoder" (gpsItems (tags api)))
    with (@nil Fingerprint.item)
    by (unfold gpsItems; now destruct (truthy _)).
  cbn [app]. unfold tagItems.
  destruct (truthy (Tags.encoder (tags api))); split_whens; reflexivity.
Qed.

Lemma byLabel_bitrate :
  exists v,
    byLabel "Total Bitrate" (realFingerprint B api)
    = [ item "Total Bitrate" v
          (js_gt B (FileInfo.total_bitrate_kbps (fi api)) (Num 0)
           && js_lt B (FileInfo.total_bitrate_kbps (fi api)) (Num 2000)
           && js_ge B (js_or (VideoMeta.width (vid api)) (Num 0)) (Num 1920))
          "File" ].
Proof.
  eexists. unfold realFingerprint. rewrite !byLabel_app.
  replace (byLabel "Total Bitrate" (videoItems B (vid api)))
    with (@nil Fingerprint.item)
    by (unfold videoItems; split_whens; reflexivity).
  replace (byLabel "Total Bitrate" (audioItems B (aud api)))
    with (@nil Fingerprint.item)
    by (unfold audioItems; split_whens; reflexivity).
  replace (byLabel "Total Bitrate" (deviceItems (tags api)))
    with (@nil Fingerprint.item)
    by (unfold deviceItems; split_whens; reflexivity).
  replace (byLabel "Total Bitrate" (gpsItems (tags api)))
    with (@nil Fingerprint.item)
    by (unfold gpsItems; now destruct (truthy _)).
  replace (byLabel "Total Bitrate" (tagItems (tags api)))
    with (@nil Fingerprint.item)
    by (unfold tagItems; split_whens; reflexivity).
  reflexivity.
Qed.

Lemma bitrateRule_iff :
  js_gt B (FileInfo.total_bitrate_kbps (fi api)) (Num 0)
  && js_lt B (FileInfo.total_bitrate_kbps (fi api)) (Num 2000)
  && js_ge B (js_or (VideoMeta.width (vid api)) (Num 0)) (Num 1920) = true
  <-> bitrateRule B api.
Proof.
  unfold bitrateRule.
  rewrite (fi_raw FileInfo.total_bitrate_kbps eq_refl),
          (vid_raw VideoMeta.width eq_refl).
  rewrite !andb_true_iff, js_gt_iff, js_lt_iff, js_ge_iff. split.
  - intros [[(b & Hb & H0) (b' & Hb' & H2)] (w & Hw & H19)].
    rewrite Hb in Hb'. injection Hb' as <-. eauto 10.
  - intros (b & w & Hb & H0 & H2 & Hw & H19). eauto 10.
Qed.
End FingerprintRules.

(** C7, as stated, fails: a response whose [gps_location] tag is there with
    an empty value has its GPS entry flagged, and its empty [encoder] tag
    gives no Encoder entry at all: the code asks whether a tag is truthy,
    not whether it is present. *)
Lemma C7_empty_gps_tag_is_flagged :
  let fpr := Result.fingerprint
               (result ExampleHost.host "" video (Obj apiEmptyTags)) in
  hasRealData (Obj apiEmptyTags) = true /\
  supplied (tagOf Tags.gps_location (Obj apiEmptyTags)) /\
  supplied (tagOf Tags.encoder (Obj apiEmptyTags)) /\
  byLabel "GPS Location" fpr
  = [ item "GPS Location" (Str "Not available") true "Location" ] /\
  byLabel "Encoder" fpr = [] /\
  ~ (forall it, byLabel "GPS Location" fpr = [it] ->
       (Fingerprint.suspicious it = true <->
        ~ supplied (tagOf Tags.gps_location (Obj apiEmptyTags)))).
Proof.
  cbv zeta.
  assert (Hs : supplied (Str "")) by (split; discriminate).
  split; [reflexivity|]. split; [exact Hs|]. split; [exact Hs|].
  split; [reflexivity|]. split; [reflexivity|].
  intros H. exact (proj1 (H _ eq_refl) eq_refl Hs).
Qed.

(** C7 (amended).  With real data the fingerprint is the File entries, then
    the Video, Audio, Device, Location and Tags entries, each entry carrying
    the name of its section, and an entry is flagged by one of three rules
    only, where a tag counts when its value in the response is truthy.
    There is exactly one GPS entry, flagged if and only if the response's
    [gps_location] tag is not truthy (missing, null or empty); there is an
    Encoder entry exactly when the response's [encoder] tag is truthy, and
    it is then flagged; there is exactly one Total Bitrate entry, flagged if
    and only if the response's bitrate is a number above 0 and below 2000
    and its video width, read as 0 when it is not truthy, is at least
    1920. *)
Theorem C7_fingerprint_flags_follow_rules
    (B : Builtins) (loadTime : string) (tab : Tab) (api : Maybe Api.t) :
  hasRealData api = true ->
  let fpr := Result.fingerprint (result B loadTime tab api) in
  (exists F V A D L T,
     fpr = F ++ V ++ A ++ D ++ L ++ T /\
     Forall (inSection "File") F /\ Forall (inSection "Video") V /\
     Forall (inSection "Audio") A /\ Forall (inSection "Device") D /\
     Forall (inSection "Location") L /\ Forall (inSection "Tags") T) /\
  (exists it,
     byLabel "GPS Location" fpr = [it] /\
     (Fingerprint.suspicious it = true <->
      truthy (tagOf Tags.gps_location api) = false)) /\
  (if truthy (tagOf Tags.encoder api)
   then exists it,
          byLabel "Encoder" fpr = [it] /\ Fingerprint.suspicious it = true /\
          Fingerprint.value it = tagOf Tags.encoder api
   else byLabel "Encoder" fpr = []) /\
  (exists it,
     byLabel "Total Bitrate" fpr = [it] /\
     (Fingerprint.suspicious it = true <-> bitrateRule B api)).
Proof.
  intros H. cbv zeta. cbn [Result.fingerprint result].
  unfold buildFingerprint. rewrite H. cbn [negb]. repeat apply conj.
  - eexists _, _, _, _, _, _. split; [reflexivity|].
    repeat apply conj;
      [ apply fileItems_section | apply videoItems_section
      | apply audioItems_section | apply deviceItems_section
      | apply gpsItems_section | apply tagItems_section ].
  - rewrite byLabel_gps. unfold gpsItems.
    rewrite (tags_raw api Tags.gps_location eq_refl).
    destruct (truthy (tagOf Tags.gps_location api));
      eexists; (split; [reflexivity|]); cbn; split; congruence.
  - rewrite byLabel_encoder, (tags_raw api Tags.encoder eq_refl).
    destruct (truthy (tagOf Tags.encoder api)); cbn [when]; [|reflexivity].
    eexists. repeat split.
  - destruct (byLabel_bitrate B api) as [v ->]. eexists. split; [reflexivity|].
    cbn [Fingerprint.suspicious item]. apply bitrateRule_iff.
Qed.

Example apiLowBitrate_flagged :
  map Fingerprint.label
    (List.filter Fingerprint.suspicious
       (Result.fingerprint (result ExampleHost.host "" video (Obj apiLowBitrate))))
  = [ "Total Bitrate"; "GPS Location"; "Encoder" ].
Proof. vm_compute. reflexivity. Qed.

Lemma C7_witness :
  let fpr := Result.fingerprint
               (result ExampleHost.host "" video (Obj apiLowBitrate)) in
  hasRealData (Obj apiLowBitrate) = true /\
  (exists it, byLabel "GPS Location" fpr = [it] /\
              Fingerprint.suspicious it = true) /\
  (exists it, byLabel "Encoder" fpr = [it] /\
              Fingerprint.suspicious it = true /\
              Fingerprint.value it = Str "Lavf58.76.100") /\
  (exists it, byLabel "Total Bitrate" fpr = [it] /\
              Fingerprint.suspicious it = true).
Proof.
  cbv zeta. split; [reflexivity|].
  destruct (C7_fingerprint_flags_follow_rules ExampleHost.host "" video
              (Obj apiLowBitrate) eq_refl)
    as (_ & (g & Hg & Hgs) & He & (b & Hb & Hbs)).
  split; [|split].
  - exists g. split; [exact Hg | apply Hgs; reflexivity].
  - exact He.
  - exists b. split; [exact Hb|]. apply Hbs.
    exists 1500%Q, 1920%Q. repeat split; try reflexivity; discriminate.
Defined.

(** ** Anomalies with real data (C9) *)

Lemma flagItems_map (B : Builtins) (api : Maybe Api.t) :
  flagItems B api = map (flagText B) (riskFlags api).
Proof.
  unfold flagItems, riskFlags, realRisk.
  destruct api as [| |a]; try reflexivity. cbn [opt_obj or_empty].
  destruct (Api.risk_assessment a) as [| |r]; try reflexivity. cbn [or_empty].
  destruct (RiskAssessment.flags r) as [| |[|f fs]]; reflexivity.
Qed.

Lemma existsb_map_flags {A C : Type} (f : C -> bool) (g : A -> C) (l : list A) :
  existsb f (map g l) = existsb (fun x => f (g x)) l.
Proof. induction l as [|x l IH]; cbn; [reflexivity|]. now rewrite IH. Qed.

Lemma deepfakeItem_raw (B : Builtins) (api : Maybe Api.t) :
  deepfakeItem B api = deepfakeEntry B api.
Proof.
  unfold deepfakeItem, deepfakeEntry, videoML, videoAnalysisOf, deepfakeText.
  rewrite flagItems_map, existsb_map_flags.
  destruct api as [| |a]; try reflexivity. cbn [opt_obj].
  destruct (Api.video_analysis a) as [| |m]; reflexivity.
Qed.

Lemma aiTextItem_raw (B : Builtins) (api : Maybe Api.t) :
  aiTextItem B api = aiTextEntry B api.
Proof.
  unfold aiTextItem, aiTextEntry, textML, textAnalysisOf, aiTextText.
  destruct api as [| |a]; try reflexivity. cbn [opt_obj].
  destruct (Api.text_analysis a) as [| |m]; reflexivity.
Qed.

Lemma strict_eq_str (v : JsVal) (s : string) :
  strict_eq v (Str s) = true <-> v = Str s.
Proof.
  destruct v; cbn; try (split; discriminate).
  rewrite String.eqb_eq. split; congruence.
Qed.

Lemma entries_at_most_one (B : Builtins) (api : Maybe Api.t) :
  (length (deepfakeEntry B api) <= 1)%nat /\ (length (aiTextEntry B api) <= 1)%nat.
Proof.
  unfold deepfakeEntry, aiTextEntry.
  destruct (videoAnalysisOf api), (textAnalysisOf api);
    repeat match goal with |- context [if ?c then _ else _] => destruct c end;
    cbn; lia.
Qed.

Lemma deepfakeText_mentions (B : Builtins) (m : VideoML.t) :
  includes "Deepfake" (deepfakeText B m) = true.
Proof. reflexivity. Qed.

(** C9.  Whenever the response carries real data, the anomaly list shown is
    one entry per risk flag of the response, in order, followed by the
    synthesized deepfake entry when the response's video analysis has the
    label "fake" and no flag's text mentions "Deepfake", and by the
    synthesized AI-text entry when its text analysis has the label
    "ai-generated".  The list does not depend on the tab or on the mock
    table; it is empty when the response has no flag and no such label, and
    after a "fake" verdict it always has an entry that mentions
    "Deepfake". *)
Theorem C9_real_anomalies_only
    (B : Builtins) (loadTime : string) (tab : Tab) (api : Maybe Api.t) :
  hasRealData api = true ->
  let shown := Result.anomalies (result B loadTime tab api) in
  shown = map (flagText B) (riskFlags api)
          ++ deepfakeEntry B api ++ aiTextEntry B api /\
  (length (deepfakeEntry B api) <= 1)%nat /\
  (length (aiTextEntry B api) <= 1)%nat /\
  (forall loadTime' tab',
     Result.anomalies (result B loadTime' tab' api) = shown) /\
  (riskFlags api = [] ->
   (forall m, videoAnalysisOf api = Some m -> VideoML.label m <> Str "fake") ->
   (forall m, textAnalysisOf api = Some m ->
              TextML.label m <> Str "ai-generated") ->
   shown = []) /\
  (forall m, videoAnalysisOf api = Some m -> VideoML.label m = Str "fake" ->
     exists entry, In entry shown /\ includes "Deepfake" entry = true).
Proof.
  intros H. cbv zeta.
  assert (Hshown : forall loadTime' tab',
            Result.anomalies (result B loadTime' tab' api)
            = map (flagText B) (riskFlags api)
              ++ deepfakeEntry B api ++ aiTextEntry B api).
  { intros. cbn [Result.anomalies result]. unfold buildAnomalies, anomalyItems.
    now rewrite H, flagItems_map, deepfakeItem_raw, aiTextItem_raw. }
  destruct (entries_at_most_one B api) as [Hd Ht].
  rewrite Hshown.
  split; [reflexivity|]. split; [exact Hd|]. split; [exact Ht|].
  split; [exact Hshown|]. split.
  - intros -> Hv Hx. unfold deepfakeEntry, aiTextEntry. cbn [map existsb app].
    destruct (videoAnalysisOf api) as [m|] eqn:Em.
    + destruct (strict_eq (VideoML.label m) (Str "fake")) eqn:E.
      * apply strict_eq_str in E. now destruct (Hv m eq_refl).
      * cbn [andb app].
        destruct (textAnalysisOf api) as [x|] eqn:Ex; [|reflexivity].
        destruct (strict_eq (TextML.label x) (Str "ai-generated")) eqn:E';
          [|reflexivity].
        apply strict_eq_str in E'. now destruct (Hx x eq_refl).
    + cbn [app].
      destruct (textAnalysisOf api) as [x|] eqn:Ex; [|reflexivity].
      destruct (strict_eq (TextML.label x) (Str "ai-generated")) eqn:E';
        [|reflexivity].
      apply strict_eq_str in E'. now destruct (Hx x eq_refl).
  - intros m Hm Hl. unfold deepfakeEntry. rewrite Hm.
    apply strict_eq_str in Hl. rewrite Hl. cbn [andb].
    destruct (existsb _ (riskFlags api)) eqn:E; cbn [negb].
    + apply existsb_exists in E. destruct E as (f & Hf & Hinc).
      exists (flagText B f). split; [|exact Hinc].
      apply in_or_app. left. now apply in_map.
    + exists (deepfakeText B m). split; [|apply deepfakeText_mentions].
      apply in_or_app. right. apply in_or_app. left. now left.
Qed.

Lemma C9_witness :
  hasRealData (Obj apiDeepfake) = true /\
  Result.anomalies (result ExampleHost.host "" video (Obj apiDeepfake))
  = [ "GPS Missing: No location data in container";
      "Deepfake Detected: ML model confidence 94.0%" ] /\
  Result.anomalies (result ExampleHost.host "" image (Obj (apiScore 90))) = [].
Proof.
  split; [reflexivity|]. split.
  - refine (eq_trans
              (proj1 (C9_real_anomalies_only ExampleHost.host "" video
                        (Obj apiDeepfake) eq_refl)) _).
    vm_compute. reflexivity.
  - apply (C9_real_anomalies_only ExampleHost.host "" image (Obj (apiScore 90))
             eq_refl); [reflexivity | discriminate | discriminate].
Defined.

(** ** The analyze page: what one click does (C3, C6, C8) *)

Lemma checkBackendHealth_run {S : Type} (w : World) (s : S) (l : list Event) :
  checkBackendHealth w s l = (s, l ++ [Fetch (Get healthUrl)], inr (healthOk w)).
Proof.
  unfold checkBackendHealth, try_catch, fetch, healthOk, mbind, M_bind, bind,
    emit, ask, throw, ret, mret, M_ret.
  destruct (health w); reflexivity.
Qed.

Lemma clickAnalyze_cases (w : World) (p : Page.t) :
  clickAnalyze w p =
  if nothingToAnalyze p then (p, [])
  else if healthOk w then afterPost w p
       else (backendDown p, [Fetch (Get healthUrl); downAlert]).
Proof.
  unfold clickAnalyze, analyzeFile. fold (nothingToAnalyze p).
  destruct (nothingToAnalyze p); [reflexivity|].
  unfold mbind, M_bind, bind at 1 2 3. cbn [modify].
  rewrite checkBackendHealth_run.
  destruct (healthOk w); [|reflexivity].
  unfold afterPost, formOf, query.
  cbv [interval startRealAnalysis runAnalysis analyzeContent try_catch fetch
       mbind M_bind bind modify emit ask throw ret mret M_ret negb
       Z.add Z.geb Z.compare Pos.compare Pos.compare_cont Pos.add Pos.succ
       Pos.of_succ_nat Z.of_nat length scanMessages app fst snd].
  destruct (analyze w _) as [e|r]; [reflexivity|].
  destruct (Response.ok r); [|reflexivity].
  destruct (Response.bodyJson r); reflexivity.
Qed.

Lemma buildFormData_fields (file : option File.t) (txt : option string) :
  hasField "video" (buildFormData file txt) = bool_decide (is_Some file) /\
  hasField "query" (buildFormData file txt)
  = match txt with Some s => negb (blank s) | None => false end.
Proof.
  unfold buildFormData, blank.
  destruct file, txt as [s|]; try destruct (String.eqb s ""); now cbn.
Qed.

Lemma trim_blank (s : string) : blank s = true -> blank (trim s) = true.
Proof. unfold blank. intros ->%String.eqb_eq. reflexivity. Qed.

(** Once the first line of [analyzeFile] lets a click through, the form
    has a field. *)
Lemma formOf_nonempty (p : Page.t) :
  nothingToAnalyze p = false -> formOf p <> [].
Proof.
  unfold nothingToAnalyze, formOf, query, buildFormData.
  destruct (Page.uploadedFile p) as [f|]; [discriminate|].
  intros H. cbn in H.
  destruct (blank (Page.textInput p)) eqn:Et.
  - rewrite (trim_blank _ Et) in H. cbn in H.
    destruct (blank (Page.urlInput p)) eqn:Eu.
    + now rewrite (trim_blank _ Eu) in H.
    + unfold blank in Eu. now rewrite Eu.
  - unfold blank in Et. now rewrite Et.
Qed.

(** Every request a click makes is the probe or the POST of [formOf]. *)
Lemma click_requests (w : World) (p : Page.t) (req : Request) :
  In (Fetch req) (snd (clickAnalyze w p)) ->
  req = Get healthUrl \/
  (req = Post analyzeUrl (formOf p) /\
   nothingToAnalyze p = false /\ healthOk w = true).
Proof.
  rewrite clickAnalyze_cases.
  destruct (nothingToAnalyze p); [now cbn|].
  destruct (healthOk w).
  - unfold afterPost.
    destruct (analyze w _) as [e|r];
      [|destruct (Response.ok r); [destruct (Response.bodyJson r)|]];
      cbn; intros H; decompose [or] H; try discriminate; try contradiction;
      match goal with Heq : Fetch _ = Fetch _ |- _ => injection Heq as <- end;
      auto.
  - cbn. intros [[= <-]|[[=]|[]]]. now left.
Qed.

Lemma click_posts (w : World) (p : Page.t) :
  nothingToAnalyze p = false -> healthOk w = true ->
  In (Fetch (Post analyzeUrl (formOf p))) (snd (clickAnalyze w p)).
Proof.
  intros Hn Hh. rewrite clickAnalyze_cases, Hn, Hh. unfold afterPost.
  destruct (analyze w _) as [e|r];
    [|destruct (Response.ok r); [destruct (Response.bodyJson r)|]];
    cbn; auto.
Qed.

(** The first line of [analyzeFile] trims as the language does: a text of
    no-break spaces, line separators or other white space is nothing to
    analyze, and a click on it requests nothing. *)
Example white_text_is_nothing_to_analyze (w : World) :
  let p := Page.Build_t text idle None (nbsp +:+ "  " +:+ nbsp) " " 0 0 0 IsNull in
  nothingToAnalyze p = true /\ clickAnalyze w p = (p, []).
Proof. cbv zeta. split; reflexivity. Qed.

Example trim_keeps_inner_white_space :
  trim (nbsp +:+ " a " +:+ nbsp +:+ " b" +:+ nbsp +:+ "  ")
  = "a " +:+ nbsp +:+ " b".
Proof. reflexivity. Qed.

(** C3, as stated, fails: with a file dropped on the video tab and a URL
    typed below it, one click posts a form that has both the file field and
    the query field, and the analysis goes through; and [analyzeContent]
    called with neither posts an empty form. *)
Lemma C3_file_and_query_posted_together :
  let p := Page.Build_t video idle (Some clip) "" "https://example.com/post"
             0 0 0 IsNull in
  snd (clickAnalyze worldUp p)
  = [ Fetch (Get "http://localhost:8000/health");
      Fetch (Post "http://localhost:8000/analyze"
               [ ("video", FileField clip);
                 ("query", TextField "https://example.com/post") ]) ] /\
  Page.stage (fst (clickAnalyze worldUp p)) = results /\
  analyzeContent None (Some "") worldUp tt []
  = (tt, [ Fetch (Post "http://localhost:8000/analyze" []) ],
     inr (Obj (apiScore 50))).
Proof. cbv zeta. repeat split. Qed.

(** C3 (amended).  The form that [analyzeContent] builds has the file field
    exactly when a file is given and the query field exactly when the text
    is a non-empty string, so it may have both, one or none; nothing is
    rejected for it.  A click on the analyze page posts no form but the one
    built from the uploaded file and from the text or else the URL; it is
    posted whenever file, text and URL are not all blank and the probe
    succeeds, and it then has at least one field. *)
Theorem C3_form_fields_follow_inputs (w : World) (p : Page.t) :
  (forall file txt,
     hasField "video" (buildFormData file txt) = bool_decide (is_Some file) /\
     hasField "query" (buildFormData file txt)
     = match txt with Some s => negb (blank s) | None => false end) /\
  (forall url body,
     In (Fetch (Post url body)) (snd (clickAnalyze w p)) ->
     body = buildFormData (Page.uploadedFile p) (Some (query p)) /\ body <> []) /\
  (nothingToAnalyze p = false -> healthOk w = true ->
   In (Fetch (Post analyzeUrl (buildFormData (Page.uploadedFile p) (Some (query p)))))
      (snd (clickAnalyze w p))).
Proof.
  repeat apply conj.
  - apply buildFormData_fields.
  - intros url body [[=]|([= -> ->] & Hn & _)]%click_requests.
    split; [reflexivity | now apply formOf_nonempty].
  - apply click_posts.
Qed.

Lemma C3_witness :
  let p := Page.Build_t text idle None "Breaking: ..." "" 0 0 0 IsNull in
  nothingToAnalyze p = false /\ healthOk worldUp = true /\
  In (Fetch (Post analyzeUrl [("query", TextField "Breaking: ...")]))
     (snd (clickAnalyze worldUp p)).
Proof.
  cbv zeta. split; [reflexivity|]. split; [reflexivity|].
  exact (proj2 (proj2 (C3_form_fields_follow_inputs worldUp
           (Page.Build_t text idle None "Breaking: ..." "" 0 0 0 IsNull)))
           eq_refl eq_refl).
Defined.

(** ** The health probe (C8) *)

Lemma healthOk_iff (w : World) :
  healthOk w = true <->
  exists r, health w = Resolved r /\ 200 <= Response.status r <= 299.
Proof.
  unfold healthOk, Response.ok. destruct (health w) as [e|r].
  - split; [discriminate|]. now intros (? & [=] & _).
  - rewrite andb_true_iff, !Z.leb_le. split.
    + intros H. now exists r.
    + now intros (? & [= <-] & ?).
Qed.

(** C8.  [checkBackendHealth] makes one GET of [/health], never throws, and
    answers true exactly when that request resolves with a status from 200
    to 299; a rejected request or any other status gives false.  When it
    answers false a click on the analyze page requests nothing else: it
    alerts and puts the page back to idle. *)
Theorem C8_probe_total_and_gates_upload
    {S : Type} (w : World) (s : S) (l : list Event) (p : Page.t) :
  (exists b,
     checkBackendHealth w s l = (s, l ++ [Fetch (Get healthUrl)], inr b) /\
     (b = true <->
      exists r, health w = Resolved r /\ 200 <= Response.status r <= 299) /\
     (b = false ->
      (forall req, In (Fetch req) (snd (clickAnalyze w p)) -> req = Get healthUrl) /\
      (nothingToAnalyze p = false ->
       clickAnalyze w p
       = (backendDown p, [Fetch (Get healthUrl); downAlert]) /\
       Page.stage (fst (clickAnalyze w p)) = idle))).
Proof.
  exists (healthOk w). split; [apply checkBackendHealth_run|].
  split; [apply healthOk_iff|]. intros Hdown. split.
  - intros req [->|(_ & _ & Hup)]%click_requests; [reflexivity | congruence].
  - intros Hn. rewrite clickAnalyze_cases, Hn, Hdown. now split.
Qed.

Lemma C8_witness :
  healthOk worldDown = false /\
  clickAnalyze worldDown (Page.Build_t video idle (Some clip) "" "" 0 0 0 IsNull)
  = (Page.Build_t video idle (Some clip) "" "" 0 0 0 IsNull,
     [ Fetch (Get "http://localhost:8000/health");
       Alert "Backend API is not running at http://localhost:8000. Please start the server." ]).
Proof.
  split; [reflexivity|].
  destruct (C8_probe_total_and_gates_upload worldDown tt []
              (Page.Build_t video idle (Some clip) "" "" 0 0 0 IsNull))
    as (b & Hrun & _ & Hgate).
  injection Hrun as <-. exact (proj1 (proj2 (Hgate eq_refl) eq_refl)).
Defined.

(** A probe that resolves with a status that is not ok is a false too. *)
Example probe_503 :
  let w := {| health := Resolved {| Response.status := 503;
                                    Response.statusText := "Service Unavailable";
                                    Response.bodyText := "";
                                    Response.bodyJson := None |};
              analyze := fun _ => Rejected "" |} in
  checkBackendHealth w tt [] = (tt, [Fetch (Get healthUrl)], inr false).
Proof. reflexivity. Qed.

(** ** Upload size (C6) *)

(** The page itself never reads [File.size]: a file of any size is posted
    as soon as the probe succeeds. *)
Lemma upload_posted_whatever_size (w : World) (p : Page.t) (f : File.t) :
  Page.uploadedFile p = Some f -> healthOk w = true ->
  exists fd, In (Fetch (Post analyzeUrl (("video", FileField f) :: fd)))
                (snd (clickAnalyze w p)).
Proof.
  intros Hf Hh.
  assert (Hn : nothingToAnalyze p = false)
    by (unfold nothingToAnalyze; now rewrite Hf).
  pose proof (click_posts w p Hn Hh) as Hin.
  unfold formOf, buildFormData in Hin. rewrite Hf in Hin. cbn [app] in Hin.
  eauto.
Qed.

Example oversized_upload_is_posted :
  let p := Page.Build_t video idle (Some oversized) "" "" 0 0 0 IsNull in
  500 * 1024 * 1024 < File.size oversized /\
  snd (clickAnalyze worldUp p)
  = [ Fetch (Get "http://localhost:8000/health");
      Fetch (Post "http://localhost:8000/analyze"
               [ ("video", FileField oversized) ]) ].
Proof. cbv zeta. repeat split. Qed.

(** What a click leads to when the POST is answered with a status that is
    not ok. *)
Lemma click_refused (w : World) (p : Page.t) (r : Response.t) :
  nothingToAnalyze p = false -> healthOk w = true ->
  analyze w (formOf p) = Resolved r -> Response.ok r = false ->
  clickAnalyze w p
  = (Page.setStage idle (scanned p),
     [Fetch (Get healthUrl); Fetch (Post analyzeUrl (formOf p)); failedAlert]).
Proof.
  intros Hn Hh Ha Hr. rewrite clickAnalyze_cases, Hn, Hh.
  unfold afterPost. now rewrite Ha, Hr.
Qed.

(** C6.  In the back end as the specification describes it, an upload of
    more than 500 MB is rejected by [put] with ContentTooLarge before
    anything else happens: no content is persisted and no detector is
    invoked; an upload at or below the limit is persisted and analysed, and
    is not rejected for its size.  The front end does nothing of its own
    about the size: it posts the file whatever its size, and a refusal of
    the back end ends the click with an alert, the page back in idle and no
    result stored. *)
Theorem C6_oversized_upload_rejected_before_analysis
    (detectors : nat) (report : File.t -> Maybe Api.t) (st : Backend.State)
    (w : World) (p : Page.t) (f : File.t) :
  (Backend.maxUpload < File.size f ->
   Backend.upload detectors report f st = (inl Backend.ContentTooLarge, st)) /\
  (File.size f <= Backend.maxUpload ->
   exists st',
     Backend.upload detectors report f st = (inr (report f), st') /\
     Backend.persisted st' = Datatypes.S (Backend.persisted st) /\
     Backend.invocations st' = (Backend.invocations st + detectors)%nat) /\
  (Page.uploadedFile p = Some f -> healthOk w = true ->
   (exists fd, In (Fetch (Post analyzeUrl (("video", FileField f) :: fd)))
                  (snd (clickAnalyze w p))) /\
   (forall r, analyze w (formOf p) = Resolved r -> Response.ok r = false ->
      Page.stage (fst (clickAnalyze w p)) = idle /\
      Page.apiResult (fst (clickAnalyze w p)) = Page.apiResult p /\
      In failedAlert (snd (clickAnalyze w p)))).
Proof.
  unfold Backend.upload, Backend.put. split; [|split].
  - intros H. apply Z.ltb_lt in H. now rewrite H.
  - intros H. apply Z.ltb_ge in H. rewrite H. eexists. repeat split.
  - intros Hf Hh. split; [now apply upload_posted_whatever_size|].
    intros r Ha Hr.
    assert (Hn : nothingToAnalyze p = false)
      by (unfold nothingToAnalyze; now rewrite Hf).
    rewrite (click_refused w p r Hn Hh Ha Hr). repeat split.
    cbn. auto.
Qed.

Lemma C6_witness :
  let p := Page.Build_t video idle (Some oversized) "" "" 0 0 0 IsNull in
  Backend.upload 3 (fun _ => Obj (apiScore 50)) oversized
    {| Backend.persisted := 0; Backend.invocations := 0 |}
  = (inl Backend.ContentTooLarge,
     {| Backend.persisted := 0; Backend.invocations := 0 |}) /\
  Page.stage (fst (clickAnalyze worldRefusing p)) = idle /\
  Page.apiResult (fst (clickAnalyze worldRefusing p)) = IsNull.
Proof.
  cbv zeta.
  destruct (C6_oversized_upload_rejected_before_analysis 3
              (fun _ => Obj (apiScore 50))
              {| Backend.persisted := 0; Backend.invocations := 0 |}
              worldRefusing
              (Page.Build_t video idle (Some oversized) "" "" 0 0 0 IsNull)
              oversized) as (Hbig & _ & Hfront).
  split; [apply Hbig; reflexivity|].
  destruct (Hfront eq_refl eq_refl) as (_ & Hrefused).
  destruct (Hrefused _ eq_refl eq_refl) as (Hs & Hr & _).
  split; [exact Hs | exact Hr].
Defined.

Example upload_within_limit_is_analysed :
  Backend.upload 3 (fun _ => Obj (apiScore 50)) clip
    {| Backend.persisted := 0; Backend.invocations := 0 |}
  = (inr (Obj (apiScore 50)),
     {| Backend.persisted := 1; Backend.invocations := 3 |}).
Proof. reflexivity. Qed.

(** ** Authentication (C10) *)

Lemma login_state (email : string) (a : Auth.t) :
  let a' := Auth.login email a in
  Auth.user a' = Some {| User.email := email |} /\
  Auth.isAuthenticated a' = true /\
  Auth.localStorage a' !! userKey = Some (User.stringify {| User.email := email |}) /\
  (forall k, k <> userKey -> Auth.localStorage a' !! k = Auth.localStorage a !! k).
Proof.
  cbv zeta. unfold Auth.login, userKey. cbn. repeat split.
  - apply lookup_insert_eq.
  - intros k Hk. now apply lookup_insert_ne.
Qed.

Lemma signup_is_login (email : string) (a : Auth.t) :
  Auth.signup email a = Auth.login email a.
Proof. reflexivity. Qed.

Lemma logout_state (a : Auth.t) :
  let a' := Auth.logout a in
  Auth.user a' = None /\ Auth.isAuthenticated a' = false /\
  Auth.localStorage a' !! userKey = None /\
  (forall k, k <> userKey -> Auth.localStorage a' !! k = Auth.localStorage a !! k).
Proof.
  cbv zeta. unfold Auth.logout, userKey. cbn. repeat split.
  - apply lookup_delete_eq.
  - intros k Hk. now apply lookup_delete_ne.
Qed.

(** C10.  Submitting the login form or the signup form with the same email
    gives the same authentication state whatever the password (and, for
    signup, whatever the name): the user is [{ email }], the entry stored
    under "truth_x_user" is the JSON text of that object, which has the
    email as its only member, every other entry of the storage is left as it
    was, and [isAuthenticated] is true.  Logging out afterwards removes the
    entry and makes [isAuthenticated] false. *)
Theorem C10_auth_state_ignores_password
    (email pw1 pw2 name1 name2 : string) (busy1 busy2 : bool) (a : Auth.t) :
  let l1 := LoginPage.Build_form email pw1 busy1 in
  let l2 := LoginPage.Build_form email pw2 busy2 in
  let s1 := SignupPage.Build_form name1 email pw1 busy1 in
  let s2 := SignupPage.Build_form name2 email pw2 busy2 in
  let a' := snd (LoginPage.handleSubmit l1 a) in
  snd (LoginPage.handleSubmit l2 a) = a' /\
  snd (SignupPage.handleSubmit s1 a) = a' /\
  snd (SignupPage.handleSubmit s2 a) = a' /\
  Auth.user a' = Some {| User.email := email |} /\
  Auth.isAuthenticated a' = true /\
  Auth.localStorage a' !! userKey
  = Some ("{" +:+ jsonString "email" +:+ ":" +:+ jsonString email +:+ "}") /\
  (forall k, k <> userKey -> Auth.localStorage a' !! k = Auth.localStorage a !! k) /\
  Auth.isAuthenticated (Auth.logout a') = false /\
  Auth.localStorage (Auth.logout a') !! userKey = None.
Proof.
  cbv zeta. cbn [LoginPage.handleSubmit SignupPage.handleSubmit snd
                 LoginPage.email SignupPage.email].
  destruct (login_state email a) as (Hu & Hi & Hs & Ho).
  destruct (logout_state (Auth.login email a)) as (_ & Hi' & Hs' & _).
  cbv zeta in *. repeat apply conj; try assumption; reflexivity.
Qed.

Lemma C10_witness :
  let a := {| Auth.user := None; Auth.localStorage := ∅; Auth.route := "/login" |} in
  snd (LoginPage.handleSubmit (LoginPage.Build_form "ada@example.com" "hunter2" false) a)
  = snd (LoginPage.handleSubmit (LoginPage.Build_form "ada@example.com" "" false) a) /\
  Auth.localStorage
    (snd (LoginPage.handleSubmit (LoginPage.Build_form "ada@example.com" "" false) a))
    !! userKey
  = Some ("{" +:+ dq +:+ "email" +:+ dq +:+ ":" +:+ dq +:+ "ada@example.com"
          +:+ dq +:+ "}").
Proof.
  cbv zeta.
  destruct (C10_auth_state_ignores_password "ada@example.com" "" "hunter2" "" ""
              false false
              {| Auth.user := None; Auth.localStorage := ∅; Auth.route := "/login" |})
    as (H1 & _ & _ & _ & _ & H2 & _).
  split; [exact H1 | exact H2].
Defined.


(** * Further properties of the code *)

(** ** [buildStatus] *)

(** X1.  For a response that carries a numeric score and neither a video
    nor a text analysis, the status text follows the score with thresholds
    70 and 40: "Likely Authentic" from 70, "Suspicious" from 40 up to 70,
    "AI-Generated / Manipulated" below 40.  These are not the thresholds of
    the colouring: from 70 up to 75 the status reads "Likely Authentic" in
    the colour of medium risk, and from 40 up to 45 it reads "Suspicious" in
    the colour of high risk. *)
Theorem X1_status_follows_score_70_40
    (B : Builtins) (loadTime : string) (tab : Tab) (a : Api.t) (q : Q) :
  Api.score a = Num q ->
  present (Api.video_analysis a) = false ->
  present (Api.text_analysis a) = false ->
  let r := result B loadTime tab (Obj a) in
  ((70 <= q)%Q -> Result.status r = "Likely Authentic") /\
  ((40 <= q)%Q /\ (q < 70)%Q -> Result.status r = "Suspicious") /\
  ((q < 40)%Q -> Result.status r = "AI-Generated / Manipulated") /\
  ((70 <= q)%Q /\ (q < 75)%Q ->
     scoreColor B (Result.score r) = "#ffd700") /\
  ((40 <= q)%Q /\ (q < 45)%Q ->
     scoreColor B (Result.score r) = "#ff4444").
Proof.
  intros Hs Hv Ht. cbv zeta. rewrite result_score.
  cbn [Result.status result opt_leaf]. rewrite Hs. cbn [nullish].
  unfold buildStatus, videoStatus, textStatus, videoML, textML, hasRealData,
    realScore, scoreColor.
  cbn [opt_obj opt_leaf]. rewrite Hs.
  destruct (Api.video_analysis a); try discriminate;
    destruct (Api.text_analysis a); try discriminate;
    cbn [nullish strict_ne strict_eq negb orb andb];
    rewrite ?orb_true_r; cbn [andb];
    rewrite !(js_ge_num B (Num q) q) by reflexivity;
    (repeat apply conj;
     [ intros H; apply Qle_bool_iff in H; now rewrite H
     | intros [H1 H2]; apply Qle_bool_iff in H1; apply Qle_bool_false in H2;
       now rewrite H2, H1
     | intros H;
       assert (H70 : (q < 70)%Q) by (eapply Qlt_trans; [exact H | reflexivity]);
       apply Qle_bool_false in H, H70; now rewrite H70, H
     | intros [H1 H2];
       assert (H45 : (45 <= q)%Q) by (eapply Qle_trans; [|exact H1]; discriminate);
       apply Qle_bool_iff in H45; apply Qle_bool_false in H2; now rewrite H2, H45
     | intros [H1 H2];
       assert (H75 : (q < 75)%Q) by (eapply Qlt_trans; [exact H2 | reflexivity]);
       apply Qle_bool_false in H2, H75; now rewrite H75, H2 ]).
Qed.

Lemma X1_witness :
  Result.status (result ExampleHost.host "" video (Obj (apiScore 72)))
  = "Likely Authentic" /\
  scoreColor ExampleHost.host
    (Result.score (result ExampleHost.host "" video (Obj (apiScore 72))))
  = "#ffd700".
Proof.
  destruct (X1_status_follows_score_70_40 ExampleHost.host "" video
              (apiScore 72) 72 eq_refl eq_refl eq_refl) as (H1 & _ & _ & H4 & _).
  split.
  - apply H1. discriminate.
  - apply H4. split; [discriminate | reflexivity].
Defined.

(** X2.  A verdict of the video model decides the status whatever the score
    and the text analysis say: the label "fake" gives "Deepfake Detected" and
    the label "real" gives "Likely Authentic".  When the video model gives no
    such verdict, a verdict of the text model decides it in the same way. *)
Theorem X2_model_verdict_overrides_score
    (B : Builtins) (loadTime : string) (tab : Tab) (a : Api.t) :
  let r := result B loadTime tab (Obj a) in
  (forall m, Api.video_analysis a = Obj m ->
     (VideoML.label m = Str "fake" -> Result.status r = "Deepfake Detected") /\
     (VideoML.label m = Str "real" -> Result.status r = "Likely Authentic")) /\
  (forall m, videoStatus (Obj a) = None -> Api.text_analysis a = Obj m ->
     (TextML.label m = Str "ai-generated" ->
      Result.status r = "AI-Generated Text") /\
     (TextML.label m = Str "human-written" ->
      Result.status r = "Human-Written")).
Proof.
  cbv zeta. cbn [Result.status result]. unfold buildStatus. split.
  - intros m Hm. unfold videoStatus, videoML. cbn [opt_obj]. rewrite Hm.
    split; intros ->; reflexivity.
  - intros m Hv Hm. rewrite Hv. unfold textStatus, textML. cbn [opt_obj].
    rewrite Hm. split; intros ->; reflexivity.
Qed.

Lemma X2_witness :
  Result.score (result ExampleHost.host "" video (Obj apiDeepfake)) = Num 12 /\
  Result.status (result ExampleHost.host "" video (Obj apiDeepfake))
  = "Deepfake Detected".
Proof.
  split; [reflexivity|].
  exact (proj1 (proj1 (X2_model_verdict_overrides_score ExampleHost.host ""
                         video apiDeepfake) _ eq_refl) eq_refl).
Defined.

(** ** [buildInsights] and [buildAnomalies] *)


Lemma mock_anomalies_nonempty (loadTime : string) (tab : Tab) :
  Mock.anomalies (mockResults loadTime tab) <> [].
Proof. destruct tab; discriminate. Qed.





Example apiTextAndArticle_insights :
  Result.insights (result ExampleHost.host "" text (Obj apiTextAndArticle))
  = [ "The AI text detector identified this content as AI-generated with 87.5% probability. The text shows patterns consistent with large language model output.";
      "Found 1 related fact-check article(s). Top match: " +:+ dq +:+
      "Viral claim debunked" +:+ dq +:+ " (similarity: 82%)." ].
Proof. vm_compute. reflexivity. Qed.

(** X4.  Without real data the anomalies shown are never empty: they are
    one entry per risk flag of the response, in the response's order, when
    it has any, and the mock row's anomalies when it has none. *)
Theorem X4_anomalies_without_real_data
    (B : Builtins) (loadTime : string) (tab : Tab) (api : Maybe Api.t) :
  hasRealData api = false ->
  let r := result B loadTime tab api in
  Result.anomalies r <> [] /\
  (riskFlags api = [] ->
   Result.anomalies r = Mock.anomalies (mockResults loadTime tab)) /\
  (riskFlags api <> [] ->
   Result.anomalies r = map (flagText B) (riskFlags api) /\
   forall loadTime' tab',
     Result.anomalies (result B loadTime' tab' api) = Result.anomalies r).
Proof.
  intros H. pose proof H as (_ & Hv & Ht & _)%hasRealData_false.
  cbv zeta. cbn [Result.anomalies result].
  unfold buildAnomalies, anomalyItems, deepfakeItem, aiTextItem, mock.
  rewrite H, flagItems_map.
  destruct (videoML api); try discriminate;
    destruct (textML api); try discriminate;
    cbn [app]; rewrite app_nil_r;
    (destruct (riskFlags api) as [|f fs]; cbn;
     [ split; [apply mock_anomalies_nonempty|]; split;
       [reflexivity | contradiction]
     | split; [discriminate|]; split; [discriminate|]; split; reflexivity ]).
Qed.

Lemma X4_witness :
  hasRealData (Obj apiFlagsOnly) = false /\
  Result.anomalies (result ExampleHost.host "" image (Obj apiFlagsOnly))
  = [ "GPS Missing: No location data in container";
      "Re-encoded: Encoder tag Lavf58.76.100" ] /\
  Result.anomalies (result ExampleHost.host "" image (Obj Api.empty))
  = Mock.anomalies (mockResults "" image).
Proof.
  split; [reflexivity|]. split.
  - refine (proj1 (proj2 (proj2 (X4_anomalies_without_real_data ExampleHost.host
                                   "" image (Obj apiFlagsOnly) eq_refl)) _)).
    discriminate.
  - exact (proj1 (proj2 (X4_anomalies_without_real_data ExampleHost.host ""
                           image (Obj Api.empty) eq_refl)) eq_refl).
Defined.

(** ** The fingerprint card *)

Ltac sub_list :=
  repeat first [ apply sublist_nil_l | apply sublist_skip | apply sublist_cons ].

Ltac labels_of unf :=
  unf; split_whens; cbn [map app Fingerprint.label item]; sub_list.

Lemma realFingerprint_labels (B : Builtins) (api : Maybe Api.t) :
  map Fingerprint.label (realFingerprint B api) `sublist_of` allLabels.
Proof.
  unfold realFingerprint. rewrite !map_app.
  change allLabels with
    ([ "File Name"; "Container Format"; "File Size"; "Duration";
       "Total Bitrate"; "Streams" ]
     ++ [ "Video Codec"; "Resolution"; "Aspect Ratio"; "Frame Rate";
          "Video Bitrate"; "Pixel Format"; "Bit Depth"; "Color Space";
          "Total Frames"; "Rotation" ]
     ++ [ "Audio Codec"; "Sample Rate"; "Channels"; "Audio Bitrate";
          "Language" ]
     ++ [ "Camera / Device"; "Manufacturer"; "Software" ]
     ++ [ "GPS Location" ]
     ++ [ "Creation Time"; "Encoder"; "Major Brand"; "Title"; "Comment" ]).
  repeat apply sublist_app.
  - labels_of ltac:(unfold fileItems).
  - labels_of ltac:(unfold videoItems).
  - labels_of ltac:(unfold audioItems).
  - labels_of ltac:(unfold deviceItems).
  - unfold gpsItems. destruct (truthy _); cbn; sub_list.
  - labels_of ltac:(unfold tagItems).
Qed.

Lemma allLabels_NoDup : NoDup allLabels.
Proof. apply (bool_decide_unpack (NoDup allLabels)). vm_compute. exact I. Qed.

Lemma realFingerprint_at_least (B : Builtins) (api : Maybe Api.t) :
  (7 <= length (realFingerprint B api))%nat.
Proof.
  unfold realFingerprint. rewrite !length_app.
  assert (length (fileItems B api (fi api) (vid api)) = 6%nat) as -> by reflexivity.
  assert (length (gpsItems (tags api)) = 1%nat) as ->
    by (unfold gpsItems; now destruct (truthy _)).
  lia.
Qed.

(** X5.  With real data the fingerprint has between 7 and 30 entries, its
    labels are pairwise distinct, and they come in the one order in which
    [buildFingerprint] can push them. *)
Theorem X5_fingerprint_labels_distinct_and_bounded
    (B : Builtins) (loadTime : string) (tab : Tab) (api : Maybe Api.t) :
  hasRealData api = true ->
  let fpr := Result.fingerprint (result B loadTime tab api) in
  NoDup (map Fingerprint.label fpr) /\
  map Fingerprint.label fpr `sublist_of` allLabels /\
  (7 <= length fpr <= 30)%nat.
Proof.
  intros H. cbv zeta. cbn [Result.fingerprint result].
  unfold buildFingerprint. rewrite H. cbn [negb].
  pose proof (realFingerprint_labels B api) as Hsub.
  repeat split.
  - exact (sublist_NoDup _ _ allLabels_NoDup Hsub).
  - exact Hsub.
  - apply realFingerprint_at_least.
  - apply sublist_length in Hsub. now rewrite length_map in Hsub.
Qed.

Lemma X5_witness :
  hasRealData (Obj apiLowBitrate) = true /\
  NoDup (map Fingerprint.label
           (Result.fingerprint
              (result ExampleHost.host "" video (Obj apiLowBitrate)))).
Proof.
  split; [reflexivity|].
  exact (proj1 (X5_fingerprint_labels_distinct_and_bounded ExampleHost.host ""
                  video (Obj apiLowBitrate) eq_refl)).
Defined.

Lemma headingsFrom_group (s : string) (l k : list Fingerprint.item) :
  s <> "" -> sectioned s l ->
  forall last,
    headingsFrom last (l ++ k)
    = (if nonempty l && negb (String.eqb s last) then [s] else [])
      ++ headingsFrom (if nonempty l then s else last) k.
Proof.
  intros Hs Hl. induction Hl as [|it l Hit Hl IH]; intros last; [reflexivity|].
  cbn [app headingsFrom nonempty andb]. rewrite Hit.
  apply String.eqb_neq in Hs. rewrite Hs, IH, String.eqb_refl.
  rewrite andb_false_r. cbn [app].
  destruct (nonempty l); destruct (String.eqb s last); reflexivity.
Qed.

Lemma headingsFrom_groups (gs : list (string * list Fingerprint.item)) :
  NoDup (map fst gs) ->
  Forall (fun g => fst g <> "" /\ sectioned (fst g) (snd g)) gs ->
  forall last, last ∉ map fst gs ->
    headingsFrom last (concat (map snd gs))
    = map fst (List.filter (fun g => nonempty (snd g)) gs).
Proof.
  induction gs as [|[s l] gs IH]; intros Hnd Hall last Hlast; [reflexivity|].
  cbn [map fst snd concat List.filter] in *.
  apply NoDup_cons in Hnd as [Hs Hnd].
  apply Forall_cons in Hall as [[Hne Hsec] Hall].
  apply not_elem_of_cons in Hlast as [Hls Hlast].
  rewrite (headingsFrom_group s l _ Hne Hsec).
  assert (String.eqb s last = false) as -> by (apply String.eqb_neq; congruence).
  rewrite andb_true_r. destruct (nonempty l); cbn [app map fst].
  - f_equal. now apply IH.
  - now apply IH.
Qed.

Lemma sectioned_of_inSection (s : string) (l : list Fingerprint.item) :
  Forall (inSection s) l -> sectioned s l.
Proof. intros H. eapply Forall_impl; [exact H|]. now intros it [? _]. Qed.

Lemma fingerprintGroups_sectioned (B : Builtins) (api : Maybe Api.t) :
  Forall (fun g => fst g <> "" /\ sectioned (fst g) (snd g))
         (fingerprintGroups B api).
Proof.
  unfold fingerprintGroups.
  repeat (apply Forall_cons; split; [split; [discriminate|]|]);
    [ apply sectioned_of_inSection, fileItems_section
    | apply sectioned_of_inSection, videoItems_section
    | apply sectioned_of_inSection, audioItems_section
    | apply sectioned_of_inSection, deviceItems_section
    | apply sectioned_of_inSection, gpsItems_section
    | apply sectioned_of_inSection, tagItems_section
    | apply Forall_nil_2 ].
Qed.

Lemma realFingerprint_groups (B : Builtins) (api : Maybe Api.t) :
  realFingerprint B api = concat (map snd (fingerprintGroups B api)).
Proof.
  unfold realFingerprint, fingerprintGroups. cbn [map snd concat].
  now rewrite app_nil_r.
Qed.

Lemma headings_real (B : Builtins) (api : Maybe Api.t) :
  headings (realFingerprint B api)
  = map fst (List.filter (fun g => nonempty (snd g)) (fingerprintGroups B api)).
Proof.
  unfold headings. rewrite realFingerprint_groups.
  apply headingsFrom_groups.
  - apply (bool_decide_unpack (NoDup sectionOrder)). vm_compute. exact I.
  - apply fingerprintGroups_sectioned.
  - change (map fst (fingerprintGroups B api)) with sectionOrder.
    apply (bool_decide_unpack ("" ∉ sectionOrder)). vm_compute. exact I.
Qed.

Lemma filter_fst_sublist {A C : Type} (f : A * C -> bool) (gs : list (A * C)) :
  map fst (List.filter f gs) `sublist_of` map fst gs.
Proof.
  induction gs as [|g gs IH]; cbn; [constructor|].
  destruct (f g); cbn; [now apply sublist_skip | now apply sublist_cons].
Qed.

(** X6.  In the fingerprint card built from real data every section heading
    is shown once: the headings are the names of the sections that have at
    least one entry, in the order File, Video, Audio, Device, Location, Tags;
    File and Location are always among them.  The mock fingerprints, whose
    entries have no section, are shown without any heading. *)
Theorem X6_section_headings_once_each
    (B : Builtins) (loadTime : string) (tab : Tab) (api : Maybe Api.t) :
  let fpr := Result.fingerprint (result B loadTime tab api) in
  (hasRealData api = true ->
     NoDup (headings fpr) /\
     headings fpr `sublist_of` sectionOrder /\
     "File" ∈ headings fpr /\ "Location" ∈ headings fpr /\
     (forall s, s ∈ headings fpr <->
                exists it, it ∈ fpr /\ Fingerprint.section it = Some s)) /\
  (hasRealData api = false -> headings fpr = []).
Proof.
  cbv zeta. cbn [Result.fingerprint result]. unfold buildFingerprint. split.
  - intros ->. cbn [negb]. rewrite headings_real.
    assert (Hsub : map fst (List.filter (fun g => nonempty (snd g))
                              (fingerprintGroups B api))
                   `sublist_of` sectionOrder)
      by apply (filter_fst_sublist _ (fingerprintGroups B api)).
    repeat apply conj.
    + refine (sublist_NoDup _ _ _ Hsub).
      apply (bool_decide_unpack (NoDup sectionOrder)). vm_compute. exact I.
    + exact Hsub.
    + apply list_elem_of_In, in_map_iff. exists ("File", fileItems B api (fi api) (vid api)).
      split; [reflexivity|]. apply filter_In. split; [now left | reflexivity].
    + apply list_elem_of_In, in_map_iff. exists ("Location", gpsItems (tags api)).
      split; [reflexivity|]. apply filter_In. split.
      * cbn. tauto.
      * unfold gpsItems. now destruct (truthy _).
    + intros s. rewrite realFingerprint_groups. rewrite list_elem_of_In, in_map_iff.
      pose proof (fingerprintGroups_sectioned B api) as Hall.
      rewrite Forall_forall in Hall. split.
      * intros ([s' l] & <- & [Hin Hne]%filter_In). cbn [fst snd] in *.
        destruct l as [|it l]; [discriminate|]. exists it. split.
        -- apply list_elem_of_In, in_concat. exists (it :: l). split.
           ++ apply in_map_iff. exists (s', it :: l). now split.
           ++ now left.
        -- apply list_elem_of_In in Hin. destruct (Hall _ Hin) as [_ Hsec].
           cbn [fst snd] in Hsec. apply Forall_cons in Hsec. tauto.
      * intros (it & Hit & Hsec).
        apply list_elem_of_In, in_concat in Hit as (l & Hl & Hitl).
        apply in_map_iff in Hl as ([s' l'] & Heq & Hin). cbn [snd] in Heq. subst l'.
        exists (s', l). split.
        -- cbn [fst]. apply list_elem_of_In in Hin. destruct (Hall _ Hin) as [_ Hsec'].
           cbn [fst snd] in Hsec'. unfold sectioned in Hsec'.
           rewrite Forall_forall in Hsec'. apply list_elem_of_In in Hitl.
           specialize (Hsec' _ Hitl). congruence.
        -- apply filter_In. split; [exact Hin|]. cbn [snd].
           destruct l; [contradiction | reflexivity].
  - intros ->. cbn [negb]. unfold mock. destruct tab; reflexivity.
Qed.

Lemma X6_witness :
  hasRealData (Obj apiLowBitrate) = true /\
  headings (Result.fingerprint
              (result ExampleHost.host "" video (Obj apiLowBitrate)))
  `sublist_of` sectionOrder.
Proof.
  split; [reflexivity|].
  exact (proj1 (proj2 (proj1 (X6_section_headings_once_each ExampleHost.host ""
                                video (Obj apiLowBitrate)) eq_refl))).
Defined.

Example apiLowBitrate_headings :
  headings (Result.fingerprint
              (result ExampleHost.host "" video (Obj apiLowBitrate)))
  = [ "File"; "Video"; "Location"; "Tags" ].
Proof. vm_compute. reflexivity. Qed.

(** ** Timeline and risk badge *)

(** X7.  The timeline card never shows anything of the response: it shows
    the first four steps of the mock row of the active tab, and always
    exactly four, whatever the response is. *)
Theorem X7_timeline_is_always_mock
    (B : Builtins) (loadTime : string) (tab : Tab) (api api' : Maybe Api.t) :
  let r := result B loadTime tab api in
  shownTimeline r = take 4 (Mock.timeline (mockResults loadTime tab)) /\
  length (shownTimeline r) = 4%nat /\
  shownTimeline (result B loadTime tab api') = shownTimeline r.
Proof.
  cbv zeta. unfold shownTimeline. cbn [Result.timeline result]. unfold mock.
  repeat split. destruct tab; reflexivity.
Qed.

Lemma riskConfig_some_iff (risk : JsVal) :
  is_Some (riskConfig risk) <->
  risk = Str "low" \/ risk = Str "medium" \/ risk = Str "high".
Proof.
  split.
  - intros [cfg H]. destruct risk as [| | |q|s]; try discriminate.
    destruct (String.eqb_spec s "low") as [->|H1]; [tauto|].
    destruct (String.eqb_spec s "medium") as [->|H2]; [tauto|].
    destruct (String.eqb_spec s "high") as [->|H3]; [tauto|].
    exfalso. revert H H1 H2 H3. unfold riskConfig.
    repeat match goal with
           | |- context [match ?x with _ => _ end] =>
             is_var x; destruct x; try discriminate; try congruence
           | |- context [if ?b then _ else _] =>
             is_var b; destruct b; try discriminate; try congruence
           end.
  - intros [ -> | [ -> | -> ] ]; cbn; eauto.
Qed.

(** X8.  The risk badge has a configuration exactly for the three risk
    levels "low", "medium" and "high".  The merged result therefore always
    has one when the response supplies no risk level (the mock rows use the
    three levels only), and when the response supplies one the badge has a
    configuration only if that level is one of the three. *)
Theorem X8_risk_badge_defined_for_three_levels
    (B : Builtins) (loadTime : string) (tab : Tab) (api : Maybe Api.t) :
  let r := result B loadTime tab api in
  let k := opt_leaf api Api.risk_level in
  (is_Some (riskConfig (Result.risk r)) <->
   Result.risk r = Str "low" \/ Result.risk r = Str "medium" \/
   Result.risk r = Str "high") /\
  (~ supplied k -> is_Some (riskConfig (Result.risk r))) /\
  (supplied k -> Result.risk r = k /\
                 (is_Some (riskConfig (Result.risk r)) <->
                  k = Str "low" \/ k = Str "medium" \/ k = Str "high")).
Proof.
  cbv zeta. rewrite result_risk. split; [|split].
  - apply riskConfig_some_iff.
  - intros Hk. rewrite (nullish_not_supplied _ _ Hk).
    destruct tab; cbn; eauto.
  - intros Hk. rewrite (nullish_supplied _ _ Hk).
    split; [reflexivity | apply riskConfig_some_iff].
Qed.

Lemma X8_witness :
  supplied (Str "unknown") /\
  ~ is_Some (riskConfig
               (Result.risk (result ExampleHost.host "" video (Obj apiUnknown)))).
Proof.
  split; [split; discriminate|].
  destruct (X8_risk_badge_defined_for_three_levels ExampleHost.host "" video
              (Obj apiUnknown)) as (_ & _ & H).
  destruct H as [_ Hiff]; [split; discriminate|].
  intros Hs. apply Hiff in Hs. destruct Hs as [Hs|[Hs|Hs]]; discriminate Hs.
Defined.

Ltac settle :=
  repeat split; intros;
  repeat match goal with
         | H : exists _, _ |- _ => destruct H
         | H : _ /\ _ |- _ => destruct H
         end;
  simplify_eq; try contradiction; try tauto; eauto 6.

(** ** [analyzeContent] *)

(** X9.  [analyzeContent] makes exactly one request, the POST of the form it
    built, and leaves the caller's state alone.  It returns the parsed body
    exactly when the request resolves with a status from 200 to 299 and a
    JSON body; a rejected request, any other status (reported with its
    status, status text and body) and a body that is not JSON are thrown. *)
Theorem X9_analyzeContent_outcomes
    {S : Type} (file : option File.t) (txt : option string)
    (w : World) (s : S) (l : list Event) :
  let form := buildFormData file txt in
  let out := analyzeContent file txt w s l in
  fst out = (s, l ++ [Fetch (Post analyzeUrl form)]) /\
  (forall j, snd out = inr j <->
     exists r, analyze w form = Resolved r /\
               200 <= Response.status r <= 299 /\ Response.bodyJson r = Some j) /\
  (forall e, analyze w form = Rejected e -> snd out = inl (NetworkError e)) /\
  (forall r, analyze w form = Resolved r ->
     ~ (200 <= Response.status r <= 299) ->
     snd out = inl (ApiError (Response.status r) (Response.statusText r)
                             (Response.bodyText r))) /\
  (forall r, analyze w form = Resolved r ->
     200 <= Response.status r <= 299 -> Response.bodyJson r = None ->
     snd out = inl JsonError).
Proof.
  cbv zeta.
  assert (Hok : forall r, Response.ok r = true <-> 200 <= Response.status r <= 299).
  { intros r. unfold Response.ok. rewrite andb_true_iff, !Z.leb_le. tauto. }
  unfold analyzeContent, try_catch, fetch, mbind, M_bind, bind, emit, ask,
    throw, ret, mret, M_ret.
  destruct (analyze w (buildFormData file txt)) as [e|r] eqn:Ea; cbn [fst snd].
  - split; [reflexivity|]. settle.
  - destruct (Response.ok r) eqn:Er; cbn [negb fst snd].
    + apply Hok in Er.
      destruct (Response.bodyJson r) as [j|] eqn:Ej; cbn [fst snd];
        (split; [reflexivity|]); settle.
    + assert (Hn : ~ (200 <= Response.status r <= 299))
        by (intros H%Hok; congruence).
      split; [reflexivity|]. settle.
Qed.

Lemma X9_witness :
  snd (analyzeContent (Some clip) None worldDown tt [])
  = inl (NetworkError "Failed to fetch").
Proof.
  exact (proj1 (proj2 (proj2 (X9_analyzeContent_outcomes (Some clip) None
                                worldDown tt [])))
           "Failed to fetch" eq_refl).
Defined.

(** ** The analyze page *)

Lemma afterPost_inputs (w : World) (p : Page.t) :
  let p' := fst (afterPost w p) in
  Page.uploadedFile p' = Page.uploadedFile p /\
  Page.textInput p' = Page.textInput p /\
  Page.urlInput p' = Page.urlInput p /\
  Page.activeTab p' = Page.activeTab p.
Proof.
  cbv zeta. unfold afterPost.
  destruct (analyze w _) as [e|r];
    [|destruct (Response.ok r); [destruct (Response.bodyJson r)|]];
    repeat split.
Qed.

(** X10.  Once the requests of a click that has something to analyze have
    settled, the page is in the results stage or back in idle, not in the
    uploading or scanning stage.  It is in results exactly when the probe
    succeeds and the POST resolves with an ok status and a JSON body, which
    is then stored as the API result; in every other case the stored result
    is left as it was.  The file, the text, the URL and the tab are never
    changed. *)
Theorem X10_click_ends_in_results_or_idle (w : World) (p : Page.t) :
  nothingToAnalyze p = false ->
  let p' := fst (clickAnalyze w p) in
  (Page.stage p' = results \/ Page.stage p' = idle) /\
  (Page.stage p' = results <->
   healthOk w = true /\
   exists r j, analyze w (formOf p) = Resolved r /\
               Response.ok r = true /\ Response.bodyJson r = Some j /\
               Page.apiResult p' = j) /\
  (Page.stage p' = idle -> Page.apiResult p' = Page.apiResult p) /\
  Page.uploadedFile p' = Page.uploadedFile p /\
  Page.textInput p' = Page.textInput p /\
  Page.urlInput p' = Page.urlInput p /\
  Page.activeTab p' = Page.activeTab p.
Proof.
  intros Hn. cbv zeta. rewrite clickAnalyze_cases, Hn.
  destruct (healthOk w); [|cbn; settle; discriminate].
  pose proof (afterPost_inputs w p) as Hin. cbv zeta in Hin.
  split; [|split; [|split; [|exact Hin]]]; clear Hin; unfold afterPost;
    destruct (analyze w (formOf p)) as [e|r];
    [ | destruct (Response.ok r) eqn:Er;
        [destruct (Response.bodyJson r) as [j|] eqn:Ej|] | |
      destruct (Response.ok r) eqn:Er;
        [destruct (Response.bodyJson r) as [j|] eqn:Ej|] | |
      destruct (Response.ok r) eqn:Er;
        [destruct (Response.bodyJson r) as [j|] eqn:Ej|] ];
    cbn; settle; try discriminate; try congruence.
Qed.

Lemma X10_witness :
  Page.stage (fst (clickAnalyze worldDown
                     (Page.Build_t video idle (Some clip) "" "" 0 0 0 IsNull)))
  = idle.
Proof.
  destruct (X10_click_ends_in_results_or_idle worldDown
              (Page.Build_t video idle (Some clip) "" "" 0 0 0 IsNull) eq_refl)
    as ([H|H] & _); [discriminate H | exact H].
Defined.

(** The file part of the form. *)
Lemma formOf_parts (p : Page.t) :
  formOf p
  = match Page.uploadedFile p with
    | Some f => [("video", FileField f)]
    | None => []
    end
    ++ (if blank (Page.textInput p)
        then if blank (Page.urlInput p) then []
             else [("query", TextField (Page.urlInput p))]
        else [("query", TextField (Page.textInput p))]).
Proof.
  unfold formOf, query, buildFormData, blank.
  destruct (String.eqb (Page.textInput p) "") eqn:Et.
  - now destruct (String.eqb (Page.urlInput p) "").
  - now rewrite Et.
Qed.

(** X11.  The query that is posted is the text input whenever that is not
    the empty string, and the URL input only when the text input is empty;
    so a URL typed beside a text is never sent.  The emptiness test is made
    on the raw text while the button looks at the trimmed one: a text of
    white space only, together with a URL, is let through by the button and
    is posted as the query in place of the URL. *)
Theorem X11_text_input_shadows_url (w : World) (p : Page.t) :
  nothingToAnalyze p = false -> healthOk w = true ->
  Page.textInput p <> "" ->
  let file := match Page.uploadedFile p with
              | Some f => [("video", FileField f)]
              | None => []
              end in
  In (Fetch (Post analyzeUrl (file ++ [("query", TextField (Page.textInput p))])))
     (snd (clickAnalyze w p)) /\
  forall url body, In (Fetch (Post url body)) (snd (clickAnalyze w p)) ->
    body = file ++ [("query", TextField (Page.textInput p))].
Proof.
  intros Hn Hh Ht. cbv zeta.
  assert (Hf : formOf p
               = match Page.uploadedFile p with
                 | Some f => [("video", FileField f)]
                 | None => []
                 end ++ [("query", TextField (Page.textInput p))]).
  { rewrite formOf_parts. apply String.eqb_neq in Ht. unfold blank.
    now rewrite Ht. }
  rewrite <- Hf. split.
  - now apply click_posts.
  - intros url body [[=]|([= -> ->] & _)]%click_requests. reflexivity.
Qed.

Lemma X11_witness :
  let p := Page.Build_t text idle None (" " +:+ nbsp)
             "https://example.com/post" 0 0 0 IsNull in
  blank (trim (Page.textInput p)) = true /\
  In (Fetch (Post analyzeUrl [("query", TextField (" " +:+ nbsp))]))
     (snd (clickAnalyze worldUp p)).
Proof.
  cbv zeta. split; [reflexivity|].
  refine (proj1 (X11_text_input_shadows_url worldUp
            (Page.Build_t text idle None (" " +:+ nbsp)
               "https://example.com/post" 0 0 0 IsNull) eq_refl eq_refl _)).
  discriminate.
Defined.

(** X12.  [reset] empties the file, the text, the URL and the stored result
    and puts the stage back to idle, keeping the active tab; doing it twice
    is doing it once, and a click right after it requests nothing and
    changes nothing. *)
Theorem X12_reset_leaves_nothing_to_analyze (w : World) (p : Page.t) :
  let p' := PageOps.reset p in
  Page.stage p' = idle /\ Page.apiResult p' = IsNull /\
  Page.uploadedFile p' = None /\ Page.textInput p' = "" /\
  Page.urlInput p' = "" /\ Page.scanStep p' = 0 /\ Page.scanProgress p' = 0 /\
  Page.activeTab p' = Page.activeTab p /\
  PageOps.reset p' = p' /\
  clickAnalyze w p' = (p', []).
Proof.
  cbv zeta. repeat split.
Qed.

(** X13.  Choosing a tab drops the uploaded file and keeps the text and the
    URL that were typed: whatever the next click posts has no file field,
    and a text typed on the text tab is still what is posted from a tab that
    does not show it. *)
Theorem X13_tab_switch_drops_file_keeps_text
    (w : World) (tab : Tab) (p : Page.t) :
  let p' := PageOps.switchTab tab p in
  Page.activeTab p' = tab /\ Page.uploadedFile p' = None /\
  Page.textInput p' = Page.textInput p /\ Page.urlInput p' = Page.urlInput p /\
  (forall url body, In (Fetch (Post url body)) (snd (clickAnalyze w p')) ->
     hasField "video" body = false /\
     (Page.textInput p <> "" ->
      body = [("query", TextField (Page.textInput p))])).
Proof.
  cbv zeta. repeat apply conj; try reflexivity.
  intros url body [[=]|([= -> ->] & _)]%click_requests.
  rewrite formOf_parts. cbn [PageOps.switchTab PageOps.setUploadedFile
    PageOps.setActiveTab Page.uploadedFile Page.textInput Page.urlInput app].
  unfold blank. split.
  - destruct (String.eqb (Page.textInput p) "");
      [destruct (String.eqb (Page.urlInput p) "")|]; reflexivity.
  - intros Ht. apply String.eqb_neq in Ht. now rewrite Ht.
Qed.

Lemma X13_witness :
  let p := Page.Build_t text idle (Some clip) "Breaking: ..." "" 0 0 0 IsNull in
  snd (clickAnalyze worldUp (PageOps.switchTab video p))
  = [ Fetch (Get healthUrl);
      Fetch (Post analyzeUrl [("query", TextField "Breaking: ...")]) ] /\
  hasField "video" [("query", TextField "Breaking: ...")] = false.
Proof.
  cbv zeta. split; [reflexivity|].
  refine (proj1 (proj2 (proj2 (proj2 (proj2
           (X13_tab_switch_drops_file_keeps_text worldUp video
              (Page.Build_t text idle (Some clip) "Breaking: ..." "" 0 0 0 IsNull)))))
           analyzeUrl [("query", TextField "Breaking: ...")] _)).
  right. left. reflexivity.
Defined.

(** X14.  For every scan step from 0 on the overlay has a message to show,
    also once the step has run past the last index: from step 6 on it is the
    last message.  The list of steps shown beside it is the first
    [min (step + 1) 7] messages.  A negative step would read no message. *)
Theorem X14_scan_message_always_defined (scanStep : Z) :
  (0 <= scanStep ->
   (exists msg, PageOps.currentMessage scanStep = Some msg /\
                scanMessages !! Z.to_nat (Z.min scanStep 6) = Some msg) /\
   (6 <= scanStep ->
    PageOps.currentMessage scanStep = Some "Compiling forensic report...") /\
   length (PageOps.listedSteps scanStep)
   = Z.to_nat (Z.min (scanStep + 1) 7) /\
   PageOps.listedSteps scanStep `prefix_of` scanMessages) /\
  (scanStep < 0 -> PageOps.currentMessage scanStep = None).
Proof.
  unfold PageOps.currentMessage, PageOps.listedSteps.
  change (Z.of_nat (length scanMessages)) with 7. change (7 - 1) with 6.
  split.
  - intros H0.
    assert (Hlt : (Z.min scanStep 6 <? 0) = false) by (apply Z.ltb_ge; lia).
    rewrite Hlt. repeat apply conj.
    + assert (Hi : (Z.to_nat (Z.min scanStep 6) < length scanMessages)%nat)
        by (cbn [length scanMessages]; lia).
      apply lookup_lt_is_Some_2 in Hi as [msg Hmsg]. eauto.
    + intros H6. rewrite Z.min_r by lia. reflexivity.
    + rewrite length_take. cbn [length scanMessages]. lia.
    + apply prefix_take.
  - intros Hneg. rewrite Z.min_l by lia.
    assert ((scanStep <? 0) = true) as -> by (apply Z.ltb_lt; lia). reflexivity.
Qed.

Lemma X14_witness :
  PageOps.currentMessage 7 = Some "Compiling forensic report...".
Proof.
  refine (proj1 (proj2 (proj1 (X14_scan_message_always_defined 7) _)) _);
    discriminate.
Defined.

(** X15.  Of the files dropped on the page (or chosen in the dialog) only
    the first is kept, and it replaces the file kept before; an empty drop
    changes nothing.  With the probe succeeding, the next click posts that
    first file, and no other file is in anything it posts. *)
Theorem X15_first_dropped_file_is_posted
    (w : World) (p : Page.t) (f : File.t) (others : list File.t) :
  let p' := PageOps.handleDrop (f :: others) p in
  PageOps.handleDrop [] p = p /\
  PageOps.handleFileChange (f :: others) p = p' /\
  Page.uploadedFile p' = Some f /\
  (healthOk w = true ->
   exists fd, In (Fetch (Post analyzeUrl (("video", FileField f) :: fd)))
                 (snd (clickAnalyze w p'))) /\
  (forall url body k g,
     In (Fetch (Post url body)) (snd (clickAnalyze w p')) ->
     In (k, FileField g) body -> g = f).
Proof.
  cbv zeta. repeat apply conj; try reflexivity.
  - intros Hh. now apply upload_posted_whatever_size.
  - intros url body k g [[=]|([= -> ->] & _)]%click_requests.
    rewrite formOf_parts. cbn [PageOps.handleDrop PageOps.setUploadedFile
      Page.uploadedFile Page.textInput Page.urlInput app].
    destruct (blank (Page.textInput p)); [destruct (blank (Page.urlInput p))|];
      cbn; intros H; decompose [or] H; try contradiction; congruence.
Qed.

Lemma X15_witness :
  healthOk worldUp = true /\
  exists fd,
    In (Fetch (Post analyzeUrl (("video", FileField clip) :: fd)))
       (snd (clickAnalyze worldUp
               (PageOps.handleDrop [clip; oversized]
                  (Page.Build_t video idle None "" "" 0 0 0 IsNull)))).
Proof.
  split; [reflexivity|].
  exact (proj1 (proj2 (proj2 (proj2
           (X15_first_dropped_file_is_posted worldUp
              (Page.Build_t video idle None "" "" 0 0 0 IsNull) clip [oversized]))))
           eq_refl).
Defined.

(** ** What [login] stores, read back *)

Lemma append_assoc (a b c : string) : (a +:+ b) +:+ c = a +:+ (b +:+ c).
Proof.
  induction a as [|x a IH]; [reflexivity|].
  change (String x ((a +:+ b) +:+ c) = String x (a +:+ (b +:+ c))).
  now f_equal.
Qed.

Lemma length_append (a b : string) :
  String.length (a +:+ b) = (String.length a + String.length b)%nat.
Proof.
  induction a as [|x a IH]; [reflexivity|].
  change (Datatypes.S (String.length (a +:+ b))
          = Datatypes.S (String.length a + String.length b)).
  now f_equal.
Qed.

Lemma jsonEscape_nonempty (c : Ascii.ascii) :
  (1 <= String.length (jsonEscape c))%nat.
Proof. destruct c as [[] [] [] [] [] [] [] []]; vm_compute; lia. Qed.

Lemma jsonChars_length (s : string) :
  (String.length s <= String.length (jsonChars s))%nat.
Proof.
  induction s as [|c s IH]; [reflexivity|].
  cbn [jsonChars]. rewrite length_append. pose proof (jsonEscape_nonempty c).
  cbn [String.length]. lia.
Qed.

(** Reading one escaped character gives the character back. *)
Lemma chars_escape (c : Ascii.ascii) (n : nat) (k : string) :
  Unquote.chars (Datatypes.S n) (jsonEscape c +:+ k)
  = match Unquote.chars n k with
    | Some (t, r) => Some (String c t, r)
    | None => None
    end.
Proof.
  destruct c as [[] [] [] [] [] [] [] []]; reflexivity.
Qed.

Lemma chars_jsonChars (s : string) :
  forall fuel rest, (String.length s < fuel)%nat ->
    Unquote.chars fuel (jsonChars s +:+ dq +:+ rest) = Some (s, rest).
Proof.
  induction s as [|c s IH]; intros [|n] rest Hf; cbn in Hf; try lia.
  - reflexivity.
  - cbn [jsonChars]. rewrite append_assoc, chars_escape, IH by lia.
    reflexivity.
Qed.

Lemma literal_jsonString (s : string) :
  Unquote.literal (jsonString s) = Some s.
Proof.
  unfold jsonString.
  change (dq +:+ jsonChars s +:+ dq)
    with (String (Ascii.ascii_of_nat 34) (jsonChars s +:+ dq +:+ "")).
  unfold Unquote.literal.
  change (Ascii.nat_of_ascii (Ascii.ascii_of_nat 34) =? 34)%nat with true.
  cbv iota. rewrite chars_jsonChars; [reflexivity|].
  rewrite length_append. pose proof (jsonChars_length s). lia.
Qed.

Lemma user_stringify (u : User.t) : Unquote.user (User.stringify u) = Some u.
Proof.
  destruct u as [email]. unfold Unquote.user, User.stringify.
  cbn [User.email].
  assert (Hs : Unquote.stripPrefix ("{" +:+ jsonString "email" +:+ ":")
                 ("{" +:+ jsonString "email" +:+ ":" +:+ jsonString email +:+ "}")
               = Some (String (Ascii.ascii_of_nat 34)
                         (jsonChars email +:+ dq +:+ "}"))).
  { unfold jsonString at 3. rewrite !append_assoc. reflexivity. }
  rewrite Hs.
  change (Ascii.nat_of_ascii (Ascii.ascii_of_nat 34) =? 34)%nat with true.
  cbv iota. rewrite chars_jsonChars; [reflexivity|].
  rewrite length_append. pose proof (jsonChars_length email). lia.
Qed.

Lemma stringify_inj (u1 u2 : User.t) :
  User.stringify u1 = User.stringify u2 -> u1 = u2.
Proof.
  intros H. apply (f_equal Unquote.user) in H.
  rewrite !user_stringify in H. congruence.
Qed.

(** X16.  What [login] stores determines the email: the stored text is read
    back to the very user object that was written, whatever characters the
    email contains (quotes, backslashes and control characters included),
    and two different emails never give the same stored text. *)
Theorem X16_stored_user_reads_back (email email' : string) (a : Auth.t) :
  Unquote.literal (jsonString email) = Some email /\
  (Unquote.user <$> Auth.localStorage (Auth.login email a) !! userKey)
  = Some (Some {| User.email := email |}) /\
  (Auth.localStorage (Auth.login email a) !! userKey
   = Auth.localStorage (Auth.login email' a) !! userKey -> email = email').
Proof.
  destruct (login_state email a) as (_ & _ & Hs & _).
  destruct (login_state email' a) as (_ & _ & Hs' & _).
  cbv zeta in *. rewrite Hs, Hs'. repeat split.
  - apply literal_jsonString.
  - cbn. now rewrite user_stringify.
  - intros H. apply (inj Some), stringify_inj in H. congruence.
Qed.

Lemma X16_witness :
  let tricky := "a" +:+ dq +:+ "b\" +:+ String (Ascii.ascii_of_nat 10) "@x" in
  Unquote.literal (jsonString tricky) = Some tricky /\
  jsonString tricky
  = dq +:+ "a\" +:+ dq +:+ "b\\\n@x" +:+ dq.
Proof.
  cbv zeta. split; [|reflexivity].
  exact (proj1 (X16_stored_user_reads_back _ ""
                  {| Auth.user := None; Auth.localStorage := ∅;
                     Auth.route := "/" |})).
Defined.

Lemma chars_append (a b : string) :
  String.list_ascii_of_string (a +:+ b)
  = String.list_ascii_of_string a ++ String.list_ascii_of_string b.
Proof.
  induction a as [|x a IH]; [reflexivity|].
  change (x :: String.list_ascii_of_string (a +:+ b)
          = x :: (String.list_ascii_of_string a ++ String.list_ascii_of_string b)).
  now f_equal.
Qed.

Lemma jsonEscape_printable (c : Ascii.ascii) :
  Forall printable (String.list_ascii_of_string (jsonEscape c)).
Proof.
  assert (H : forallb (fun x => (32 <=? Ascii.nat_of_ascii x)%nat)
                (String.list_ascii_of_string (jsonEscape c)) = true)
    by (destruct c as [[] [] [] [] [] [] [] []]; vm_compute; reflexivity).
  apply Forall_forall. intros x Hx%list_elem_of_In.
  rewrite forallb_forall in H. now apply Nat.leb_le, H.
Qed.

Lemma jsonChars_printable (s : string) :
  Forall printable (String.list_ascii_of_string (jsonChars s)).
Proof.
  induction s as [|c s IH]; [constructor|].
  cbn [jsonChars]. rewrite chars_append. apply Forall_app. split; [|exact IH].
  apply jsonEscape_printable.
Qed.

(** X17.  The text stored under "truth_x_user" never contains a control
    character, whatever the email: every character below 32 of the email is
    written as an escape. *)
Theorem X17_stored_text_has_no_control_character (email : string) (a : Auth.t) :
  exists stored,
    Auth.localStorage (Auth.login email a) !! userKey = Some stored /\
    Forall printable (String.list_ascii_of_string stored).
Proof.
  destruct (login_state email a) as (_ & _ & Hs & _). cbv zeta in Hs.
  eexists. split; [exact Hs|].
  unfold User.stringify, jsonString. cbn [User.email].
  rewrite !chars_append. repeat (apply Forall_app; split);
    try apply jsonChars_printable;
    repeat constructor; apply Nat.leb_le; reflexivity.
Qed.

(** ** Sessions *)

Lemma stringify_not_empty (u : User.t) : String.eqb (User.stringify u) "" = false.
Proof. reflexivity. Qed.

(** X18.  A session survives a page load: after [login], a freshly mounted
    provider reads the stored entry back and has the same user again, with
    the storage untouched; after [logout] it finds nothing and stays logged
    out.  A stored text that [JSON.parse] rejects is not survived: the
    [SyntaxError] is thrown inside the effect, where nothing catches it.
    ([JSON_parse] is any function that reads back what [JSON.stringify]
    writes.) *)
Theorem X18_session_survives_reload
    (JSON_parse : string -> Session.parsed) (email : string) (a : Auth.t) :
  (forall u, JSON_parse (User.stringify u) = Session.ParsedUser u) ->
  Session.mount JSON_parse (Session.reload (Auth.login email a))
  = Session.Ready
      {| Auth.user := Some {| User.email := email |};
         Auth.localStorage := Auth.localStorage (Auth.login email a);
         Auth.route := Auth.route (Auth.login email a) |} /\
  Session.mount JSON_parse (Session.reload (Auth.logout (Auth.login email a)))
  = Session.Ready (Session.reload (Auth.logout (Auth.login email a))) /\
  Auth.isAuthenticated (Session.reload (Auth.logout (Auth.login email a)))
  = false /\
  (forall stored b,
     Auth.localStorage b !! userKey = Some stored -> stored <> "" ->
     JSON_parse stored = Session.Throws ->
     Session.mount JSON_parse (Session.reload b) = Session.Uncaught).
Proof.
  intros Hparse. repeat apply conj.
  - unfold Session.mount, Session.reload, Auth.login.
    cbn [Auth.localStorage Auth.user Auth.route].
    rewrite lookup_insert_eq, stringify_not_empty, Hparse. reflexivity.
  - unfold Session.mount, Session.reload, Auth.logout.
    cbn [Auth.localStorage Auth.user Auth.route].
    now rewrite lookup_delete_eq.
  - reflexivity.
  - intros stored b Hb Hne Hthrows. unfold Session.mount, Session.reload.
    cbn [Auth.localStorage]. unfold userKey in Hb. rewrite Hb, Hthrows.
    apply String.eqb_neq in Hne. now rewrite Hne.
Qed.

Lemma X18_witness :
  Session.mount
    (fun stored => match Unquote.user stored with
                   | Some u => Session.ParsedUser u
                   | None => Session.Throws
                   end)
    (Session.reload
       (Auth.login "ada@example.com"
          {| Auth.user := None; Auth.localStorage := ∅;
             Auth.route := "/login" |}))
  = Session.Ready
      {| Auth.user := Some {| User.email := "ada@example.com" |};
         Auth.localStorage :=
           Auth.localStorage
             (Auth.login "ada@example.com"
                {| Auth.user := None; Auth.localStorage := ∅;
                   Auth.route := "/login" |});
         Auth.route := "/" |}.
Proof.
  refine (proj1 (X18_session_survives_reload _ "ada@example.com"
                   {| Auth.user := None; Auth.localStorage := ∅;
                      Auth.route := "/login" |} _)).
  intros u. now rewrite user_stringify.
Defined.

(** X19.  The last login wins: logging in (or signing up) over an existing
    session, or after a logout, gives the state that a single login gives.
    Logging out twice is logging out once.  Logging in and out again leaves
    the storage as it was apart from the entry of the user, which is gone;
    if there was no such entry the storage is exactly what it was. *)
Theorem X19_login_logout_compose (email email' : string) (a : Auth.t) :
  Auth.login email' (Auth.login email a) = Auth.login email' a /\
  Auth.login email' (Auth.signup email a) = Auth.login email' a /\
  Auth.login email (Auth.logout a) = Auth.login email a /\
  Auth.logout (Auth.logout a) = Auth.logout a /\
  Auth.localStorage (Auth.logout (Auth.login email a))
  = delete userKey (Auth.localStorage a) /\
  (Auth.localStorage a !! userKey = None ->
   Auth.localStorage (Auth.logout (Auth.login email a)) = Auth.localStorage a).
Proof.
  unfold Auth.login, Auth.signup, Auth.logout, userKey.
  cbn [Auth.localStorage Auth.user Auth.route].
  rewrite !insert_insert_eq, insert_delete_eq, delete_delete_eq,
    delete_insert_eq.
  repeat split. intros H. now apply delete_id.
Qed.

Lemma X19_witness :
  Auth.localStorage
    (Auth.logout
       (Auth.login "ada@example.com"
          {| Auth.user := None; Auth.localStorage := {[ "theme" := "dark" ]};
             Auth.route := "/login" |}))
  = {[ "theme" := "dark" ]}.
Proof.
  refine (proj2 (proj2 (proj2 (proj2 (proj2
            (X19_login_logout_compose "ada@example.com" ""
               {| Auth.user := None; Auth.localStorage := {[ "theme" := "dark" ]};
                  Auth.route := "/login" |}))))) _).
  reflexivity.
Defined.

(** ** The navbar *)







(** ** The history page *)

Lemma insert_sorted_perm {A : Type} (cmp : A -> A -> Q) (x : A) (l : list A) :
  HistoryPage.insert_sorted cmp x l ≡ₚ x :: l.
Proof.
  induction l as [|y l IH]; cbn; [reflexivity|].
  destruct (Qle_bool (cmp x y) 0); [reflexivity|].
  rewrite IH. apply Permutation_swap.
Qed.

Lemma sort_perm {A : Type} (cmp : A -> A -> Q) (l : list A) :
  HistoryPage.sort cmp l ≡ₚ l.
Proof.
  induction l as [|x l IH]; cbn; [reflexivity|].
  now rewrite insert_sorted_perm, IH.
Qed.

Lemma insert_sorted_ordered {A : Type} (cmp : A -> A -> Q) (R : A -> A -> Prop)
    (x : A) (l : list A) :
  (forall a b, Qle_bool (cmp a b) 0 = true -> R a b) ->
  (forall a b, Qle_bool (cmp a b) 0 = false -> R b a) ->
  (forall a b c, R a b -> R b c -> R a c) ->
  StronglySorted R l -> StronglySorted R (HistoryPage.insert_sorted cmp x l).
Proof.
  intros Hle Hgt Htr. induction 1 as [|y l Hs IH Hy]; cbn.
  - repeat constructor.
  - destruct (Qle_bool (cmp x y) 0) eqn:E.
    + constructor; [now constructor|].
      constructor; [now apply Hle|].
      eapply Forall_impl; [exact Hy|]. intros z Hz. eapply Htr; [|exact Hz].
      now apply Hle.
    + constructor; [exact IH|].
      rewrite insert_sorted_perm. constructor; [now apply Hgt | exact Hy].
Qed.

Lemma sort_ordered {A : Type} (cmp : A -> A -> Q) (R : A -> A -> Prop)
    (l : list A) :
  (forall a b, Qle_bool (cmp a b) 0 = true -> R a b) ->
  (forall a b, Qle_bool (cmp a b) 0 = false -> R b a) ->
  (forall a b c, R a b -> R b c -> R a c) ->
  StronglySorted R (HistoryPage.sort cmp l).
Proof.
  intros Hle Hgt Htr. induction l as [|x l IH]; cbn; [constructor|].
  now apply insert_sorted_ordered.
Qed.

Lemma includes_empty (s : string) : includes "" s = true.
Proof. now destruct s. Qed.

Lemma Qminus_le_0 (x y : Q) : (y - x <= 0)%Q <-> (y <= x)%Q.
Proof.
  destruct x as [xn xd], y as [yn yd].
  unfold Qle, Qminus, Qplus, Qopp. cbn [Qnum Qden]. lia.
Qed.

Lemma filtered_elem
    (toLowerCase : string -> string) (localeCompare : string -> string -> Q)
    (search : string) (filterStatus : HistoryPage.FilterStatus)
    (sortBy : HistoryPage.SortBy) (rows : list HistoryPage.row)
    (r : HistoryPage.row) :
  r ∈ filtered toLowerCase localeCompare search filterStatus sortBy rows <->
  r ∈ rows /\ matchSearch toLowerCase search r = true /\
  matchFilter toLowerCase filterStatus r = true.
Proof.
  unfold filtered.
  rewrite sort_perm, !list_elem_of_In, filter_In, andb_true_iff. tauto.
Qed.

(** X21.  The table shown on the history page is a rearrangement of exactly
    the rows that match both the search and the filter: no row is shown
    twice or invented, and no matching row is dropped, whatever the sort
    order.  With the search box empty and the filter on "all" every row of
    the table is shown. *)
Theorem X21_history_shows_exactly_the_matches
    (toLowerCase : string -> string) (localeCompare : string -> string -> Q)
    (search : string) (filterStatus : HistoryPage.FilterStatus)
    (sortBy : HistoryPage.SortBy) (rows : list HistoryPage.row) :
  let shown := filtered toLowerCase localeCompare search filterStatus sortBy rows in
  shown ≡ₚ List.filter (fun r => matchSearch toLowerCase search r
                                 && matchFilter toLowerCase filterStatus r) rows /\
  (forall r, r ∈ shown <->
     r ∈ rows /\ matchSearch toLowerCase search r = true /\
     matchFilter toLowerCase filterStatus r = true) /\
  (toLowerCase search = "" -> filterStatus = HistoryPage.all -> shown ≡ₚ rows).
Proof.
  cbv zeta. unfold filtered.
  assert (Hp := sort_perm (compareRows localeCompare sortBy)
                  (List.filter (fun r => matchSearch toLowerCase search r
                                   && matchFilter toLowerCase filterStatus r) rows)).
  split; [exact Hp|]. split.
  - intros r. apply filtered_elem.
  - intros Hs ->. rewrite Hp. clear Hp. unfold matchSearch, matchFilter.
    rewrite Hs. induction rows as [|r rows IH]; [reflexivity|].
    cbn [List.filter]. rewrite !includes_empty. cbn [orb andb].
    now constructor.
Qed.

Lemma X21_witness :
  filtered asciiLower (fun _ _ => 0%Q) "" HistoryPage.all HistoryPage.by_score
    historySample
  ≡ₚ historySample.
Proof.
  exact (proj2 (proj2 (X21_history_shows_exactly_the_matches asciiLower
                         (fun _ _ => 0%Q) "" HistoryPage.all
                         HistoryPage.by_score historySample))
           eq_refl eq_refl).
Defined.

(** X22.  Sorted by score, the table is in descending order of score: every
    row has a score at least as high as every row shown after it. *)
Theorem X22_history_sorted_by_score_descending
    (toLowerCase : string -> string) (localeCompare : string -> string -> Q)
    (search : string) (filterStatus : HistoryPage.FilterStatus)
    (rows : list HistoryPage.row) :
  StronglySorted
    (fun a b => (History.score (HistoryPage.item b)
                 <= History.score (HistoryPage.item a))%Q)
    (filtered toLowerCase localeCompare search filterStatus
       HistoryPage.by_score rows).
Proof.
  unfold filtered. apply sort_ordered; cbn [compareRows].
  - intros a b H. apply Qle_bool_iff in H. now apply Qminus_le_0.
  - intros a b H. apply Qle_bool_false in H. apply Qlt_le_weak.
    apply Qnot_le_lt. intros Hle. apply Qminus_le_0 in Hle.
    exact (Qlt_not_le _ _ H Hle).
  - intros a b c H1 H2. exact (Qle_trans _ _ _ H2 H1).
Qed.

Example historySample_by_score :
  map (fun r => History.id (HistoryPage.item r))
    (filtered asciiLower (fun _ _ => 0%Q) "AUTHENTIC" HistoryPage.all
       HistoryPage.by_score historySample)
  = [ "4"; "9" ].
Proof. vm_compute. reflexivity. Qed.

Lemma getScoreColor_green (q : Q) :
  getScoreColor q = "#00ff9d" <-> Qle_bool 75 q = true.
Proof.
  unfold getScoreColor. destruct (Qle_bool 75 q); [tauto|].
  destruct (Qle_bool 45 q); split; discriminate.
Qed.

(** X23.  The "Authentic" filter goes by the score alone: a row is shown
    under it exactly when it matches the search and its score is at least
    75, which is exactly when its score is shown in green; neither its
    status text nor its risk level is looked at. *)
Theorem X23_authentic_filter_is_the_green_rows
    (toLowerCase : string -> string) (localeCompare : string -> string -> Q)
    (search : string) (sortBy : HistoryPage.SortBy)
    (rows : list HistoryPage.row) (r : HistoryPage.row) :
  r ∈ filtered toLowerCase localeCompare search HistoryPage.authentic sortBy rows
  <-> r ∈ rows /\ matchSearch toLowerCase search r = true /\
      (75 <= History.score (HistoryPage.item r))%Q /\
      getScoreColor (History.score (HistoryPage.item r)) = "#00ff9d".
Proof.
  rewrite filtered_elem. cbn [matchFilter].
  rewrite getScoreColor_green, Qle_bool_iff. tauto.
Qed.
